(** * LockIn AI: the session telemetry and alerting engine of App.jsx

    A shallow embedding of the React component [App] (second revision of
    frontend/src/App.jsx, the one with the vision socket, the alert queue and
    the "most common distractor" resolver), and the properties of its
    classifier, smoother, timeline, alert scheduler and session controller.

    Conventions of the embedding
    - a JavaScript value that comes out of [JSON.parse] is a [JsVal];
      numbers are IEEE doubles ([float]); an absent property reads as
      [JUndefined];
    - a string is a sequence of code units below 256, so [toLowerCase] and
      [trim] are those of JavaScript on Latin-1 text;
    - an operation that can raise a [TypeError] returns an [outcome];
    - [Date.now()] is an integer number of milliseconds ([Z]); a handler or
      an effect reads the clock once, the reading is a parameter;
    - the three built-ins whose algorithms are not part of the repository
      ([String(number)], [Number(string)], [Math.round] on a double) are the
      fields of the class [JsEngine]. *)

From Stdlib Require Import ZArith QArith Qabs Bool List String Ascii Lia Arith.
From Stdlib Require Import DecimalString.
From Stdlib Require Import Floats.PrimFloat Floats.FloatOps Floats.SpecFloat.
From Stdlib Require Import Numbers.Cyclic.Int63.Uint63.
Import ListNotations.

(* A decimal literal denotes the closest double, as in JavaScript. *)
Set Warnings "-inexact-float".
Close Scope Q_scope.
Local Open Scope string_scope.
Local Open Scope list_scope.
Local Open Scope nat_scope.

(* ================================================================== *)
(** * Part I. Definitions                                              *)
(* ================================================================== *)

(** ** JavaScript strings *)

Module JsString.

(** Code units that [String.prototype.toLowerCase] changes, below 256:
    A..Z and the Latin-1 capitals U+00C0..U+00DE except U+00D7. *)
Definition is_upper (c : ascii) : bool :=
  let n := nat_of_ascii c in
  ((65 <=? n) && (n <=? 90))
  || ((192 <=? n) && (n <=? 222) && negb (n =? 215)).

Definition lower_char (c : ascii) : ascii :=
  if is_upper c then ascii_of_nat (nat_of_ascii c + 32) else c.

Fixpoint toLowerCase (s : string) : string :=
  match s with
  | EmptyString => EmptyString
  | String c rest => String (lower_char c) (toLowerCase rest)
  end.

(** White space and line terminators of ECMAScript below 256:
    TAB, LF, VT, FF, CR, SP and NBSP. *)
Definition is_space (c : ascii) : bool :=
  let n := nat_of_ascii c in
  ((9 <=? n) && (n <=? 13)) || (n =? 32) || (n =? 160).

Fixpoint trimStart (s : string) : string :=
  match s with
  | EmptyString => EmptyString
  | String c rest => if is_space c then trimStart rest else s
  end.

(** [trimEnd] keeps a character when it is not a space or when something
    that is kept follows it. *)
Fixpoint trimEnd (s : string) : string :=
  match s with
  | EmptyString => EmptyString
  | String c rest =>
      match trimEnd rest with
      | EmptyString => if is_space c then EmptyString else String c EmptyString
      | kept => String c kept
      end
  end.

Definition trim (s : string) : string := trimEnd (trimStart s).

Fixpoint startsWith (needle s : string) : bool :=
  match needle, s with
  | EmptyString, _ => true
  | String _ _, EmptyString => false
  | String a n', String b s' => Ascii.eqb a b && startsWith n' s'
  end.

(** [s.includes(needle)] *)
Fixpoint includes (s needle : string) : bool :=
  startsWith needle s
  || match s with
     | EmptyString => false
     | String _ rest => includes rest needle
     end.

Definition is_empty (s : string) : bool :=
  match s with EmptyString => true | _ => false end.

End JsString.
Import JsString.

(** ** JavaScript values and the conversions the component uses *)

(** Completion of an operation: a value, or a thrown [TypeError]. *)
Inductive outcome (A : Type) : Type :=
| Returns (a : A)
| Throws.
Arguments Returns {A} a.
Arguments Throws {A}.

Definition bind {A B : Type} (m : outcome A) (k : A -> outcome B) : outcome B :=
  match m with
  | Returns a => k a
  | Throws => Throws
  end.

Notation "x <- m ;; k" := (bind m (fun x => k))
  (at level 61, m at next level, right associativity).

#[warnings="-register-all"]
Inductive JsVal : Type :=
| JUndefined
| JNull
| JBool (b : bool)
| JNum (x : float)
| JStr (s : string)
| JArr (items : list JsVal)
| JObj (props : list (string * JsVal)).

(** Built-ins of the engine that the repository calls but does not define. *)
Class JsEngine : Type := {
  (** [String(x)] for a number [x] *)
  Number_toString : float -> string;
  (** [Number(s)] for a string [s] *)
  Number_ofString : string -> float;
  (** [Math.round(x)] *)
  Math_round : float -> float
}.

Module Js.

(** ToBoolean *)
Definition truthy (v : JsVal) : bool :=
  match v with
  | JUndefined | JNull => false
  | JBool b => b
  | JNum x => negb (PrimFloat.is_zero x || PrimFloat.is_nan x)
  | JStr s => negb (is_empty s)
  | JArr _ | JObj _ => true
  end.

(** [a || b] *)
Definition or_else (a b : JsVal) : JsVal := if truthy a then a else b.

(** [a ?? b] *)
Definition coalesce (a b : JsVal) : JsVal :=
  match a with
  | JUndefined | JNull => b
  | _ => a
  end.

Fixpoint own (props : list (string * JsVal)) (key : string) : option JsVal :=
  match props with
  | [] => None
  | (k, v) :: rest => if String.eqb k key then Some v else own rest key
  end.

(** [v?.key] and the destructuring [{ key } = v], for the keys the
    component reads (h_ratio, v_ratio, left_ear, state, objects, volume,
    config, include_talking): no prototype defines any of them, so only an
    own property of an object can answer. *)
Definition field (v : JsVal) (key : string) : JsVal :=
  match v with
  | JObj props => match own props key with Some x => x | None => JUndefined end
  | _ => JUndefined
  end.

(** [typeof v === "number"] *)
Definition as_number (v : JsVal) : option float :=
  match v with
  | JNum x => Some x
  | _ => None
  end.

Section Conversions.
Context {E : JsEngine}.

(** [String(v)]. An array is joined with commas, [null] and [undefined]
    elements giving the empty string. A parsed object answers
    "[object Object]" through [Object.prototype.toString], unless it has
    an own property [toString]: that one is no function, and neither
    [valueOf] gives a primitive, so the conversion throws. *)
Fixpoint ToString (v : JsVal) : outcome string :=
  match v with
  | JUndefined => Returns "undefined"
  | JNull => Returns "null"
  | JBool true => Returns "true"
  | JBool false => Returns "false"
  | JNum x => Returns (Number_toString x)
  | JStr s => Returns s
  | JArr items =>
      (fix join (l : list JsVal) : outcome string :=
         match l with
         | [] => Returns ""
         | x :: rest =>
             sx <- match x with
                   | JUndefined | JNull => Returns ""
                   | _ => ToString x
                   end ;;
             match rest with
             | [] => Returns sx
             | _ :: _ => sr <- join rest ;; Returns (sx ++ "," ++ sr)%string
             end
         end) items
  | JObj props =>
      match own props "toString" with
      | Some _ => Throws
      | None => Returns "[object Object]"
      end
  end.

(** [xs.map(f)] for a value [xs]: only an array has [map]. *)
Fixpoint mapM {A : Type} (f : JsVal -> outcome A) (l : list JsVal)
  : outcome (list A) :=
  match l with
  | [] => Returns []
  | x :: rest => y <- f x ;; ys <- mapM f rest ;; Returns (y :: ys)
  end.

Definition array_map {A : Type} (xs : JsVal) (f : JsVal -> outcome A)
  : outcome (list A) :=
  match xs with
  | JArr items => mapM f items
  | _ => Throws
  end.

End Conversions.

End Js.
Import Js.

(** ** DetectionConfig and the classifier *)

Record VisionConfig : Type := {
  hMin : float;
  hMax : float;
  vMin : float;
  vMax : float;
  earThreshold : float;
  audioThreshold : float;
  includeTalking : bool;
  includeObjects : bool
}.

(** [useState({ hMin: 0.35, ... })] *)
Definition initialVisionConfig : VisionConfig :=
  {| hMin := 0.35; hMax := 0.65; vMin := 0.35; vMax := 0.6;
     earThreshold := 0.3; audioThreshold := 1.5;
     includeTalking := true; includeObjects := true |}.

Inductive Reason : Type :=
| distractor | audio | no_face | eyes_closed | by_state | centered | off_center.

Record Verdict : Type := { focused : bool; reason : Reason }.

Definition distractedObjects : list string :=
  ["phone"; "cell phone"; "tablet"; "ipad"; "book"].

(** [distractedObjects.includes(item)] *)
Definition array_includes (l : list string) (item : string) : bool :=
  existsb (String.eqb item) l.

Section Classifier.
Context {E : JsEngine}.

(** The rule cascade of [evaluateFocus], on the normalised state, the
    normalised object names and the three raw numeric fields. *)
Definition cascade (visionConfig : VisionConfig) (effectiveIncludeTalking : JsVal)
           (normalizedState : string) (normalizedObjects : list string)
           (leftEar hRatio vRatio : JsVal) : Verdict :=
  let hasDistractor :=
    existsb (fun item => array_includes distractedObjects item) normalizedObjects in
  if hasDistractor then {| focused := false; reason := distractor |}
  else if includes normalizedState "phone" || includes normalizedState "book"
  then {| focused := false; reason := distractor |}
  else if truthy effectiveIncludeTalking && includes normalizedState "talking"
  then {| focused := false; reason := audio |}
  else if includes normalizedState "no face"
  then {| focused := false; reason := no_face |}
  else if match as_number leftEar with
          | Some e => PrimFloat.ltb e (earThreshold visionConfig)
          | None => false
          end
  then {| focused := false; reason := eyes_closed |}
  else if String.eqb normalizedState "focused" || String.eqb normalizedState "at screen"
  then {| focused := true; reason := by_state |}
  else if match as_number hRatio, as_number vRatio with
          | Some h, Some v =>
              PrimFloat.leb (hMin visionConfig) h && PrimFloat.leb h (hMax visionConfig)
              && PrimFloat.leb (vMin visionConfig) v && PrimFloat.leb v (vMax visionConfig)
          | _, _ => false
          end
  then {| focused := true; reason := centered |}
  else {| focused := false; reason := off_center |}.

(** [evaluateFocus(visionData)]; [visionConfig] and
    [effectiveIncludeTalking] are the values of the render the function
    was created in. *)
Definition evaluateFocus (visionConfig : VisionConfig) (effectiveIncludeTalking : JsVal)
           (visionData : JsVal) : outcome Verdict :=
  let src := or_else visionData (JObj []) in
  let hRatio := field src "h_ratio" in
  let vRatio := field src "v_ratio" in
  let leftEar := field src "left_ear" in
  let state := field src "state" in
  let objects := field src "objects" in
  s <- ToString (or_else state (JStr "")) ;;
  let normalizedState := toLowerCase s in
  normalizedObjects <-
    array_map (or_else objects (JArr []))
              (fun item => n <- ToString item ;; Returns (toLowerCase n)) ;;
  Returns (cascade visionConfig effectiveIncludeTalking
                   normalizedState normalizedObjects leftEar hRatio vRatio).

End Classifier.

(** *** The classifier as the specification words it (section 4.1) *)

(** VisionSample of the data model: every field optional. *)
Record VisionSample : Type := {
  h_ratio : option float;
  v_ratio : option float;
  left_ear : option float;
  state : option string;
  objects : option (list string);
  volume : option float
}.

Definition opt_prop {A : Type} (key : string) (inj : A -> JsVal) (o : option A)
  : list (string * JsVal) :=
  match o with
  | Some a => [(key, inj a)]
  | None => []
  end.

(** The object [JSON.parse] builds for a sample. *)
Definition sample_to_js (s : VisionSample) : JsVal :=
  JObj (opt_prop "h_ratio" JNum (h_ratio s)
        ++ opt_prop "v_ratio" JNum (v_ratio s)
        ++ opt_prop "left_ear" JNum (left_ear s)
        ++ opt_prop "state" JStr (state s)
        ++ opt_prop "objects" (fun l => JArr (map JStr l)) (objects s)
        ++ opt_prop "volume" JNum (volume s)).

Module Spec.

Definition state_of (s : VisionSample) : string :=
  toLowerCase (match state s with Some x => x | None => "" end).

Definition objects_of (s : VisionSample) : list string :=
  match objects s with Some l => l | None => [] end.

Definition within (lo hi : float) (o : option float) : bool :=
  match o with
  | Some x => PrimFloat.leb lo x && PrimFloat.leb x hi
  | None => false
  end.

(** Rules 1 to 7, each a condition and the verdict it gives. *)
Definition rules (config : VisionConfig) (includeTalking : bool)
  : list ((VisionSample -> bool) * Verdict) :=
  [ (fun s => existsb (fun d => existsb (fun o => String.eqb (toLowerCase o) d)
                                        (objects_of s))
                      distractedObjects,
     {| focused := false; reason := distractor |});
    (fun s => includes (state_of s) "phone" || includes (state_of s) "book",
     {| focused := false; reason := distractor |});
    (fun s => includeTalking && includes (state_of s) "talking",
     {| focused := false; reason := audio |});
    (fun s => includes (state_of s) "no face",
     {| focused := false; reason := no_face |});
    (fun s => match left_ear s with
              | Some e => PrimFloat.ltb e (earThreshold config)
              | None => false
              end,
     {| focused := false; reason := eyes_closed |});
    (fun s => String.eqb (state_of s) "focused" || String.eqb (state_of s) "at screen",
     {| focused := true; reason := by_state |});
    (fun s => within (hMin config) (hMax config) (h_ratio s)
              && within (vMin config) (vMax config) (v_ratio s),
     {| focused := true; reason := centered |}) ].

(** First match wins; rule 8 is the default. *)
Fixpoint first_match (rs : list ((VisionSample -> bool) * Verdict))
         (s : VisionSample) : Verdict :=
  match rs with
  | [] => {| focused := false; reason := off_center |}
  | (cond, verdict) :: rest => if cond s then verdict else first_match rest s
  end.

Definition classify (config : VisionConfig) (includeTalking : bool)
           (s : VisionSample) : Verdict :=
  first_match (rules config includeTalking) s.

(** A parsed payload read as a VisionSample: a field that is missing or
    of another type than the data model gives is absent. *)
Definition strings_of (items : list JsVal) : list string :=
  flat_map (fun x => match x with JStr s => [s] | _ => [] end) items.

Definition sample_view (v : JsVal) : VisionSample :=
  {| h_ratio := as_number (field v "h_ratio");
     v_ratio := as_number (field v "v_ratio");
     left_ear := as_number (field v "left_ear");
     state := match field v "state" with JStr s => Some s | _ => None end;
     objects := match field v "objects" with
                | JArr items => Some (strings_of items)
                | _ => None
                end;
     volume := as_number (field v "volume") |}.

Definition absent (v : JsVal) : bool :=
  match v with JUndefined | JNull => true | _ => false end.

Definition is_string (v : JsVal) : bool :=
  match v with JStr _ => true | _ => false end.

(** What the classifier may be handed as a VisionSample: nothing at all,
    or a payload whose [state] is a string when present and whose
    [objects] is an array of strings when present. The numeric fields
    are not constrained: they may be missing or hold any value. *)
Definition sample_shaped (v : JsVal) : bool :=
  match v with
  | JObj _ =>
      (is_string (field v "state") || absent (field v "state"))
      && match field v "objects" with
         | JArr items => forallb is_string items
         | o => absent o
         end
  | _ => true
  end.

(** A state label that none of the state rules knows. *)
Definition unknown_state (normalized : string) : bool :=
  negb (includes normalized "phone" || includes normalized "book"
        || includes normalized "talking" || includes normalized "no face"
        || String.eqb normalized "focused" || String.eqb normalized "at screen").

End Spec.

(** ** FocusSmoother *)

(** [currentState]: "focused" or "distracted". *)
Inductive FocusState : Type := Focused | Distracted.

(** [l.slice(-n)]: the last [n] elements, all of them when there are fewer. *)
Definition slice_last {A : Type} (n : nat) (l : list A) : list A :=
  skipn (List.length l - n) l.

(** [l.reduce((sum, value) => sum + value, 0)] on a window of 0s and 1s; the
    sums are small integers, which doubles add exactly. *)
Definition reduce_sum (l : list Z) : Z :=
  fold_left (fun sum value => (sum + value)%Z) l 0%Z.

(** A small integer as a double. *)
Definition number (z : Z) : float := PrimFloat.of_uint63 (Uint63.of_Z z).

Record Smoother : Type := {
  focusResults : list Z;
  focusLevel : float;
  currentState : FocusState
}.

(** [useState([])], [useState(1)], [useState("focused")] *)
Definition initialSmoother : Smoother :=
  {| focusResults := []; focusLevel := 1; currentState := Focused |}.

(** [pushFocusResult(isFocused)] *)
Definition pushFocusResult (isFocused : bool) (prev : Smoother) : Smoother :=
  let nextResults :=
    slice_last 60 (focusResults prev ++ [if isFocused then 1%Z else 0%Z]) in
  let average :=
    (number (reduce_sum nextResults) / number (Z.of_nat (List.length nextResults)))%float in
  {| focusResults := nextResults;
     focusLevel := average;
     currentState := if PrimFloat.leb 0.7 average then Focused else Distracted |}.

(** [focusWarningActive = focusLevel < 0.7] *)
Definition focusWarningActive (level : float) : bool := PrimFloat.ltb level 0.7.

(** A run of pushes, oldest verdict first. *)
Definition pushes (verdicts : list bool) (start : Smoother) : Smoother :=
  fold_left (fun st v => pushFocusResult v st) verdicts start.

(** *** The smoother as the specification words it (section 4.2) *)

Module SmootherSpec.

Definition capacity : nat := 60.

Definition bit (b : bool) : Z := if b then 1%Z else 0%Z.

(** The last [min(N, capacity)] verdicts, as 0s and 1s. *)
Definition window (verdicts : list bool) : list Z :=
  map bit (skipn (List.length verdicts - Nat.min (List.length verdicts) capacity) verdicts).

Fixpoint total (l : list Z) : Z :=
  match l with
  | [] => 0%Z
  | x :: rest => (x + total rest)%Z
  end.

(** The arithmetic mean of a non-empty window, exactly. *)
Definition mean (l : list Z) : Q := Qmake (total l) (Pos.of_nat (List.length l)).

(** The rational a finite double stands for. *)
Definition value_of (x : float) : option Q :=
  match Prim2SF x with
  | S754_zero _ => Some (0 # 1)%Q
  | S754_finite sign m e =>
      let mag := (if (0 <=? e)%Z
                  then inject_Z (Z.pos m * 2 ^ e)
                  else Qmake (Z.pos m) (Pos.shiftl 1 (Z.to_N (- e)))%positive) in
      Some (if sign then Qopp mag else mag)
  | _ => None
  end.

(** [x] is the mean [q] rounded to a double: within one part in 2^53. *)
Definition rounds (q : Q) (x : float) : bool :=
  match value_of x with
  | Some r => Qle_bool (Qabs (r - q) * inject_Z (2 ^ 53)) q
  | None => false
  end.

End SmootherSpec.

(** ** Plain objects used as maps *)

Module JsObject.

(** The property names of [Object.prototype]. An object literal [{}]
    inherits them: reading one that is not an own property gives a function
    (or, for [__proto__], the prototype object), which is truthy. *)
Definition prototype_names : list string :=
  ["constructor"; "__defineGetter__"; "__defineSetter__"; "hasOwnProperty";
   "__lookupGetter__"; "__lookupSetter__"; "isPrototypeOf";
   "propertyIsEnumerable"; "toString"; "valueOf"; "__proto__"; "toLocaleString"].

Definition inherited (key : string) : bool :=
  existsb (String.eqb key) prototype_names.

(** Own properties, in the order of their creation. *)
Definition t (A : Type) : Type := list (string * A).

Fixpoint get {A : Type} (o : t A) (key : string) : option A :=
  match o with
  | [] => None
  | (k, v) :: rest => if String.eqb k key then Some v else get rest key
  end.

Fixpoint put {A : Type} (o : t A) (key : string) (value : A) : t A :=
  match o with
  | [] => [(key, value)]
  | (k, v) :: rest =>
      if String.eqb k key then (k, value) :: rest else (k, v) :: put rest key value
  end.

(** [o[key] = value] for a primitive [value]: the setter of [__proto__]
    ignores it, any other key becomes or stays an own property. *)
Definition set {A : Type} (o : t A) (key : string) (value : A) : t A :=
  if String.eqb key "__proto__" then o else put o key value.

Definition digit (c : ascii) : option N :=
  let n := N_of_ascii c in
  if ((48 <=? n) && (n <=? 57))%N then Some (n - 48)%N else None.

Fixpoint digits (s : string) (acc : N) : option N :=
  match s with
  | EmptyString => Some acc
  | String c rest =>
      match digit c with
      | Some d => digits rest (acc * 10 + d)%N
      | None => None
      end
  end.

(** An array index: the canonical decimal numeral of an integer below
    2^32 - 1. *)
Definition array_index (key : string) : option N :=
  match key with
  | EmptyString => None
  | String c rest =>
      if Ascii.eqb c "0" && negb (is_empty rest) then None
      else match digits key 0 with
           | Some n => if (n <? 4294967295)%N then Some n else None
           | None => None
           end
  end.

Fixpoint insert_by_index {A : Type} (n : N) (e : string * A)
         (sorted : list (N * (string * A))) : list (N * (string * A)) :=
  match sorted with
  | [] => [(n, e)]
  | (m, f) :: rest =>
      if (n <? m)%N then (n, e) :: sorted else (m, f) :: insert_by_index n e rest
  end.

Fixpoint indexed {A : Type} (o : t A) : list (N * (string * A)) :=
  match o with
  | [] => []
  | e :: rest =>
      match array_index (fst e) with
      | Some n => insert_by_index n e (indexed rest)
      | None => indexed rest
      end
  end.

Definition named {A : Type} (o : t A) : t A :=
  filter (fun e => match array_index (fst e) with Some _ => false | None => true end) o.

(** [Object.entries(o)]: the own properties, those whose key is an array
    index first, by ascending index, then the others in the order of their
    creation. *)
Definition entries {A : Type} (o : t A) : list (string * A) :=
  map snd (indexed o) ++ named o.

End JsObject.

(** ** The "most common distractor" resolver *)

(** A cell of [counts]: a number, or the text that [+ 1] makes of an
    inherited member (a function or an object joined with "1"). *)
Inductive Cell : Type :=
| CNum (n : Z)
| CText.

Section Resolver.
Context {E : JsEngine}.

(** [normalizeState(value)] *)
Definition normalizeState (value : JsVal) : outcome string :=
  s <- ToString (or_else value (JStr "")) ;;
  Returns (toLowerCase (trim s)).

(** [isFocusedState(value)] *)
Definition isFocusedState (value : string) : bool :=
  String.eqb value "focused" || String.eqb value "at screen".

(** [(counts[normalized] || 0) + 1] *)
Definition bump (counts : JsObject.t Cell) (normalized : string) : Cell :=
  match JsObject.get counts normalized with
  | Some (CNum n) => CNum (n + 1)
  | Some CText => CText
  | None => if JsObject.inherited normalized then CText else CNum 1
  end.

(** [!labels[normalized]] *)
Definition label_missing (labels : JsObject.t string) (normalized : string) : bool :=
  match JsObject.get labels normalized with
  | Some l => is_empty l
  | None => negb (JsObject.inherited normalized)
  end.

(** The body of [states.forEach(...)]. *)
Definition tally_state (includeTalking : JsVal)
           (acc : JsObject.t Cell * JsObject.t string) (state : JsVal)
  : outcome (JsObject.t Cell * JsObject.t string) :=
  let '(counts, labels) := acc in
  normalized <- normalizeState state ;;
  if is_empty normalized || isFocusedState normalized then Returns acc
  else if negb (truthy includeTalking) && includes normalized "talking" then Returns acc
  else
    let counts' := JsObject.set counts normalized (bump counts normalized) in
    if label_missing labels normalized
    then raw <- ToString state ;;
         Returns (counts', JsObject.set labels normalized raw)
    else Returns (counts', labels).

Fixpoint forEach {A : Type} (f : A -> JsVal -> outcome A) (l : list JsVal) (acc : A)
  : outcome A :=
  match l with
  | [] => Returns acc
  | x :: rest => acc' <- f acc x ;; forEach f rest acc'
  end.

(** The body of [Object.entries(counts).forEach(...)]; [count > bestCount]
    is false when [count] is no number. *)
Definition pick_best (best : string * Z) (entry : string * Cell) : string * Z :=
  match snd entry with
  | CNum count => if (snd best <? count)%Z then (fst entry, count) else best
  | CText => best
  end.

(** [computeMostCommonDistractor(states, includeTalking)] *)
Definition computeMostCommonDistractor (states : list JsVal) (includeTalking : JsVal)
  : outcome string :=
  acc <- forEach (tally_state includeTalking) states ([], []) ;;
  let '(counts, labels) := acc in
  let '(bestKey, bestCount) :=
    fold_left pick_best (JsObject.entries counts) ("", 0%Z) in
  Returns (if is_empty bestKey then ""
           else match JsObject.get labels bestKey with
                | Some label => label
                | None => ""   (* a key that has a count has a label *)
                end).

End Resolver.

(** *** The resolver as the specification words it (section 4.5) *)

Module ResolverSpec.

Definition normal (label : string) : string := toLowerCase (trim label).

(** A label takes part when it is not empty, not focused-equivalent and,
    with talking excluded, does not mention talking. *)
Definition candidate (includeTalking : bool) (label : string) : bool :=
  negb (is_empty (normal label))
  && negb (String.eqb (normal label) "focused" || String.eqb (normal label) "at screen")
  && (includeTalking || negb (includes (normal label) "talking")).

Definition candidates (includeTalking : bool) (window : list string) : list string :=
  filter (candidate includeTalking) window.

(** How often the label occurs among the candidates, written in any
    case and with any surrounding blanks. *)
Definition occurrences (cands : list string) (label : string) : nat :=
  List.length (filter (fun l => String.eqb (normal l) (normal label)) cands).

(** The first-seen candidate among those with the highest count. *)
Definition most_frequent (includeTalking : bool) (window : list string)
  : option string :=
  let cands := candidates includeTalking window in
  find (fun l => forallb (fun l' => occurrences cands l' <=? occurrences cands l) cands)
       cands.


End ResolverSpec.

(** ** An engine to run the examples with

    The properties below hold for every [JsEngine]. The concrete runs need
    one: this engine does what JavaScript does on the values that occur in
    them, namely integers and blank or integer numerals. *)

Module ExampleEngine.

(** The integer a double stands for, when it is one. *)
Definition integer_of (x : float) : option Z :=
  match Prim2SF x with
  | S754_zero _ => Some 0%Z
  | S754_finite sign m e =>
      let mag :=
        if (0 <=? e)%Z then Some (Z.pos m * 2 ^ e)%Z
        else if (Z.pos m mod 2 ^ (- e) =? 0)%Z then Some (Z.pos m / 2 ^ (- e))%Z
             else None in
      match mag with
      | Some z => Some (if sign then (- z)%Z else z)
      | None => None
      end
  | _ => None
  end.

(** [String(x)], right on integers below 2^53. *)
Definition to_string (x : float) : string :=
  match integer_of x with
  | Some z => NilZero.string_of_int (Z.to_int z)
  | None => "NaN"
  end.

(** [Number(s)], right on blank strings (0), on decimal integer numerals
    with an optional sign and on text that starts no numeral (NaN). *)
Definition of_string (s : string) : float :=
  match trim s with
  | EmptyString => 0%float
  | String "-" rest =>
      match rest, JsObject.digits rest 0 with
      | String _ _, Some n => (- number (Z.of_N n))%float
      | _, _ => PrimFloat.nan
      end
  | String "+" rest =>
      match rest, JsObject.digits rest 0 with
      | String _ _, Some n => number (Z.of_N n)
      | _, _ => PrimFloat.nan
      end
  | t => match JsObject.digits t 0 with
         | Some n => number (Z.of_N n)
         | None => PrimFloat.nan
         end
  end.

(** [Math.round(x)]: the integer nearest to [x], a tie going up. *)
Definition round (x : float) : float :=
  match Prim2SF x with
  | S754_finite sign m e =>
      if (0 <=? e)%Z then x
      else
        let num := if sign then Z.neg m else Z.pos m in
        let r := ((2 * num + 2 ^ (- e)) / (2 * 2 ^ (- e)))%Z in
        if (r =? 0)%Z then (if sign then (- 0)%float else 0%float)
        else if (0 <? r)%Z then number r
             else (- number (- r))%float
  | _ => x
  end.

Definition engine : JsEngine :=
  {| Number_toString := to_string;
     Number_ofString := of_string;
     Math_round := round |}.

End ExampleEngine.

(** ** The component state *)

Module Entry.
(** TimelineEntry: [{ elapsedSeconds, state, label }] *)
Record t : Type := { elapsedSeconds : Z; state : FocusState; label : string }.
End Entry.

(** [setSessionSummary({ totalSeconds, distractedSeconds, focusedSeconds,
    alerts })] *)
Record SessionSummary : Type := {
  totalSeconds : Z;
  distractedSeconds : Z;
  focusedSeconds : Z;
  alerts : Z
}.

(** [Math.round(ms / 1000)] for an integer number of milliseconds: half a
    second rounds up. The quotient of two such doubles is the rounded exact
    quotient, which lies on the same side of every half as the exact one. *)
Definition round_seconds (ms : Z) : Z := ((ms + 500) / 1000)%Z.

(** A ref that holds [null] or a clock reading, and its truthiness. *)
Definition ref_set (r : option Z) : bool :=
  match r with
  | Some t => negb (t =? 0)%Z
  | None => false
  end.

(** What the callback of [setTimeout] in the alert effect closes over, and
    the earliest time it can run. *)
Record AlertTimer : Type := {
  due : Z;
  seenWarning : bool;          (* focusWarningActive *)
  seenReason : string;         (* distractorReason *)
  seenVisionState : string;    (* visionState *)
  seenCharacter : string;      (* characterChoice *)
  seenIncludeTalking : JsVal   (* effectiveIncludeTalking *)
}.

(** What [socket.onmessage] closes over: the [evaluateFocus] and the
    [effectiveIncludeTalking] of the render whose effect opened the socket. *)
Record Handler : Type := {
  heardConfig : VisionConfig;        (* visionConfig *)
  heardIncludeTalking : JsVal        (* effectiveIncludeTalking *)
}.

Record Session : Type := {
  lessonMinutes : string;
  lessonStarted : bool;
  remainingSeconds : float;
  sessionSummary : option SessionSummary;
  sessionTimeline : list Entry.t;
  sessionStartRef : option Z;
  distractedStartRef : option Z;
  distractedTotalRef : Z;
  distractedCountRef : Z
}.

Record Alerts : Type := {
  alertTimeoutRef : option AlertTimer;   (* the pending timer, if any *)
  alertQueuedRef : bool;
  alertQueue : list string;
  activeAlert : string;
  characterChoice : string
}.

Record Vision : Type := {
  trackingEnabled : bool;
  visionState : string;
  backendConfig : JsVal;
  distractorReason : string;
  recentStatesRef : list JsVal;
  visionConfig : VisionConfig;
  socket : option Handler                (* the open socket and its handler *)
}.

(** The dependency values each effect ran with last; [None] before the
    first run. *)
Record Memo : Type := {
  socketDeps : option bool;
  alertDeps : option (bool * bool * string * string * string * JsVal);
  queueDeps : option (string * list string);
  timelineDeps : option (bool * bool * string)
}.

Record App : Type := {
  smoother : Smoother;
  session : Session;
  alerting : Alerts;
  vision : Vision;
  memo : Memo
}.

Definition initialApp : App :=
  {| smoother := initialSmoother;
     session := {| lessonMinutes := "45"; lessonStarted := false;
                   remainingSeconds := 0; sessionSummary := None;
                   sessionTimeline := []; sessionStartRef := None;
                   distractedStartRef := None; distractedTotalRef := 0;
                   distractedCountRef := 0 |};
     alerting := {| alertTimeoutRef := None; alertQueuedRef := false;
                    alertQueue := []; activeAlert := ""; characterChoice := "cop" |};
     vision := {| trackingEnabled := true; visionState := ""; backendConfig := JNull;
                  distractorReason := ""; recentStatesRef := [];
                  visionConfig := initialVisionConfig; socket := None |};
     memo := {| socketDeps := None; alertDeps := None; queueDeps := None;
                timelineDeps := None |} |}.

Definition with_smoother (f : Smoother -> Smoother) (a : App) : App :=
  {| smoother := f (smoother a); session := session a; alerting := alerting a;
     vision := vision a; memo := memo a |}.
Definition with_session (f : Session -> Session) (a : App) : App :=
  {| smoother := smoother a; session := f (session a); alerting := alerting a;
     vision := vision a; memo := memo a |}.
Definition with_alerting (f : Alerts -> Alerts) (a : App) : App :=
  {| smoother := smoother a; session := session a; alerting := f (alerting a);
     vision := vision a; memo := memo a |}.
Definition with_vision (f : Vision -> Vision) (a : App) : App :=
  {| smoother := smoother a; session := session a; alerting := alerting a;
     vision := f (vision a); memo := memo a |}.
Definition with_memo (f : Memo -> Memo) (a : App) : App :=
  {| smoother := smoother a; session := session a; alerting := alerting a;
     vision := vision a; memo := f (memo a) |}.

(** [backendConfig?.include_talking ?? visionConfig.includeTalking] *)
Definition effectiveIncludeTalking (backendConfig : JsVal) (visionConfig : VisionConfig)
  : JsVal :=
  coalesce (field backendConfig "include_talking") (JBool (includeTalking visionConfig)).

(** The values of a render that the effects and the handlers read. *)
Definition warning (a : App) : bool := focusWarningActive (focusLevel (smoother a)).
Definition talking (a : App) : JsVal :=
  effectiveIncludeTalking (backendConfig (vision a)) (visionConfig (vision a)).

(** ** SessionController: [startLesson] and [endLesson] *)

Section Controller.
Context {E : JsEngine}.

(** The two guards of [startLesson]: the input is not blank and denotes a
    finite number above zero. *)
Definition acceptable (lessonMinutes : string) : bool :=
  negb (is_empty (trim lessonMinutes))
  && PrimFloat.is_finite (Number_ofString lessonMinutes)
  && negb (PrimFloat.leb (Number_ofString lessonMinutes) 0).

(** [startLesson(event)] at clock reading [now]. *)
Definition startLesson (now : Z) (a : App) : App :=
  if is_empty (trim (lessonMinutes (session a))) then a
  else
    let minutes := Number_ofString (lessonMinutes (session a)) in
    if negb (PrimFloat.is_finite minutes) || PrimFloat.leb minutes 0 then a
    else
      {| smoother := {| focusResults := [];
                        focusLevel := 1;
                        currentState := currentState (smoother a) |};
         session := {| lessonMinutes := lessonMinutes (session a);
                       lessonStarted := true;
                       remainingSeconds := Math_round (minutes * 60)%float;
                       sessionSummary := None;
                       sessionTimeline := [];
                       sessionStartRef := Some now;
                       distractedStartRef := None;
                       distractedTotalRef := 0;
                       distractedCountRef := 0 |};
         alerting := alerting a;
         vision := vision a;
         memo := memo a |}.

End Controller.

(** The writes of [endLesson()] at clock reading [endTime]. *)
Definition finish (endTime : Z) (s : Session) : Session :=
  let ended (summary : option SessionSummary) (started : option Z) (total : Z) :=
    {| lessonMinutes := lessonMinutes s;
       lessonStarted := false;
       remainingSeconds := remainingSeconds s;
       sessionSummary := summary;
       sessionTimeline := sessionTimeline s;
       sessionStartRef := sessionStartRef s;
       distractedStartRef := started;
       distractedTotalRef := total;
       distractedCountRef := distractedCountRef s |} in
  match sessionStartRef s with
  | Some sessionStart =>
      if ref_set (sessionStartRef s) then
        let distractedTotal :=
          match distractedStartRef s with
          | Some started =>
              if ref_set (distractedStartRef s)
              then (distractedTotalRef s + round_seconds (endTime - started))%Z
              else distractedTotalRef s
          | None => distractedTotalRef s
          end in
        let totalSeconds := Z.max 1 (round_seconds (endTime - sessionStart)) in
        let distractedSeconds := distractedTotal in
        let focusedSeconds := Z.max (totalSeconds - distractedSeconds) 0 in
        ended (Some {| totalSeconds := totalSeconds;
                       distractedSeconds := distractedSeconds;
                       focusedSeconds := focusedSeconds;
                       alerts := distractedCountRef s |})
              (if ref_set (distractedStartRef s) then None else distractedStartRef s)
              distractedTotal
      else ended (sessionSummary s) (distractedStartRef s) (distractedTotalRef s)
  | None => ended (sessionSummary s) (distractedStartRef s) (distractedTotalRef s)
  end.

(** [endLesson()] *)
Definition endLesson (endTime : Z) (a : App) : App := with_session (finish endTime) a.

(** ** SessionTimeline: the effect on focus transitions *)

(** The body of the effect with dependencies [focusWarningActive,
    lessonStarted, distractorReason], at clock reading [now]; [warn] and
    [reason] are the [focusWarningActive] and the [distractorReason] of the
    render. *)
Definition record_transition (now : Z) (warn : bool) (reason : string) (s : Session)
  : Session :=
  match sessionStartRef s with
  | Some sessionStart =>
      if negb (lessonStarted s) || negb (ref_set (sessionStartRef s)) then s
      else
        let elapsedSeconds := round_seconds (now - sessionStart) in
        let s1 :=
          if warn && negb (ref_set (distractedStartRef s)) then
            let label := if is_empty reason then "distracted" else reason in
            {| lessonMinutes := lessonMinutes s;
               lessonStarted := lessonStarted s;
               remainingSeconds := remainingSeconds s;
               sessionSummary := sessionSummary s;
               sessionTimeline :=
                 sessionTimeline s
                 ++ [{| Entry.elapsedSeconds := elapsedSeconds;
                        Entry.state := Distracted;
                        Entry.label := label |}];
               sessionStartRef := sessionStartRef s;
               distractedStartRef := Some now;
               distractedTotalRef := distractedTotalRef s;
               distractedCountRef := (distractedCountRef s + 1)%Z |}
          else s in
        match distractedStartRef s1 with
        | Some started =>
            if negb warn && ref_set (distractedStartRef s1) then
              {| lessonMinutes := lessonMinutes s1;
                 lessonStarted := lessonStarted s1;
                 remainingSeconds := remainingSeconds s1;
                 sessionSummary := sessionSummary s1;
                 sessionTimeline :=
                   sessionTimeline s1
                   ++ [{| Entry.elapsedSeconds := elapsedSeconds;
                          Entry.state := Focused;
                          Entry.label := "focused" |}];
                 sessionStartRef := sessionStartRef s1;
                 distractedStartRef := None;
                 distractedTotalRef :=
                   (distractedTotalRef s1 + round_seconds (now - started))%Z;
                 distractedCountRef := distractedCountRef s1 |}
            else s1
        | None => s1
        end
  | None => s
  end.

Definition timelineEffect (now : Z) (a : App) : App :=
  with_session (record_transition now (warning a) (distractorReason (vision a))) a.

(** ** AlertScheduler *)

Definition characterAssets : list (string * list (string * string)) :=
  [ ("cop",
     [ ("label", "Cop");
       ("filler", "/videos/cop/cop-filler.mp4");
       ("side", "/videos/cop/Cop-side.mp4");
       ("up", "/videos/cop/Cop-up.mp4");
       ("phone", "/videos/cop/Cop-phone.mp4");
       ("talking", "/videos/cop/Cop-talking.mp4") ]);
    ("animegirl",
     [ ("label", "Anime Girl");
       ("filler", "/videos/animegirl/animegirl-filler.mp4");
       ("side", "/videos/animegirl/animegirl-side.mp4");
       ("up", "/videos/animegirl/animegirl-up.mp4");
       ("phone", "/videos/animegirl/animegirl-phone.mp4");
       ("talking", "/videos/animegirl/animegirl-talking.mp4") ]) ].

(** [characterAssets[characterChoice]?.[alertKey]], when it is a string;
    for the alert keys neither an inherited member of the table nor one of
    a character answers. *)
Definition asset_for (characterChoice alertKey : string) : option string :=
  match JsObject.get characterAssets characterChoice with
  | Some assets => JsObject.get assets alertKey
  | None => None
  end.

(** The fixed debounce delay, in milliseconds. *)
Definition debounce : Z := 4000.

Definition set_timer (timer : option AlertTimer) (queued : bool) (al : Alerts) : Alerts :=
  {| alertTimeoutRef := timer;
     alertQueuedRef := queued;
     alertQueue := alertQueue al;
     activeAlert := activeAlert al;
     characterChoice := characterChoice al |}.

Section Scheduler.
Context {E : JsEngine}.

(** [alertKeyForState(value)] with the [effectiveIncludeTalking] of the
    render. *)
Definition alertKeyForState (effectiveIncludeTalking : JsVal) (value : string)
  : outcome string :=
  normalized <- normalizeState (JStr value) ;;
  Returns
    (if is_empty normalized then ""
     else if includes normalized "left" || includes normalized "right" then "side"
     else if includes normalized "up" then "up"
     else if includes normalized "phone" || includes normalized "book"
             || includes normalized "down" then "phone"
     else if includes normalized "eyes closed" then "up"
     else if includes normalized "talking"
          then (if truthy effectiveIncludeTalking then "talking" else "")
     else "").

(** The asset the callback of a timer queues, if it queues one. *)
Definition alert_of (queued : bool) (t : AlertTimer) : option string :=
  if negb (seenWarning t) || queued then None
  else
    let stateCandidate :=
      if is_empty (seenReason t) then seenVisionState t else seenReason t in
    match alertKeyForState (seenIncludeTalking t) stateCandidate with
    | Returns alertKey =>
        if is_empty alertKey then None
        else match asset_for (seenCharacter t) alertKey with
             | Some asset => if is_empty asset then None else Some asset
             | None => None
             end
    | Throws => None
    end.

(** The timers at clock reading [now]: nothing happens unless the timer of
    the alert effect is pending and due; its callback then runs once. *)
Definition fire (now : Z) (al : Alerts) : Alerts :=
  match alertTimeoutRef al with
  | Some t =>
      if (due t <=? now)%Z then
        match alert_of (alertQueuedRef al) t with
        | Some asset =>
            {| alertTimeoutRef := None;
               alertQueuedRef := true;
               alertQueue := alertQueue al ++ [asset];
               activeAlert := activeAlert al;
               characterChoice := characterChoice al |}
        | None => set_timer None (alertQueuedRef al) al
        end
      else al
  | None => al
  end.

Definition alertTimeout (now : Z) (a : App) : App := with_alerting (fire now) a.

End Scheduler.

(** The clean-up of the alert effect: [clearTimeout]. A run of the effect
    that armed no timer left no clean-up, and then no timer is pending. *)
Definition alertCleanup (a : App) : App :=
  with_alerting (fun al => set_timer None (alertQueuedRef al) al) a.

(** The body of the alert effect at clock reading [now]; [started], [warn],
    [reason], [state] and [talk] are the [lessonStarted],
    [focusWarningActive], [distractorReason], [visionState] and
    [effectiveIncludeTalking] of the render, [distractedStart] is what
    [distractedStartRef] holds. *)
Definition schedule (now : Z) (started warn : bool) (distractedStart : option Z)
           (reason state : string) (talk : JsVal) (al : Alerts) : Alerts :=
  if negb started then al
  else if negb warn then set_timer None false al
  else if alertQueuedRef al then al
  else
    let startTime :=
      match distractedStart with
      | Some t => if ref_set distractedStart then t else now
      | None => now
      end in
    let elapsed := (now - startTime)%Z in
    let remaining := Z.max (debounce - elapsed) 0 in
    set_timer (Some {| due := (now + remaining)%Z;
                       seenWarning := warn;
                       seenReason := reason;
                       seenVisionState := state;
                       seenCharacter := characterChoice al;
                       seenIncludeTalking := talk |})
              (alertQueuedRef al) al.

Definition alertEffect (now : Z) (a : App) : App :=
  with_alerting
    (schedule now (lessonStarted (session a)) (warning a)
              (distractedStartRef (session a)) (distractorReason (vision a))
              (visionState (vision a)) (talking a)) a.

(** The player: the body of the effect with dependencies [activeAlert,
    alertQueue]. *)
Definition play_next (al : Alerts) : Alerts :=
  if negb (is_empty (activeAlert al)) then al
  else match alertQueue al with
       | [] => al
       | next :: rest =>
           {| alertTimeoutRef := alertTimeoutRef al;
              alertQueuedRef := alertQueuedRef al;
              alertQueue := rest;
              activeAlert := next;
              characterChoice := characterChoice al |}
       end.

Definition queueEffect (a : App) : App := with_alerting play_next a.

(** ** VisionLink: the socket effect and its message handler *)

Section Link.
Context {E : JsEngine}.

(** The effect with dependencies [trackingEnabled]: its clean-up closes the
    old socket, its body opens a new one while tracking is enabled. The
    handlers it installs keep the values of this render. *)
Definition socketEffect (a : App) : App :=
  with_vision
    (fun v => {| trackingEnabled := trackingEnabled v;
                 visionState := visionState v;
                 backendConfig := backendConfig v;
                 distractorReason := distractorReason v;
                 recentStatesRef := recentStatesRef v;
                 visionConfig := visionConfig v;
                 socket := if trackingEnabled v
                           then Some {| heardConfig := visionConfig v;
                                        heardIncludeTalking := talking a |}
                           else None |}) a.

(** The first half of the body of [socket.onmessage]: the state label,
    the echoed config and the recent states. *)
Definition hear_state (h : Handler) (payload : JsVal) (incomingState : string)
           (v : Vision) : Vision :=
  {| trackingEnabled := trackingEnabled v;
     visionState :=
       if negb (truthy (heardIncludeTalking h))
          && includes (toLowerCase incomingState) "talking"
       then "Focused" else incomingState;
     backendConfig :=
       if truthy (field payload "config") then field payload "config"
       else backendConfig v;
     distractorReason := distractorReason v;
     recentStatesRef := recentStatesRef v;
     visionConfig := visionConfig v;
     socket := socket v |}.

Definition remember (nextStates : list JsVal) (v : Vision) : Vision :=
  {| trackingEnabled := trackingEnabled v;
     visionState := visionState v;
     backendConfig := backendConfig v;
     distractorReason := distractorReason v;
     recentStatesRef := nextStates;
     visionConfig := visionConfig v;
     socket := socket v |}.

Definition setDistractorReason (reason : string) (v : Vision) : Vision :=
  {| trackingEnabled := trackingEnabled v;
     visionState := visionState v;
     backendConfig := backendConfig v;
     distractorReason := reason;
     recentStatesRef := recentStatesRef v;
     visionConfig := visionConfig v;
     socket := socket v |}.

(** [socket.onmessage(event)] for the parsed [payload]. The body runs
    inside [try]: what was done before a throw stays done. *)
Definition onmessage (h : Handler) (payload : JsVal) (a : App) : App :=
  let state := field payload "state" in
  match (if truthy state then ToString state else Returns "") with
  | Throws => a
  | Returns incomingState =>
      let v1 := hear_state h payload incomingState (vision a) in
      let nextStates := slice_last 60 (recentStatesRef v1 ++ [state]) in
      let v2 := if truthy state then remember nextStates v1 else v1 in
      match (if truthy state
             then computeMostCommonDistractor nextStates (heardIncludeTalking h)
             else Returns (distractorReason v2)) with
      | Throws => with_vision (fun _ => v2) a
      | Returns reason =>
          let v3 := if truthy state then setDistractorReason reason v2 else v2 in
          match evaluateFocus (heardConfig h) (heardIncludeTalking h) payload with
          | Returns result =>
              with_smoother (pushFocusResult (focused result))
                            (with_vision (fun _ => v3) a)
          | Throws => with_vision (fun _ => v3) a
          end
      end
  end.

End Link.

(** ** Renders and events *)

(** [Object.is] on the values a dependency list can hold. Two parsed arrays
    or objects count as the same when they are equal part by part: the state
    keeps one parsed value until a message brings another. *)
Fixpoint same_value (x y : JsVal) : bool :=
  match x, y with
  | JUndefined, JUndefined => true
  | JNull, JNull => true
  | JBool b, JBool c => Bool.eqb b c
  | JNum u, JNum w => PrimFloat.Leibniz.eqb u w
  | JStr s, JStr t => String.eqb s t
  | JArr xs, JArr ys =>
      (fix all (l m : list JsVal) : bool :=
         match l, m with
         | [], [] => true
         | u :: l', w :: m' => same_value u w && all l' m'
         | _, _ => false
         end) xs ys
  | JObj ps, JObj qs =>
      (fix all (l m : list (string * JsVal)) : bool :=
         match l, m with
         | [], [] => true
         | (k, u) :: l', (k', w) :: m' => String.eqb k k' && same_value u w && all l' m'
         | _, _ => false
         end) ps qs
  | _, _ => false
  end.

Definition same_list (l m : list string) : bool :=
  if list_eq_dec string_dec l m then true else false.

Definition alert_deps (a : App) : bool * bool * string * string * string * JsVal :=
  (warning a, lessonStarted (session a), distractorReason (vision a),
   visionState (vision a), characterChoice (alerting a), talking a).

Definition timeline_deps (a : App) : bool * bool * string :=
  (warning a, lessonStarted (session a), distractorReason (vision a)).

Definition queue_deps (a : App) : string * list string :=
  (activeAlert (alerting a), alertQueue (alerting a)).

Definition same_alert_deps (d d' : bool * bool * string * string * string * JsVal) : bool :=
  let '(w, l, r, s, c, t) := d in
  let '(w', l', r', s', c', t') := d' in
  Bool.eqb w w' && Bool.eqb l l' && String.eqb r r' && String.eqb s s'
  && String.eqb c c' && same_value t t'.

Definition same_timeline_deps (d d' : bool * bool * string) : bool :=
  let '(w, l, r) := d in
  let '(w', l', r') := d' in
  Bool.eqb w w' && Bool.eqb l l' && String.eqb r r'.

Definition same_queue_deps (d d' : string * list string) : bool :=
  String.eqb (fst d) (fst d') && same_list (snd d) (snd d').

(** An effect runs after the first render, and after a render in which one
    of its dependencies differs from the last run. *)
Definition stale {D : Type} (same : D -> D -> bool) (last : option D) (deps : D) : bool :=
  match last with
  | Some d => negb (same d deps)
  | None => true
  end.

Section Machine.
Context {E : JsEngine}.

Definition remember_socket (a : App) : App :=
  with_memo (fun m => {| socketDeps := Some (trackingEnabled (vision a));
                         alertDeps := alertDeps m;
                         queueDeps := queueDeps m;
                         timelineDeps := timelineDeps m |}) a.

Definition remember_alert (deps : bool * bool * string * string * string * JsVal)
           (a : App) : App :=
  with_memo (fun m => {| socketDeps := socketDeps m;
                         alertDeps := Some deps;
                         queueDeps := queueDeps m;
                         timelineDeps := timelineDeps m |}) a.

Definition remember_queue (deps : string * list string) (a : App) : App :=
  with_memo (fun m => {| socketDeps := socketDeps m;
                         alertDeps := alertDeps m;
                         queueDeps := Some deps;
                         timelineDeps := timelineDeps m |}) a.

Definition remember_timeline (deps : bool * bool * string) (a : App) : App :=
  with_memo (fun m => {| socketDeps := socketDeps m;
                         alertDeps := alertDeps m;
                         queueDeps := queueDeps m;
                         timelineDeps := Some deps |}) a.

(** A render is committed at clock reading [now]: the effects whose
    dependencies changed run in the order of their declaration, the socket
    effect, the alert effect, the player and the timeline effect, each on
    the values of this render. *)
Definition commit (now : Z) (a : App) : App :=
  let a1 :=
    if stale Bool.eqb (socketDeps (memo a)) (trackingEnabled (vision a))
    then remember_socket (socketEffect a) else a in
  let a2 :=
    if stale same_alert_deps (alertDeps (memo a)) (alert_deps a)
    then remember_alert (alert_deps a) (alertEffect now (alertCleanup a1)) else a1 in
  let a3 :=
    if stale same_queue_deps (queueDeps (memo a)) (queue_deps a)
    then remember_queue (queue_deps a) (queueEffect a2) else a2 in
  if stale same_timeline_deps (timelineDeps (memo a)) (timeline_deps a)
  then remember_timeline (timeline_deps a) (timelineEffect now a3) else a3.

Inductive Event : Type :=
| Render (now : Z)                      (* a scheduled render is committed *)
| Message (payload : JsVal)             (* the socket delivers a parsed message *)
| Timeout (now : Z)                     (* the browser runs the timers that are due *)
| Submit (now : Z)                      (* the form calls startLesson *)
| End (now : Z)                         (* the button calls endLesson *)
| TypeMinutes (text : string)           (* setLessonMinutes *)
| ToggleTracking                        (* toggleTracking *)
| EditConfig (config : VisionConfig)    (* setVisionConfig *)
| ChooseCharacter (choice : string)     (* setCharacterChoice *)
| AlertEnded                            (* onEnded of the alert video *)
| SimulateState                         (* simulateState *)
| SocketClosed.                         (* socket.onclose *)

(** One event. The two session commands are discrete events of the page:
    the render they cause is committed before anything else happens. *)
Definition step (a : App) (e : Event) : App :=
  match e with
  | Render now => commit now a
  | Message payload =>
      match socket (vision a) with
      | Some h => onmessage h payload a
      | None => a
      end
  | Timeout now => alertTimeout now a
  | Submit now =>
      if acceptable (lessonMinutes (session a)) then commit now (startLesson now a)
      else startLesson now a
  | End now => commit now (endLesson now a)
  | TypeMinutes text =>
      with_session
        (fun s => {| lessonMinutes := text;
                     lessonStarted := lessonStarted s;
                     remainingSeconds := remainingSeconds s;
                     sessionSummary := sessionSummary s;
                     sessionTimeline := sessionTimeline s;
                     sessionStartRef := sessionStartRef s;
                     distractedStartRef := distractedStartRef s;
                     distractedTotalRef := distractedTotalRef s;
                     distractedCountRef := distractedCountRef s |}) a
  | ToggleTracking =>
      with_vision
        (fun v => {| trackingEnabled := negb (trackingEnabled v);
                     visionState := visionState v;
                     backendConfig := backendConfig v;
                     distractorReason := distractorReason v;
                     recentStatesRef := recentStatesRef v;
                     visionConfig := visionConfig v;
                     socket := socket v |}) a
  | EditConfig config =>
      with_vision
        (fun v => {| trackingEnabled := trackingEnabled v;
                     visionState := visionState v;
                     backendConfig := backendConfig v;
                     distractorReason := distractorReason v;
                     recentStatesRef := recentStatesRef v;
                     visionConfig := config;
                     socket := socket v |}) a
  | ChooseCharacter choice =>
      with_alerting
        (fun al => {| alertTimeoutRef := alertTimeoutRef al;
                      alertQueuedRef := alertQueuedRef al;
                      alertQueue := alertQueue al;
                      activeAlert := activeAlert al;
                      characterChoice := choice |}) a
  | AlertEnded =>
      with_alerting
        (fun al => {| alertTimeoutRef := alertTimeoutRef al;
                      alertQueuedRef := alertQueuedRef al;
                      alertQueue := alertQueue al;
                      activeAlert := "";
                      characterChoice := characterChoice al |}) a
  | SimulateState =>
      with_smoother
        (fun s => {| focusResults := focusResults s;
                     focusLevel := focusLevel s;
                     currentState := match currentState s with
                                     | Focused => Distracted
                                     | Distracted => Focused
                                     end |}) a
  | SocketClosed =>
      with_vision
        (fun v => {| trackingEnabled := trackingEnabled v;
                     visionState := "";
                     backendConfig := backendConfig v;
                     distractorReason := distractorReason v;
                     recentStatesRef := recentStatesRef v;
                     visionConfig := visionConfig v;
                     socket := None |}) a
  end.

Definition run (events : list Event) (a : App) : App := fold_left step events a.

(** The clock readings of an event are after the epoch. *)
Definition clocked (e : Event) : bool :=
  match e with
  | Render now | Timeout now | Submit now | End now => (0 <? now)%Z
  | _ => true
  end.

End Machine.

(** ** Episodes and the invariants of the component *)

(** 1 while a distraction episode is open, 0 otherwise. *)
Definition open_episodes (s : Session) : Z :=
  if ref_set (distractedStartRef s) then 1%Z else 0%Z.

(** The episodes that were opened and closed again. *)
Definition completed_episodes (s : Session) : Z :=
  (distractedCountRef s - open_episodes s)%Z.

(** Distracted, focused, distracted, ...: the states of [n] alternating
    entries. *)
Fixpoint alternation (n : nat) : list FocusState :=
  match n with
  | O => []
  | S k => alternation k ++ [if Nat.even k then Distracted else Focused]
  end.

Definition alert_memo (a : App) (warn started : bool) : Prop :=
  exists reason state choice talk,
    alertDeps (memo a) = Some (warn, started, reason, state, choice, talk).

Definition timeline_memo (a : App) (warn started : bool) : Prop :=
  exists reason, timelineDeps (memo a) = Some (warn, started, reason).

(** What holds of the component after any events. *)
Record Inv (a : App) : Prop := {
  (** a running session has its start time *)
  inv_started :
    lessonStarted (session a) = true -> ref_set (sessionStartRef (session a)) = true;
  (** an episode start is a clock reading, taken in a running session *)
  inv_episode :
    forall t, distractedStartRef (session a) = Some t ->
              (0 < t)%Z /\ lessonStarted (session a) = true;
  (** the effects last ran with the started flag of the state *)
  inv_alert_started :
    forall w l, alert_memo a w l -> l = lessonStarted (session a);
  inv_timeline_started :
    forall w l, timeline_memo a w l -> l = lessonStarted (session a);
  (** in a running session an episode is open exactly when the timeline
      effect last saw the warning *)
  inv_timeline_seen :
    lessonStarted (session a) = true ->
    forall w, timeline_memo a w true -> ref_set (distractedStartRef (session a)) = w;
  (** when the alert effect last saw the warning, an episode is open *)
  inv_alert_seen :
    lessonStarted (session a) = true ->
    alert_memo a true true -> ref_set (distractedStartRef (session a)) = true;
  (** a pending timer was armed under the warning, for the open episode, and
      is due no sooner than the debounce delay after the start of it *)
  inv_pending :
    forall t, alertTimeoutRef (alerting a) = Some t ->
              seenWarning t = true
              /\ alert_memo a true true
              /\ exists t0, distractedStartRef (session a) = Some t0
                            /\ (t0 + debounce <= due t)%Z;
  (** an alert is queued for an open episode only *)
  inv_queued :
    lessonStarted (session a) = true -> alertQueuedRef (alerting a) = true ->
    alert_memo a true true;
  (** the timeline pairs up with the episodes *)
  inv_count :
    lessonStarted (session a) = true ->
    Z.of_nat (List.length (sessionTimeline (session a)))
    = (2 * completed_episodes (session a) + open_episodes (session a))%Z
    /\ (open_episodes (session a) <= distractedCountRef (session a))%Z
    /\ map Entry.state (sessionTimeline (session a))
       = alternation (List.length (sessionTimeline (session a)))
}.

(** ** The alerts of an episode *)

Section Episodes.
Context {E : JsEngine}.

(** The assets an event appends to the alert queue: only a timer that is
    due appends one. *)
Definition fired (a : App) (e : Event) : list string :=
  match e with
  | Timeout now =>
      match alertTimeoutRef (alerting a) with
      | Some t =>
          if (due t <=? now)%Z
          then match alert_of (alertQueuedRef (alerting a)) t with
               | Some asset => [asset]
               | None => []
               end
          else []
      | None => []
      end
  | _ => []
  end.

(** The assets appended in the course of the events, from the state [a]. *)
Fixpoint queued_during (events : list Event) (a : App) : list string :=
  match events with
  | [] => []
  | e :: rest => fired a e ++ queued_during rest (step a e)
  end.


(** The clock reading of an event, when it has one. *)
Definition event_time (e : Event) : option Z :=
  match e with
  | Render now | Timeout now | Submit now | End now => Some now
  | _ => None
  end.

End Episodes.

(** ** Vocabulary of the proofs *)

(** *** The levels a window can have

    A window holds between 1 and 60 verdicts, so a level is one of the
    finitely many doubles [s / n] with [0 <= s <= n <= 60]. *)

Definition level (s n : Z) : float := (number s / number n)%float.

Definition every_level (P : Z -> Z -> bool) : bool :=
  forallb (fun n => forallb (fun s => P (Z.of_nat s) (Z.of_nat n)) (seq 0 (S n)))
          (seq 1 60).

Definition is_bit (x : Z) : Prop := x = 0%Z \/ x = 1%Z.

(** The window holds bits, at most 60, and the level is 1 over the empty
    window and the quotient of the sum and the length otherwise. *)
Record Windowed (s : Smoother) : Prop := {
  window_bits : Forall is_bit (focusResults s);
  window_bound : List.length (focusResults s) <= 60;
  window_level :
    match focusResults s with
    | [] => focusLevel s = 1%float
    | _ :: _ =>
        focusLevel s
        = level (SmootherSpec.total (focusResults s)) (Z.of_nat (List.length (focusResults s)))
    end
}.

(** *** The counting objects of the resolver, in closed form *)

Section ResolverVocabulary.
Import ResolverSpec.


Definition seen (L : list string) (key : string) : bool :=
  existsb (fun l => String.eqb (normal l) key) L.





End ResolverVocabulary.

(** *** The cases of the two lesson effects *)

Definition rescheduled (now : Z) (a : App) : Alerts :=
  if stale same_alert_deps (alertDeps (memo a)) (alert_deps a)
  then schedule now (lessonStarted (session a)) (warning a)
                (distractedStartRef (session a)) (distractorReason (vision a))
                (visionState (vision a)) (talking a)
                (set_timer None (alertQueuedRef (alerting a)) (alerting a))
  else alerting a.

Inductive transition (now : Z) (warn : bool) (s s' : Session) : Prop :=
| stays :
    s' = s ->
    (lessonStarted s = true -> ref_set (distractedStartRef s) = warn) ->
    transition now warn s s'
| opens (e : Entry.t) :
    lessonStarted s = true -> warn = true ->
    ref_set (distractedStartRef s) = false ->
    lessonStarted s' = true ->
    sessionStartRef s' = sessionStartRef s ->
    distractedStartRef s' = Some now ->
    distractedCountRef s' = (distractedCountRef s + 1)%Z ->
    distractedTotalRef s' = distractedTotalRef s ->
    sessionTimeline s' = sessionTimeline s ++ [e] ->
    Entry.state e = Distracted ->
    transition now warn s s'
| closes (e : Entry.t) (started : Z) :
    lessonStarted s = true -> warn = false ->
    distractedStartRef s = Some started -> started <> 0%Z ->
    lessonStarted s' = true ->
    sessionStartRef s' = sessionStartRef s ->
    distractedStartRef s' = None ->
    distractedCountRef s' = distractedCountRef s ->
    distractedTotalRef s' = (distractedTotalRef s + round_seconds (now - started))%Z ->
    sessionTimeline s' = sessionTimeline s ++ [e] ->
    Entry.state e = Focused ->
    transition now warn s s'.

(** The time the alert effect counts the debounce delay from. *)
Definition anchor (distractedStart : option Z) (now : Z) : Z :=
  match distractedStart with
  | Some t => if ref_set distractedStart then t else now
  | None => now
  end.

Inductive scheduled (now : Z) (started warn : bool) (distractedStart : option Z)
          (al al' : Alerts) : Prop :=
| idle : started = false -> al' = al -> scheduled now started warn distractedStart al al'
| calm :
    started = true -> warn = false ->
    al' = set_timer None false al ->
    scheduled now started warn distractedStart al al'
| served :
    started = true -> warn = true -> alertQueuedRef al = true -> al' = al ->
    scheduled now started warn distractedStart al al'
| armed (t : AlertTimer) :
    started = true -> warn = true -> alertQueuedRef al = false ->
    al' = set_timer (Some t) false al ->
    seenWarning t = true ->
    due t = (now + Z.max (debounce - (now - anchor distractedStart now)) 0)%Z ->
    scheduled now started warn distractedStart al al'.

(** What a render needs of the state it is committed on; it holds of any
    state the invariants hold of, and of such a state after [startLesson]
    or [endLesson]. *)
Record Pre (a : App) : Prop := {
  pre_started :
    lessonStarted (session a) = true -> ref_set (sessionStartRef (session a)) = true;
  pre_episode :
    forall t, distractedStartRef (session a) = Some t ->
              (0 < t)%Z /\ lessonStarted (session a) = true;
  pre_timeline_seen :
    lessonStarted (session a) = true -> timeline_memo a (warning a) true ->
    ref_set (distractedStartRef (session a)) = warning a;
  pre_alert_seen :
    lessonStarted (session a) = true -> warning a = true -> alert_memo a true true ->
    ref_set (distractedStartRef (session a)) = true;
  pre_pending :
    forall t, alertTimeoutRef (alerting a) = Some t ->
              seenWarning t = true
              /\ alert_memo a true true
              /\ (lessonStarted (session a) = true -> warning a = true ->
                  exists t0, distractedStartRef (session a) = Some t0
                             /\ (t0 + debounce <= due t)%Z);
  pre_queued :
    lessonStarted (session a) = true -> alertQueuedRef (alerting a) = true ->
    forall w, alert_memo a w true -> w = true;
  pre_count :
    lessonStarted (session a) = true ->
    Z.of_nat (List.length (sessionTimeline (session a)))
    = (2 * completed_episodes (session a) + open_episodes (session a))%Z
    /\ (open_episodes (session a) <= distractedCountRef (session a))%Z
    /\ map Entry.state (sessionTimeline (session a))
       = alternation (List.length (sessionTimeline (session a)))
}.

(** ** Sample payloads and runs *)

Module Sample.

Definition away : JsVal := JObj [("state", JStr "looking left")].
Definition aside : JsVal := JObj [("state", JStr "looking right")].
Definition here : JsVal := JObj [("state", JStr "focused")].

(** A frame in which the remote side switches talking off. *)
Definition echo_off : JsVal :=
  JObj [("config", JObj [("include_talking", JBool false)]); ("state", JStr "focused")].

(** A centered face, the remote side reporting speech. *)
Definition talker : JsVal :=
  JObj [("state", JStr "talking"); ("h_ratio", JNum 0.5); ("v_ratio", JNum 0.5)].

(** A face with a phone in the frame, the state saying "at screen". *)
Definition with_phone : VisionSample :=
  {| h_ratio := Some 0.5%float; v_ratio := Some 0.5%float; left_ear := Some 0.3%float;
     state := Some "at screen"; objects := Some ["Cell Phone"]; volume := None |}.

(** A lesson with an episode of a second and a half, closed, and a second
    one, open. *)
Definition two_episodes : list Event :=
  [Render 500; Submit 1000; Message away; Render 1000;
   Message here; Message here; Message here; Render 2500;
   Message away; Render 2501]%Z.

(** The lesson ends after three seconds, the second episode having lasted
    a second and a half too. *)
Definition short_lesson : list Event := two_episodes ++ [End 4001%Z].

(** The first frame echoes a config; the render after it sees the echo. *)
Definition echoed : list Event := [Render 500; Message echo_off; Render 600]%Z.

(** A lesson is started and the first frame lowers the level. *)
Definition drifting : list Event := [Render 500; Submit 1000; Message away]%Z.

(** The episode goes on: a frame, a render, the timer of the alert firing
    too early and then in time, and what follows. *)
Definition ongoing : list Event :=
  [Message aside; Render 2000; Timeout 4000; Timeout 5100; Timeout 6000; Render 6000]%Z.

End Sample.

From Stdlib Require Import Floats.FloatAxioms DecimalZ.

(** ** The rest of the component

    What follows is the vocabulary of the properties that are proved of the
    code beside those of the specification, and the functions of App.jsx
    that no property of the specification needs. *)

(** *** What the resolver has recorded *)

Section ResolverRecords.
Context {E : JsEngine}.

(** The label was recorded under the key for one of the states: it is the
    [String(state)] of a state that takes part in the count. *)
Definition recorded (talk : JsVal) (states : list JsVal) (key label : string) : Prop :=
  exists st, In st states
             /\ ToString st = Returns label
             /\ normalizeState st = Returns key
             /\ is_empty key = false
             /\ isFocusedState key = false
             /\ (truthy talk = false -> includes key "talking" = false).

End ResolverRecords.

(** *** The alerts that play

    The player takes the alerts from the queue one at a time: the effect
    with dependencies [activeAlert, alertQueue] starts the first of the
    queue when none plays, [onEnded] of the video clears the one that
    plays. *)

(** The alert that plays and the alerts that wait, in the order they play. *)
Definition playlist (al : Alerts) : list string :=
  (if is_empty (activeAlert al) then [] else [activeAlert al]) ++ alertQueue al.

Section Playback.
Context {E : JsEngine}.

(** The alert whose playback the event ends. *)
Definition ended (a : App) (e : Event) : list string :=
  match e with
  | AlertEnded =>
      if is_empty (activeAlert (alerting a)) then [] else [activeAlert (alerting a)]
  | _ => []
  end.

Fixpoint ended_during (events : list Event) (a : App) : list string :=
  match events with
  | [] => []
  | e :: rest => ended a e ++ ended_during rest (step a e)
  end.
End Playback.

(** No entry of the queue is the empty string. *)
Definition queue_sound (al : Alerts) : Prop :=
  Forall (fun asset => is_empty asset = false) (alertQueue al).

(** *** The episodes of the timeline *)

(** The entries of the timeline that open a distraction episode. *)
Definition distracted_entries (timeline : list Entry.t) : nat :=
  List.length (filter (fun e => match Entry.state e with
                                | Distracted => true
                                | Focused => false
                                end) timeline).

(** *** A clock that never goes back *)

Section Clock.
Context {E : JsEngine}.

(** The clock readings of the events, from the reading [t] on, never
    decrease. *)
Fixpoint chronological (t : Z) (events : list Event) : bool :=
  match events with
  | [] => true
  | e :: rest =>
      match event_time e with
      | Some now => (t <=? now)%Z && chronological now rest
      | None => chronological t rest
      end
  end.

End Clock.

Fixpoint nondecreasing (l : list Z) : bool :=
  match l with
  | [] => true
  | x :: rest =>
      match rest with
      | [] => true
      | y :: _ => (x <=? y)%Z && nondecreasing rest
      end
  end.

(** What holds of a session when the clock, which now reads [t], never went
    back. *)
Record Chron (t : Z) (s : Session) : Prop := {
  chron_sorted : nondecreasing (map Entry.elapsedSeconds (sessionTimeline s)) = true;
  chron_positive : Forall (fun e => (0 <= Entry.elapsedSeconds e)%Z) (sessionTimeline s);
  chron_total : (0 <= distractedTotalRef s)%Z;
  chron_start :
    lessonStarted s = true ->
    exists start, sessionStartRef s = Some start
                  /\ (start <= t)%Z
                  /\ Forall (fun e => (Entry.elapsedSeconds e <= round_seconds (t - start))%Z)
                            (sessionTimeline s);
  chron_episode : forall d, distractedStartRef s = Some d -> (d <= t)%Z
}.

(** *** What the footer shows *)

(** [statusColors] *)
Definition statusColors : list (string * string) :=
  [("focused", "var(--success)"); ("distracted", "var(--warning)");
   ("offline", "var(--muted)")].

(** [statusText] *)
Definition statusText (trackingEnabled : bool) (currentState : FocusState) : string :=
  if negb trackingEnabled then "Offline"
  else match currentState with
       | Focused => "Focused"
       | Distracted => "Distracted"
       end.

(** [focusMeterColor] *)
Definition focusMeterColor (focusLevel : float) : string :=
  if PrimFloat.leb 0.7 focusLevel then "var(--success)"
  else if PrimFloat.leb 0.4 focusLevel then "var(--warning)"
       else "#ef4444".

(** [statusColor]; a missing member of [statusColors] reads as
    [undefined], which the style drops. *)
Definition statusColor (trackingEnabled : bool) (focusLevel : float) : option string :=
  if trackingEnabled then Some (focusMeterColor focusLevel)
  else JsObject.get statusColors "offline".

Section Footer.
Context {E : JsEngine}.

(** [focusPercent] *)
Definition focusPercent (focusLevel : float) : float :=
  Math_round (focusLevel * 100)%float.

End Footer.

(** *** The countdown *)

(** The updater of [setRemainingSeconds] in the callback of the interval. *)
Definition tick (prev : float) : float :=
  if PrimFloat.leb prev 1 then 0%float else (prev - 1)%float.

(** The interval of the countdown fires once: there is an interval while
    the lesson is started and the remaining time is not [<= 0], and its
    callback does nothing but update the remaining time. *)
Definition countdown (a : App) : App :=
  if negb (lessonStarted (session a)) || PrimFloat.leb (remainingSeconds (session a)) 0
  then a
  else with_session
         (fun s => {| lessonMinutes := lessonMinutes s;
                      lessonStarted := lessonStarted s;
                      remainingSeconds := tick (remainingSeconds s);
                      sessionSummary := sessionSummary s;
                      sessionTimeline := sessionTimeline s;
                      sessionStartRef := sessionStartRef s;
                      distractedStartRef := distractedStartRef s;
                      distractedTotalRef := distractedTotalRef s;
                      distractedCountRef := distractedCountRef s |}) a.

(** The whole seconds of 240 minutes, the longest lesson the form offers. *)
Definition longest_lesson : Z := 14400.

(** [P] holds of the [count] integers from [z] on. *)
Fixpoint all_from (count : nat) (z : Z) (P : Z -> bool) : bool :=
  match count with
  | O => true
  | S k => P z && all_from k (z + 1)%Z P
  end.

(** *** Durations as text *)

(** [String(n)] for an integer [n]: its decimal numeral, with a minus sign
    below zero. *)
Definition decimal (n : Z) : string := NilZero.string_of_int (Z.to_int n).

(** [formatDuration(totalSeconds)] on whole seconds: [Math.floor] of the
    quotient rounds down, [%] takes the sign of the dividend. (The seconds
    of a summary and of a timeline entry are whole, and far below 2^53 / 60,
    up to where the quotient of the doubles has the floor of the exact
    one.) *)
Definition formatDuration (totalSeconds : Z) : string :=
  let minutes := (totalSeconds / 60)%Z in
  let seconds := Z.rem totalSeconds 60 in
  (decimal minutes ++ "m " ++ decimal seconds ++ "s")%string.

Fixpoint digit_string (s : string) : bool :=
  match s with
  | EmptyString => true
  | String c rest =>
      match JsObject.digit c with
      | Some _ => digit_string rest
      | None => false
      end
  end.

(** *** Dragging the camera *)

(** [-0] *)
Definition is_negative_zero (x : float) : bool :=
  PrimFloat.is_zero x && PrimFloat.get_sign x.

(** [Math.max(a, b)]: NaN when one of the two is, and [+0] above [-0]. *)
Definition Math_max (a b : float) : float :=
  if PrimFloat.is_nan a || PrimFloat.is_nan b then PrimFloat.nan
  else if PrimFloat.ltb a b then b
  else if PrimFloat.ltb b a then a
  else if is_negative_zero a then b else a.

(** [Math.min(a, b)]: NaN when one of the two is, and [-0] below [+0]. *)
Definition Math_min (a b : float) : float :=
  if PrimFloat.is_nan a || PrimFloat.is_nan b then PrimFloat.nan
  else if PrimFloat.ltb a b then a
  else if PrimFloat.ltb b a then b
  else if is_negative_zero a then a else b.

Module Camera.

(** [getBoundingClientRect()], the members the component reads. *)
Record Rect : Type := { left : float; top : float; width : float; height : float }.

(** [dragState.current] while the camera is dragged. *)
Record Drag : Type := { offsetX : float; offsetY : float }.

(** [cameraPosition] *)
Record Point : Type := { x : float; y : float }.

(** [useState({ x: 24, y: 24 })] *)
Definition initialCameraPosition : Point := {| x := 24; y := 24 |}.

(** [onMouseDown] of the floating camera, whose box is [bounds]. *)
Definition startDrag (bounds : Rect) (clientX clientY : float) : option Drag :=
  Some {| offsetX := (clientX - left bounds)%float;
          offsetY := (clientY - top bounds)%float |}.

(** [stopDrag] *)
Definition stopDrag : option Drag := None.

(** [handleMove(event)]: [dragState] is [dragState.current], [session] the
    box of [sessionRef.current] when there is one. *)
Definition handleMove (dragState : option Drag) (session : option Rect)
           (clientX clientY : float) (cameraPosition : Point) : Point :=
  match dragState, session with
  | Some drag, Some bounds =>
      let nextX :=
        Math_min (Math_max (clientX - left bounds - offsetX drag) 16)
                 (width bounds - 200) in
      let nextY :=
        Math_min (Math_max (clientY - top bounds - offsetY drag) 16)
                 (height bounds - 140) in
      {| x := nextX; y := nextY |}
  | _, _ => cameraPosition
  end.

(** The box of the camera and a session view of 800 by 600 pixels. *)
Definition box : Rect := {| left := 24; top := 24; width := 200; height := 140 |}.
Definition view : Rect := {| left := 0; top := 0; width := 800; height := 600 |}.

End Camera.

(** *** The first revision of the component

    The file holds an earlier revision of App.jsx before the one above (its
    lines 1 to 612): the classifier has fixed thresholds and knows fewer
    labels, the window holds 20 verdicts, and the samples are simulated. *)

Module Rev1.

Definition distractedObjects : list string := ["phone"; "cell phone"; "tablet"; "ipad"].

Section Classifier.
Context {E : JsEngine}.

(** The rule cascade of [evaluateFocus]. *)
Definition cascade (normalizedState : string) (normalizedObjects : list string)
           (leftEar hRatio vRatio : JsVal) : Verdict :=
  let hasDistractor :=
    existsb (fun item => array_includes distractedObjects item) normalizedObjects in
  if hasDistractor then {| focused := false; reason := distractor |}
  else if match as_number leftEar with
          | Some e => PrimFloat.ltb e 0.3
          | None => false
          end
  then {| focused := false; reason := eyes_closed |}
  else if String.eqb normalizedState "at screen"
  then {| focused := true; reason := by_state |}
  else if match as_number hRatio, as_number vRatio with
          | Some h, Some v =>
              PrimFloat.leb 0.35 h && PrimFloat.leb h 0.65
              && PrimFloat.leb 0.35 v && PrimFloat.leb v 0.6
          | _, _ => false
          end
  then {| focused := true; reason := centered |}
  else {| focused := false; reason := off_center |}.

(** [evaluateFocus(visionData)] *)
Definition evaluateFocus (visionData : JsVal) : outcome Verdict :=
  let src := or_else visionData (JObj []) in
  let hRatio := field src "h_ratio" in
  let vRatio := field src "v_ratio" in
  let leftEar := field src "left_ear" in
  let state := field src "state" in
  let objects := field src "objects" in
  s <- ToString (or_else state (JStr "")) ;;
  let normalizedState := toLowerCase s in
  normalizedObjects <-
    array_map (or_else objects (JArr []))
              (fun item => n <- ToString item ;; Returns (toLowerCase n)) ;;
  Returns (cascade normalizedState normalizedObjects leftEar hRatio vRatio).

End Classifier.

End Rev1.

Section Revisions.
Context {E : JsEngine}.

(** The normalised state and object names [evaluateFocus] works on, in
    either revision. *)
Definition normalized_sample (visionData : JsVal) : outcome (string * list string) :=
  let src := or_else visionData (JObj []) in
  s <- ToString (or_else (field src "state") (JStr "")) ;;
  normalizedObjects <-
    array_map (or_else (field src "objects") (JArr []))
              (fun item => n <- ToString item ;; Returns (toLowerCase n)) ;;
  Returns (toLowerCase s, normalizedObjects).

End Revisions.

(** *** The labels of the timeline *)

(** What the pill of a timeline entry shows: [entry.label || entry.state]. *)
Definition pill (e : Entry.t) : string :=
  if is_empty (Entry.label e)
  then match Entry.state e with
       | Focused => "focused"
       | Distracted => "distracted"
       end
  else Entry.label e.

(** A distracted entry carries a label that is not empty, a focused entry
    the label "focused". *)
Definition labelled (e : Entry.t) : Prop :=
  match Entry.state e with
  | Distracted => is_empty (Entry.label e) = false
  | Focused => Entry.label e = "focused"
  end.

(** *** The simulated samples of the first revision *)

Module Simulated.

(** [Math.random()]: [draws] are the values it returns, in their order,
    [taken] counts the ones that were used. *)
Definition random (draws : nat -> float) (taken : nat) : float * nat :=
  (draws taken, S taken).

(** [["left", "right", "down"][Math.floor(x)]] *)
Definition nth_state (x : float) : JsVal :=
  if PrimFloat.leb 0 x && PrimFloat.ltb x 1 then JStr "left"
  else if PrimFloat.leb 1 x && PrimFloat.ltb x 2 then JStr "right"
  else if PrimFloat.leb 2 x && PrimFloat.ltb x 3 then JStr "down"
  else JUndefined.

(** The sample the callback of the interval makes up. *)
Definition sample (draws : nat -> float) (taken : nat) : JsVal * nat :=
  let '(focusBias, taken) := random draws taken in
  let '(hRatio, taken) :=
    if PrimFloat.ltb focusBias 0.7 then (0.45%float, taken)
    else let '(r, taken) := random draws taken in ((0.2 + r * 0.6)%float, taken) in
  let '(vRatio, taken) :=
    if PrimFloat.ltb focusBias 0.7 then (0.5%float, taken)
    else let '(r, taken) := random draws taken in ((0.2 + r * 0.6)%float, taken) in
  let '(r, taken) := random draws taken in
  let leftEar := if PrimFloat.ltb 0.95 r then 0.2%float else 0.35%float in
  let '(state, taken) :=
    if PrimFloat.ltb focusBias 0.7 then (JStr "at screen", taken)
    else let '(r, taken) := random draws taken in (nth_state (r * 3)%float, taken) in
  let '(r, taken) := random draws taken in
  let objects := if PrimFloat.ltb 0.97 r then [JStr "phone"] else [] in
  (JObj [("h_ratio", JNum hRatio); ("v_ratio", JNum vRatio); ("left_ear", JNum leftEar);
         ("state", state); ("objects", JArr objects)],
   taken).

(** [pushFocusResult(isFocused)] of the first revision: a window of 20. *)
Definition pushFocusResult (isFocused : bool) (prev : Smoother) : Smoother :=
  let nextResults :=
    slice_last 20 (focusResults prev ++ [if isFocused then 1%Z else 0%Z]) in
  let average :=
    (number (reduce_sum nextResults) / number (Z.of_nat (List.length nextResults)))%float in
  {| focusResults := nextResults;
     focusLevel := average;
     currentState := if PrimFloat.leb 0.7 average then Focused else Distracted |}.

Section Interval.
Context {E : JsEngine}.

(** The callback of the interval of the simulation. *)
Definition interval (draws : nat -> float) (taken : nat) (s : Smoother) : Smoother * nat :=
  let '(visionData, taken) := sample draws taken in
  match Rev1.evaluateFocus visionData with
  | Returns result => (pushFocusResult (focused result) s, taken)
  | Throws => (s, taken)
  end.

End Interval.

(** Both ratios inside the bounds of the first revision. *)
Definition centered_ratios (h v : float) : bool :=
  PrimFloat.leb 0.35 h && PrimFloat.leb h 0.65 && PrimFloat.leb 0.35 v && PrimFloat.leb v 0.6.

End Simulated.

(** *** What a pending timer has seen *)

(** The dependency values of the render a timer was armed in. *)
Definition seen_deps (t : AlertTimer) : bool * bool * string * string * string * JsVal :=
  (seenWarning t, true, seenReason t, seenVisionState t, seenCharacter t,
   seenIncludeTalking t).

(** A pending timer was armed by the last run of the alert effect. *)
Definition timer_of_last_run (a : App) : Prop :=
  forall t, alertTimeoutRef (alerting a) = Some t ->
            alertDeps (memo a) = Some (seen_deps t).
(* ================================================================== *)
(** * Part II. Theorems                                                *)
(* ================================================================== *)

Section ClassifierFacts.
Context {E : JsEngine}.

Lemma mapM_strings (l : list string) :
  mapM (fun item => n <- ToString item ;; Returns (toLowerCase n)) (map JStr l)
  = Returns (map toLowerCase l).
Proof.
  induction l as [|x l IH]; simpl; [reflexivity|].
  rewrite IH. reflexivity.
Qed.

End ClassifierFacts.

Section ClassifierProofs.
Context {E : JsEngine}.

Lemma own_app (p q : list (string * JsVal)) (key : string) :
  own (p ++ q) key = match own p key with Some x => Some x | None => own q key end.
Proof.
  induction p as [|[k v] p IH]; simpl; [reflexivity|].
  destruct (String.eqb k key); [reflexivity | exact IH].
Qed.

Lemma or_else_string (o : option string) :
  ToString (or_else (match o with Some x => JStr x | None => JUndefined end) (JStr ""))
  = Returns (match o with Some x => x | None => "" end).
Proof.
  destruct o as [[|c s]|]; reflexivity.
Qed.

Lemma existsb_never {A : Type} (l : list A) : existsb (fun _ => false) l = false.
Proof. induction l; simpl; auto. Qed.

Lemma existsb_either {A : Type} (f g : A -> bool) (l : list A) :
  existsb (fun x => f x || g x) l = existsb f l || existsb g l.
Proof.
  induction l as [|x l IH]; simpl; [reflexivity|].
  rewrite IH. destruct (f x), (g x), (existsb f l); reflexivity.
Qed.

Lemma existsb_swap {A B : Type} (f : A -> B -> bool) (la : list A) (lb : list B) :
  existsb (fun a => existsb (f a) lb) la
  = existsb (fun b => existsb (fun a => f a b) la) lb.
Proof.
  induction la as [|a la IH]; simpl.
  - symmetry. apply existsb_never.
  - rewrite IH, <- existsb_either. reflexivity.
Qed.

(** Rule 1 as the code computes it and as the specification words it. *)
Lemma hasDistractor_spec (os : list string) :
  existsb (fun item => array_includes distractedObjects item) (map toLowerCase os)
  = existsb (fun d => existsb (fun o => String.eqb (toLowerCase o) d) os)
            distractedObjects.
Proof.
  unfold array_includes.
  rewrite existsb_swap.
  generalize distractedObjects as ds.
  induction ds as [|d ds IHd]; simpl; [reflexivity|].
  rewrite IHd. f_equal.
  clear IHd. induction os as [|o os IH]; simpl; [reflexivity|].
  rewrite IH. reflexivity.
Qed.

(** The cascade of the code is the first-match evaluation of the rule
    list of the specification; the cascade sees a numeric field only
    through [typeof]. *)
Lemma cascade_classify (cfg : VisionConfig) (talk : JsVal) (s : VisionSample)
      (leftEar hRatio vRatio : JsVal) :
  as_number leftEar = left_ear s ->
  as_number hRatio = h_ratio s ->
  as_number vRatio = v_ratio s ->
  cascade cfg talk (Spec.state_of s) (map toLowerCase (Spec.objects_of s))
          leftEar hRatio vRatio
  = Spec.classify cfg (truthy talk) s.
Proof.
  intros He Hh Hv.
  unfold cascade, Spec.classify, Spec.rules, Spec.first_match, Spec.within.
  rewrite hasDistractor_spec, He, Hh, Hv.
  destruct (existsb _ distractedObjects); [reflexivity|].
  destruct (includes (Spec.state_of s) "phone" || includes (Spec.state_of s) "book");
    [reflexivity|].
  destruct (truthy talk && includes (Spec.state_of s) "talking"); [reflexivity|].
  destruct (includes (Spec.state_of s) "no face"); [reflexivity|].
  assert (Hrest :
    (if (Spec.state_of s =? "focused")%string || (Spec.state_of s =? "at screen")%string
     then {| focused := true; reason := by_state |}
     else if match h_ratio s, v_ratio s with
             | Some h, Some v =>
                 PrimFloat.leb (hMin cfg) h && PrimFloat.leb h (hMax cfg)
                 && PrimFloat.leb (vMin cfg) v && PrimFloat.leb v (vMax cfg)
             | _, _ => false
             end
          then {| focused := true; reason := centered |}
          else {| focused := false; reason := off_center |})
    = (if (Spec.state_of s =? "focused")%string || (Spec.state_of s =? "at screen")%string
       then {| focused := true; reason := by_state |}
       else if match h_ratio s with
               | Some x => PrimFloat.leb (hMin cfg) x && PrimFloat.leb x (hMax cfg)
               | None => false
               end
               && match v_ratio s with
                  | Some x => PrimFloat.leb (vMin cfg) x && PrimFloat.leb x (vMax cfg)
                  | None => false
                  end
            then {| focused := true; reason := centered |}
            else {| focused := false; reason := off_center |})).
  { destruct ((Spec.state_of s =? "focused")%string
              || (Spec.state_of s =? "at screen")%string); [reflexivity|].
    destruct (h_ratio s) as [h|], (v_ratio s) as [v|]; cbn [andb]; try reflexivity.
    - rewrite <- andb_assoc. reflexivity.
    - rewrite andb_false_r. reflexivity. }
  destruct (left_ear s) as [e|]; [|exact Hrest].
  destruct (PrimFloat.ltb e (earThreshold cfg)); [reflexivity | exact Hrest].
Qed.

(** First match: the default, or the verdict of a rule that fired. *)
Lemma first_match_fired (rs : list ((VisionSample -> bool) * Verdict))
      (s : VisionSample) :
  Spec.first_match rs s = {| focused := false; reason := off_center |}
  \/ exists cond verdict,
      In (cond, verdict) rs /\ cond s = true /\ Spec.first_match rs s = verdict.
Proof.
  induction rs as [|[cond verdict] rs IH]; simpl; [left; reflexivity|].
  destruct (cond s) eqn:Hc.
  - right. exists cond, verdict. auto.
  - destruct IH as [IH | (c & w & Hin & Hcs & Hres)]; [left; exact IH|].
    right. exists c, w. auto.
Qed.

Lemma mapM_shaped (items : list JsVal) :
  forallb Spec.is_string items = true ->
  mapM (fun item => n <- ToString item ;; Returns (toLowerCase n)) items
  = Returns (map toLowerCase (Spec.strings_of items)).
Proof.
  induction items as [|x items IH]; simpl; [reflexivity|].
  destruct x; simpl; try discriminate.
  intros H. rewrite (IH H). reflexivity.
Qed.

Lemma strings_of_map (l : list string) : Spec.strings_of (map JStr l) = l.
Proof.
  induction l as [|x l IH]; simpl; [reflexivity|]. rewrite IH. reflexivity.
Qed.

Lemma forallb_map_JStr (l : list string) :
  forallb Spec.is_string (map JStr l) = true.
Proof. induction l; simpl; auto. Qed.

(** What [evaluateFocus] does on any payload of the shape of a sample. *)
Lemma evaluateFocus_shaped (cfg : VisionConfig) (talk : JsVal) (v : JsVal) :
  Spec.sample_shaped v = true ->
  evaluateFocus cfg talk v
  = Returns (Spec.classify cfg (truthy talk) (Spec.sample_view v)).
Proof.
  intros Hshape.
  assert (Hsrc : forall key, field (or_else v (JObj [])) key = field v key).
  { intros key. unfold or_else. destruct (truthy v) eqn:T; [reflexivity|].
    destruct v; try reflexivity; discriminate. }
  unfold evaluateFocus. rewrite !Hsrc.
  assert (Hstate :
    ToString (or_else (field v "state") (JStr ""))
    = Returns (match state (Spec.sample_view v) with Some x => x | None => "" end)).
  { destruct v; try reflexivity.
    cbn [Spec.sample_shaped] in Hshape. apply andb_prop in Hshape as [Hs _].
    cbn [Spec.sample_view state].
    destruct (field (JObj props) "state") as [| |b|x|[|c s]|l|q];
      try discriminate; reflexivity. }
  rewrite Hstate. cbn [bind].
  assert (Hobjs :
    array_map (or_else (field v "objects") (JArr []))
              (fun item => n <- ToString item ;; Returns (toLowerCase n))
    = Returns (map toLowerCase (Spec.objects_of (Spec.sample_view v)))).
  { destruct v; try reflexivity.
    cbn [Spec.sample_shaped] in Hshape. apply andb_prop in Hshape as [_ Ho].
    unfold Spec.objects_of. cbn [Spec.sample_view objects].
    destruct (field (JObj props) "objects") as [| |b|x|s|l|q];
      try discriminate; try reflexivity.
    cbn [or_else truthy array_map]. apply mapM_shaped. exact Ho. }
  rewrite Hobjs. cbn [bind]. f_equal.
  apply cascade_classify; reflexivity.
Qed.

Lemma sample_to_js_shaped (s : VisionSample) :
  Spec.sample_shaped (sample_to_js s) = true.
Proof.
  destruct s as [h v e st os vol].
  destruct h, v, e, st, os as [l|], vol; cbn; try reflexivity;
    try apply forallb_map_JStr.
Qed.

Lemma sample_view_to_js (s : VisionSample) :
  Spec.sample_view (sample_to_js s) = s.
Proof.
  destruct s as [h v e st os vol].
  destruct h, v, e, st, os as [l|], vol;
    unfold Spec.sample_view, sample_to_js; simpl;
    rewrite ?strings_of_map; reflexivity.
Qed.

(** C1. For every VisionSample, [evaluateFocus] answers with the verdict
    of the first rule that matches, the rules being tried in the order
    (1) distractor objects, (2) state contains "phone" or "book",
    (3) state contains "talking" when talking is included, (4) state
    contains "no face", (5) numeric left_ear below earThreshold,
    (6) state is "focused" or "at screen", (7) both ratios inside their
    inclusive bounds, (8) off-center otherwise. In particular a sample
    with a distractor object and the state "at screen" is not focused,
    with reason distractor. *)
Theorem evaluateFocus_rule_order :
  (forall (cfg : VisionConfig) (talk : JsVal) (s : VisionSample),
      evaluateFocus cfg talk (sample_to_js s)
      = Returns (Spec.classify cfg (truthy talk) s))
  /\ (forall (cfg : VisionConfig) (talk : JsVal) (s : VisionSample)
             (os : list string) (o : string),
         objects s = Some os ->
         In o os ->
         In (toLowerCase o) distractedObjects ->
         state s = Some "at screen" ->
         evaluateFocus cfg talk (sample_to_js s)
         = Returns {| focused := false; reason := distractor |}).
Proof.
  assert (Hall : forall cfg talk s,
             evaluateFocus cfg talk (sample_to_js s)
             = Returns (Spec.classify cfg (truthy talk) s)).
  { intros cfg talk s.
    rewrite evaluateFocus_shaped by apply sample_to_js_shaped.
    rewrite sample_view_to_js. reflexivity. }
  split; [exact Hall|].
  intros cfg talk s os o Hos Hin Hd _.
  rewrite Hall. unfold Spec.classify, Spec.rules, Spec.first_match.
  replace (existsb _ distractedObjects) with true; [reflexivity|].
  symmetry. apply existsb_exists. exists (toLowerCase o). split; [exact Hd|].
  apply existsb_exists. exists o. unfold Spec.objects_of. rewrite Hos.
  split; [exact Hin | apply String.eqb_refl].
Qed.

(** C9. [evaluateFocus] is total on samples: whatever fields are missing
    or hold something that is no number, and also when there is no sample
    at all, it returns a verdict and throws nothing. The verdict is the one
    of the rule list with the missing and the non-numeric fields taken as
    absent: without a numeric left_ear the eyes-closed rule does not fire,
    without two numeric ratios the centered rule does not fire, and a state
    label that no rule knows fires none of the state rules. *)
Theorem evaluateFocus_total (cfg : VisionConfig) (talk : JsVal) (v : JsVal) :
  Spec.sample_shaped v = true ->
  exists verdict : Verdict,
    evaluateFocus cfg talk v = Returns verdict
    /\ verdict = Spec.classify cfg (truthy talk) (Spec.sample_view v)
    /\ (as_number (field v "left_ear") = None -> reason verdict <> eyes_closed)
    /\ (as_number (field v "h_ratio") = None \/ as_number (field v "v_ratio") = None ->
        reason verdict <> centered)
    /\ (Spec.unknown_state (Spec.state_of (Spec.sample_view v)) = true ->
        reason verdict <> audio /\ reason verdict <> no_face
        /\ reason verdict <> by_state).
Proof.
  intros Hshape. eexists. split; [apply evaluateFocus_shaped; exact Hshape|].
  split; [reflexivity|].
  unfold Spec.classify.
  set (s := Spec.sample_view v).
  destruct (first_match_fired (Spec.rules cfg (truthy talk)) s)
    as [Hdefault | (cond & verdict & Hin & Hcond & Hres)].
  { rewrite Hdefault. repeat split; intros; discriminate. }
  rewrite Hres. clear Hres.
  assert (He : left_ear s = as_number (field v "left_ear")) by reflexivity.
  assert (Hh : h_ratio s = as_number (field v "h_ratio")) by reflexivity.
  assert (Hv : v_ratio s = as_number (field v "v_ratio")) by reflexivity.
  unfold Spec.rules in Hin. cbn [In] in Hin.
  repeat match type of Hin with
         | _ \/ _ => destruct Hin as [Hin | Hin]
         end;
    try contradiction; inversion Hin; subst cond verdict; clear Hin;
    cbn [reason]; repeat split; intros; try discriminate; exfalso;
    repeat match goal with
           | H : Spec.unknown_state _ = true |- _ =>
               unfold Spec.unknown_state in H; apply negb_true_iff in H;
               repeat (apply orb_false_elim in H; destruct H as [H ?])
           | H : _ && _ = true |- _ => apply andb_prop in H; destruct H
           | H : _ || _ = true |- _ => apply orb_prop in H; destruct H
           | H : _ \/ _ |- _ => destruct H
           end;
    unfold Spec.within in *; try congruence.
  - (* eyes-closed rule without a numeric left_ear *)
    rewrite He in Hcond.
    match goal with H : as_number _ = None |- _ => rewrite H in Hcond end.
    discriminate.
  - (* centered rule without numeric ratios *)
    rewrite Hh in *. 
    match goal with H : as_number _ = None |- _ => rewrite H in * end.
    discriminate.
  - rewrite Hv in *.
    match goal with H : as_number _ = None |- _ => rewrite H in * end.
    discriminate.
Qed.

End ClassifierProofs.

Section SmootherProofs.
Import SmootherSpec.

Lemma slice_last_short {A : Type} (n : nat) (l : list A) :
  List.length l <= n -> slice_last n l = l.
Proof.
  intros H. unfold slice_last. replace (List.length l - n) with 0 by lia. reflexivity.
Qed.

Lemma slice_last_length {A : Type} (n : nat) (l : list A) :
  List.length (slice_last n l) = Nat.min (List.length l) n.
Proof. unfold slice_last. rewrite length_skipn. lia. Qed.

(** Slicing an already sliced window after an append loses nothing. *)
Lemma slice_last_app {A : Type} (n : nat) (l r : list A) :
  slice_last n (slice_last n l ++ r) = slice_last n (l ++ r).
Proof.
  destruct (Nat.le_gt_cases (List.length l) n) as [Hle | Hgt].
  - rewrite (slice_last_short n l Hle). reflexivity.
  - unfold slice_last at 1 3. rewrite !length_app, slice_last_length.
    rewrite !skipn_app. unfold slice_last. rewrite skipn_skipn, length_skipn.
    f_equal; f_equal; lia.
Qed.

Lemma pushes_snoc (vs : list bool) (v : bool) (st : Smoother) :
  pushes (vs ++ [v]) st = pushFocusResult v (pushes vs st).
Proof. unfold pushes. rewrite fold_left_app. reflexivity. Qed.

Lemma slice_last_map {A B : Type} (f : A -> B) (n : nat) (l : list A) :
  slice_last n (map f l) = map f (slice_last n l).
Proof. unfold slice_last. rewrite length_map, skipn_map. reflexivity. Qed.

(** The window after any run of pushes from the empty window. *)
Lemma pushes_window (vs : list bool) :
  focusResults (pushes vs initialSmoother) = slice_last 60 (map bit vs).
Proof.
  induction vs as [|v vs IH] using rev_ind; [reflexivity|].
  rewrite pushes_snoc. cbn [pushFocusResult focusResults].
  rewrite IH, slice_last_app, map_app. reflexivity.
Qed.

Lemma window_slice (vs : list bool) : window vs = slice_last 60 (map bit vs).
Proof.
  unfold window, capacity. rewrite slice_last_map. unfold slice_last.
  do 2 f_equal. lia.
Qed.

Lemma reduce_sum_total (l : list Z) : reduce_sum l = total l.
Proof.
  unfold reduce_sum.
  assert (H : forall a, fold_left (fun sum value => (sum + value)%Z) l a
                        = (a + total l)%Z).
  { induction l as [|x l IH]; intros a; simpl; [lia|]. rewrite IH. lia. }
  rewrite H. lia.
Qed.

Lemma total_bits (bs : list bool) :
  (0 <= total (map bit bs) <= Z.of_nat (List.length bs))%Z.
Proof.
  induction bs as [|b bs IH]; [simpl; lia|].
  cbn [map total List.length]. destruct b; cbn [bit]; lia.
Qed.

(** *** Every level the window can produce

    A window holds between 1 and 60 verdicts, so a level is one of the
    finitely many doubles [s / n] with [0 <= s <= n <= 60]; what is said of
    all of them is checked on each. *)

Lemma every_level_sound (P : Z -> Z -> bool) :
  every_level P = true ->
  forall s n : Z, (0 <= s <= n)%Z -> (1 <= n <= 60)%Z -> P s n = true.
Proof.
  intros H s n Hs Hn. unfold every_level in H.
  rewrite forallb_forall in H.
  specialize (H (Z.to_nat n)).
  rewrite forallb_forall in H.
  specialize (fun Hin => H Hin (Z.to_nat s)).
  rewrite !Z2Nat.id in H by lia.
  apply H; apply in_seq; lia.
Qed.

Lemma level_in_unit_interval :
  every_level (fun s n => PrimFloat.leb 0 (level s n) && PrimFloat.leb (level s n) 1)
  = true.
Proof. vm_compute. reflexivity. Qed.

(** The double comparison with the literal 0.7 decides the exact
    comparison of the mean with 7/10. *)
Lemma level_threshold_exact :
  every_level (fun s n => Bool.eqb (PrimFloat.leb 0.7 (level s n))
                                   (7 * n <=? s * 10)%Z)
  = true.
Proof. vm_compute. reflexivity. Qed.

Lemma level_below_or_not :
  every_level (fun s n => Bool.eqb (PrimFloat.ltb (level s n) 0.7)
                                   (negb (PrimFloat.leb 0.7 (level s n))))
  = true.
Proof. vm_compute. reflexivity. Qed.

Lemma level_rounds_mean :
  every_level (fun s n => rounds (Qmake s (Z.to_pos n)) (level s n)) = true.
Proof. vm_compute. reflexivity. Qed.

Lemma to_pos_of_nat (n : nat) : n <> 0 -> Z.to_pos (Z.of_nat n) = Pos.of_nat n.
Proof.
  destruct n as [|k]; [congruence|]. intros _.
  cbn [Z.of_nat Z.to_pos]. apply Pos.of_nat_succ.
Qed.

(** A push leaves a window of the shape the table of levels covers. *)
Lemma pushed_window_bounds (vs : list bool) (v : bool) :
  let w := window (vs ++ [v]) in
  (0 <= total w <= Z.of_nat (List.length w))%Z
  /\ (1 <= Z.of_nat (List.length w) <= 60)%Z.
Proof.
  cbv zeta. unfold window.
  set (bs := skipn _ (vs ++ [v])).
  rewrite length_map.
  split; [apply total_bits|].
  subst bs. rewrite length_skipn, length_app. unfold capacity.
  cbn [List.length]. lia.
Qed.

Lemma pushes_level (vs : list bool) (v : bool) :
  focusLevel (pushes (vs ++ [v]) initialSmoother)
  = level (total (window (vs ++ [v]))) (Z.of_nat (List.length (window (vs ++ [v])))).
Proof.
  rewrite window_slice, <- pushes_window, pushes_snoc.
  cbn [pushFocusResult focusResults focusLevel].
  rewrite reduce_sum_total. reflexivity.
Qed.

Lemma pushes_state (vs : list bool) (v : bool) :
  currentState (pushes (vs ++ [v]) initialSmoother)
  = if PrimFloat.leb 0.7 (focusLevel (pushes (vs ++ [v]) initialSmoother))
    then Focused else Distracted.
Proof. rewrite pushes_snoc. reflexivity. Qed.

(** C2. Before any push the level is 1 and the state focused. After the
    pushes [vs] followed by [v], the window holds the last
    [min(N, capacity)] verdicts as 0s and 1s, oldest first, the level is
    their sum divided by their number, that is their arithmetic mean
    rounded to a double, and the state is distracted exactly when the level
    is below 0.7, which is exactly when the mean is below 7/10. *)
Theorem focusLevel_is_window_mean :
  (focusLevel initialSmoother = 1%float /\ currentState initialSmoother = Focused)
  /\ forall (vs : list bool) (v : bool),
      let st := pushes (vs ++ [v]) initialSmoother in
      let w := window (vs ++ [v]) in
      focusResults st = w
      /\ List.length w = Nat.min (List.length (vs ++ [v])) capacity
      /\ focusLevel st
         = (number (total w) / number (Z.of_nat (List.length w)))%float
      /\ rounds (mean w) (focusLevel st) = true
      /\ (currentState st = Distracted <-> PrimFloat.ltb (focusLevel st) 0.7 = true)
      /\ (currentState st = Distracted <-> (mean w < 7 # 10)%Q).
Proof.
  split; [split; reflexivity|].
  intros vs v st w.
  destruct (pushed_window_bounds vs v) as [Hs Hn]. fold w in Hs, Hn.
  assert (Hlevel : focusLevel st = level (total w) (Z.of_nat (List.length w)))
    by apply pushes_level.
  assert (Hstate : currentState st
                   = if PrimFloat.leb 0.7 (focusLevel st) then Focused else Distracted)
    by apply pushes_state.
  pose proof (every_level_sound _ level_threshold_exact _ _ Hs Hn) as Hthr.
  pose proof (every_level_sound _ level_below_or_not _ _ Hs Hn) as Hlt.
  pose proof (every_level_sound _ level_rounds_mean _ _ Hs Hn) as Hround.
  cbv beta in Hthr, Hlt, Hround.
  apply Bool.eqb_prop in Hthr, Hlt.
  rewrite <- Hlevel in Hthr, Hlt, Hround.
  repeat split.
  - subst st w. rewrite window_slice. apply pushes_window.
  - subst w. rewrite window_slice, slice_last_length, length_map. reflexivity.
  - exact Hlevel.
  - unfold mean. rewrite <- to_pos_of_nat by lia. exact Hround.
  - intros Hd. rewrite Hlt. rewrite Hstate in Hd.
    destruct (PrimFloat.leb 0.7 (focusLevel st)); [discriminate | reflexivity].
  - intros Hb. rewrite Hlt in Hb. rewrite Hstate.
    destruct (PrimFloat.leb 0.7 (focusLevel st)); [discriminate | reflexivity].
  - intros Hd. rewrite Hstate, Hthr in Hd.
    destruct (7 * Z.of_nat (List.length w) <=? total w * 10)%Z eqn:Hc;
      [discriminate|].
    apply Z.leb_gt in Hc. unfold mean, Qlt. cbn [Qnum Qden].
    rewrite <- to_pos_of_nat, Z2Pos.id by lia. lia.
  - intros Hq. rewrite Hstate, Hthr.
    unfold mean, Qlt in Hq. cbn [Qnum Qden] in Hq.
    rewrite <- to_pos_of_nat, Z2Pos.id in Hq by lia.
    destruct (7 * Z.of_nat (List.length w) <=? total w * 10)%Z eqn:Hc;
      [apply Z.leb_le in Hc; lia | reflexivity].
Qed.

End SmootherProofs.

Section ResolverProofs.
Context {E : JsEngine}.
Import ResolverSpec.

(** *** Association lists keyed by the normalised label *)







(** *** First occurrences *)









(** *** What the two objects hold after the loop *)






Lemma normalizeState_label (x : string) :
  normalizeState (JStr x) = Returns (normal x).
Proof. destruct x; reflexivity. Qed.








(** *** The scan for the best entry *)







Section Scan.
Variable v : string -> Z.



End Scan.



End ResolverProofs.

(** ** The session controller *)

Section ControllerProofs.
Context {E : JsEngine}.

(** C8. When the duration typed is blank, or is no finite number, or is
    not above zero, [startLesson] changes nothing: the remaining time, the
    summary, the timeline, the focus window and level, the session start,
    the distraction accumulators and the started flag are those of before,
    and so is everything else; the submit event leaves the component as it
    was. *)
Theorem startLesson_rejects (now : Z) (a : App) :
  is_empty (trim (lessonMinutes (session a))) = true
  \/ PrimFloat.is_finite (Number_ofString (lessonMinutes (session a))) = false
  \/ PrimFloat.leb (Number_ofString (lessonMinutes (session a))) 0 = true ->
  startLesson now a = a /\ step a (Submit now) = a.
Proof.
  intros H.
  assert (Hstart : startLesson now a = a).
  { unfold startLesson.
    destruct (is_empty (trim (lessonMinutes (session a)))); [reflexivity|].
    destruct H as [H | [H | H]]; [discriminate | |]; rewrite H; cbn [negb orb];
      [reflexivity | rewrite orb_true_r; reflexivity]. }
  split; [exact Hstart|].
  cbn [step]. rewrite Hstart. unfold acceptable.
  destruct H as [H | [H | H]]; rewrite H; cbn [negb andb];
    rewrite ?andb_false_r; reflexivity.
Qed.

(** What [endLesson] reports for a session that was started. *)
Lemma endLesson_reports (endTime : Z) (a : App) (sessionStart : Z) :
  sessionStartRef (session a) = Some sessionStart ->
  sessionStart <> 0%Z ->
  sessionSummary (session (endLesson endTime a))
  = Some {| totalSeconds := Z.max 1 (round_seconds (endTime - sessionStart));
            distractedSeconds :=
              match distractedStartRef (session a) with
              | Some started =>
                  if ref_set (distractedStartRef (session a))
                  then (distractedTotalRef (session a)
                        + round_seconds (endTime - started))%Z
                  else distractedTotalRef (session a)
              | None => distractedTotalRef (session a)
              end;
            focusedSeconds :=
              Z.max (Z.max 1 (round_seconds (endTime - sessionStart))
                     - match distractedStartRef (session a) with
                       | Some started =>
                           if ref_set (distractedStartRef (session a))
                           then (distractedTotalRef (session a)
                                 + round_seconds (endTime - started))%Z
                           else distractedTotalRef (session a)
                       | None => distractedTotalRef (session a)
                       end) 0;
            alerts := distractedCountRef (session a) |}.
Proof.
  intros Hs Hne. unfold endLesson, finish. cbn [with_session session]. rewrite Hs.
  cbn [ref_set]. apply Z.eqb_neq in Hne. rewrite Hne. reflexivity.
Qed.

(** C3, as the code has it. For every completed session the total is
    [max(1, round((end - start) / 1000))], never zero, and the focused time
    is [max(total - distracted, 0)]: focused and distracted seconds add up
    to the total exactly when the distracted seconds, each episode rounded
    to whole seconds, do not exceed the total. *)
Theorem summary_adds_up_when_within_total (endTime : Z) (a : App) (sessionStart : Z) :
  sessionStartRef (session a) = Some sessionStart ->
  sessionStart <> 0%Z ->
  exists s : SessionSummary,
    sessionSummary (session (endLesson endTime a)) = Some s
    /\ totalSeconds s = Z.max 1 (round_seconds (endTime - sessionStart))
    /\ (1 <= totalSeconds s)%Z
    /\ focusedSeconds s = Z.max (totalSeconds s - distractedSeconds s) 0
    /\ ((distractedSeconds s <= totalSeconds s)%Z <->
        (focusedSeconds s + distractedSeconds s = totalSeconds s)%Z).
Proof.
  intros Hs Hne. eexists. split; [apply (endLesson_reports _ _ _ Hs Hne)|].
  cbn [totalSeconds focusedSeconds distractedSeconds].
  repeat split; lia.
Qed.

End ControllerProofs.

(** ** The component as a whole *)

Section MachineProofs.
Context {E : JsEngine}.

(** *** What a committed render changes *)

Lemma commit_smoother (now : Z) (a : App) : smoother (commit now a) = smoother a.
Proof.
  unfold commit.
  destruct (stale Bool.eqb _ _), (stale same_alert_deps _ _),
    (stale same_queue_deps _ _), (stale same_timeline_deps _ _); reflexivity.
Qed.

Lemma commit_session (now : Z) (a : App) :
  session (commit now a)
  = if stale same_timeline_deps (timelineDeps (memo a)) (timeline_deps a)
    then record_transition now (warning a) (distractorReason (vision a)) (session a)
    else session a.
Proof.
  unfold commit.
  destruct (stale Bool.eqb _ _), (stale same_alert_deps _ _),
    (stale same_queue_deps _ _), (stale same_timeline_deps _ _); reflexivity.
Qed.

Lemma commit_alerting (now : Z) (a : App) :
  alerting (commit now a)
  = if stale same_queue_deps (queueDeps (memo a)) (queue_deps a)
    then play_next (rescheduled now a) else rescheduled now a.
Proof.
  unfold commit, rescheduled.
  destruct (stale Bool.eqb _ _), (stale same_alert_deps _ _),
    (stale same_queue_deps _ _), (stale same_timeline_deps _ _); reflexivity.
Qed.

Lemma commit_alertDeps (now : Z) (a : App) :
  alertDeps (memo (commit now a))
  = if stale same_alert_deps (alertDeps (memo a)) (alert_deps a)
    then Some (alert_deps a) else alertDeps (memo a).
Proof.
  unfold commit.
  destruct (stale Bool.eqb _ _), (stale same_alert_deps _ _),
    (stale same_queue_deps _ _), (stale same_timeline_deps _ _); reflexivity.
Qed.

Lemma commit_timelineDeps (now : Z) (a : App) :
  timelineDeps (memo (commit now a))
  = if stale same_timeline_deps (timelineDeps (memo a)) (timeline_deps a)
    then Some (timeline_deps a) else timelineDeps (memo a).
Proof.
  unfold commit.
  destruct (stale Bool.eqb _ _), (stale same_alert_deps _ _),
    (stale same_queue_deps _ _), (stale same_timeline_deps _ _); reflexivity.
Qed.

Lemma play_next_refs (al : Alerts) :
  alertTimeoutRef (play_next al) = alertTimeoutRef al
  /\ alertQueuedRef (play_next al) = alertQueuedRef al.
Proof.
  unfold play_next. destruct (negb (is_empty (activeAlert al))); [split; reflexivity|].
  destruct (alertQueue al); split; reflexivity.
Qed.

(** An effect that does not run has seen the values of this render. *)
Lemma fresh_alert_deps (a : App) :
  stale same_alert_deps (alertDeps (memo a)) (alert_deps a) = false ->
  alert_memo a (warning a) (lessonStarted (session a)).
Proof.
  unfold stale, alert_memo, alert_deps.
  destruct (alertDeps (memo a)) as [[[[[[w l] r] s] c] t]|]; [|discriminate].
  intros H. apply negb_false_iff in H. unfold same_alert_deps in H.
  repeat (apply andb_prop in H; destruct H as [H ?]).
  apply Bool.eqb_prop in H. subst w.
  match goal with H : Bool.eqb l _ = true |- _ => apply Bool.eqb_prop in H; subst l end.
  eauto.
Qed.

Lemma fresh_timeline_deps (a : App) :
  stale same_timeline_deps (timelineDeps (memo a)) (timeline_deps a) = false ->
  timeline_memo a (warning a) (lessonStarted (session a)).
Proof.
  unfold stale, timeline_memo, timeline_deps.
  destruct (timelineDeps (memo a)) as [[[w l] r]|]; [|discriminate].
  intros H. apply negb_false_iff in H. unfold same_timeline_deps in H.
  repeat (apply andb_prop in H; destruct H as [H ?]).
  apply Bool.eqb_prop in H. subst w.
  match goal with H : Bool.eqb l _ = true |- _ => apply Bool.eqb_prop in H; subst l end.
  eauto.
Qed.

(** An effect whose dependencies differ from the last run is stale. *)
Lemma stale_alert_deps (a : App) (w l : bool) :
  alert_memo a w l -> (w, l) <> (warning a, lessonStarted (session a)) ->
  stale same_alert_deps (alertDeps (memo a)) (alert_deps a) = true.
Proof.
  intros (r & s & c & t & Hm) Hne.
  destruct (stale same_alert_deps _ _) eqn:Hs; [reflexivity|].
  apply fresh_alert_deps in Hs as (r' & s' & c' & t' & Hm').
  rewrite Hm in Hm'. inversion Hm'. subst. congruence.
Qed.

Lemma stale_timeline_deps (a : App) (w l : bool) :
  timeline_memo a w l -> (w, l) <> (warning a, lessonStarted (session a)) ->
  stale same_timeline_deps (timelineDeps (memo a)) (timeline_deps a) = true.
Proof.
  intros (r & Hm) Hne.
  destruct (stale same_timeline_deps _ _) eqn:Hs; [reflexivity|].
  apply fresh_timeline_deps in Hs as (r' & Hm').
  rewrite Hm in Hm'. inversion Hm'. subst. congruence.
Qed.

Lemma alert_memo_unique (a : App) (w l w' l' : bool) :
  alert_memo a w l -> alert_memo a w' l' -> w = w' /\ l = l'.
Proof.
  intros (r & s & c & t & H) (r' & s' & c' & t' & H').
  rewrite H in H'. inversion H'. auto.
Qed.

Lemma timeline_memo_unique (a : App) (w l w' l' : bool) :
  timeline_memo a w l -> timeline_memo a w' l' -> w = w' /\ l = l'.
Proof.
  intros (r & H) (r' & H'). rewrite H in H'. inversion H'. auto.
Qed.

(** *** The two bodies, case by case *)

Lemma ref_set_clock (t : Z) : (0 < t)%Z -> ref_set (Some t) = true.
Proof. intros H. cbn. apply negb_true_iff, Z.eqb_neq. lia. Qed.

Lemma ref_set_some (r : option Z) :
  ref_set r = true -> exists t, r = Some t /\ t <> 0%Z.
Proof.
  destruct r as [t|]; cbn; [|discriminate].
  intros H. exists t. split; [reflexivity|].
  apply negb_true_iff, Z.eqb_neq in H. exact H.
Qed.

Lemma record_transition_cases (now : Z) (warn : bool) (reason : string) (s : Session) :
  (lessonStarted s = true -> ref_set (sessionStartRef s) = true) ->
  (forall t, distractedStartRef s = Some t -> (0 < t)%Z) ->
  transition now warn s (record_transition now warn reason s).
Proof.
  intros Hstart Hpos. unfold record_transition.
  destruct (lessonStarted s) eqn:Hls.
  2:{ destruct (sessionStartRef s); cbn [negb orb];
      (apply stays; [reflexivity | congruence]). }
  specialize (Hstart eq_refl).
  destruct (ref_set_some _ Hstart) as (t0 & Ht0 & _).
  rewrite Ht0 in Hstart |- *. rewrite Hstart. cbn [negb orb].
  destruct (distractedStartRef s) as [started|] eqn:Hds.
  - pose proof (Hpos started eq_refl) as Hp.
    rewrite (ref_set_clock _ Hp). cbn [negb andb]. rewrite andb_false_r, Hds.
    rewrite (ref_set_clock _ Hp), andb_true_r.
    destruct warn; cbn [negb].
    + apply stays; [reflexivity | intros _; rewrite Hds; apply ref_set_clock, Hp].
    + eapply closes with (started := started);
        try reflexivity; cbn; rewrite ?Hds, ?Ht0; auto; lia.
  - cbn [ref_set negb]. rewrite andb_true_r.
    destruct warn; cbn [distractedStartRef].
    + cbn [negb andb].
      eapply opens; try reflexivity; cbn; rewrite ?Hds, ?Ht0; auto.
    + rewrite Hds. apply stays; [reflexivity | intros _; rewrite Hds; reflexivity].
Qed.

Lemma schedule_cases (now : Z) (started warn : bool) (distractedStart : option Z)
      (reason state : string) (talk : JsVal) (al : Alerts) :
  scheduled now started warn distractedStart al
            (schedule now started warn distractedStart reason state talk al).
Proof.
  unfold schedule.
  destruct started; cbn [negb]; [|apply idle; reflexivity].
  destruct warn; cbn [negb]; [|apply calm; reflexivity].
  destruct (alertQueuedRef al) eqn:Hq; [apply served; auto|].
  eapply armed; reflexivity || assumption.
Qed.

(** *** The invariants *)

Lemma Inv_Pre (a : App) : Inv a -> Pre a.
Proof.
  intros I. constructor.
  - apply (inv_started a I).
  - apply (inv_episode a I).
  - intros Hls Hm. apply (inv_timeline_seen a I Hls _ Hm).
  - intros Hls _ Hm. apply (inv_alert_seen a I Hls Hm).
  - intros t Ht. destruct (inv_pending a I t Ht) as (Hw & Hm & Hd). auto.
  - intros Hls Hq w Hm.
    destruct (alert_memo_unique a _ _ _ _ Hm (inv_queued a I Hls Hq)). assumption.
  - apply (inv_count a I).
Qed.

Lemma even_of_double (n : nat) (c : Z) : Z.of_nat n = (2 * c)%Z -> Nat.even n = true.
Proof.
  intros H. apply Nat.even_spec. exists (Z.to_nat c). lia.
Qed.

Lemma odd_of_double (n : nat) (c : Z) : Z.of_nat n = (2 * c + 1)%Z -> Nat.even n = false.
Proof.
  intros H. rewrite <- Nat.negb_odd. apply negb_false_iff, Nat.odd_spec.
  exists (Z.to_nat c). lia.
Qed.

(** The timeline and the counters after a transition. *)
Lemma transition_count (now : Z) (warn : bool) (s s' : Session) :
  (0 < now)%Z ->
  (forall t, distractedStartRef s = Some t -> (0 < t)%Z) ->
  transition now warn s s' ->
  lessonStarted s = true ->
  (Z.of_nat (List.length (sessionTimeline s))
   = (2 * completed_episodes s + open_episodes s)%Z
   /\ (open_episodes s <= distractedCountRef s)%Z
   /\ map Entry.state (sessionTimeline s) = alternation (List.length (sessionTimeline s))) ->
  Z.of_nat (List.length (sessionTimeline s'))
  = (2 * completed_episodes s' + open_episodes s')%Z
  /\ (open_episodes s' <= distractedCountRef s')%Z
  /\ map Entry.state (sessionTimeline s') = alternation (List.length (sessionTimeline s')).
Proof.
  intros Hnow Hpos Ht Hls (Hlen & Hle & Halt).
  destruct Ht as [-> _ | e _ _ Hoff _ _ Hds Hc _ Htl He
                 | e started _ _ Hds0 Hne _ _ Hds Hc _ Htl He].
  - auto.
  - unfold completed_episodes, open_episodes in *.
    rewrite Hds, Hc, Htl, (ref_set_clock _ Hnow). rewrite Hoff in Hlen, Hle.
    rewrite length_app, map_app. cbn [List.length map].
    replace (List.length (sessionTimeline s) + 1) with (S (List.length (sessionTimeline s)))
      by lia.
    cbn [alternation]. rewrite (even_of_double _ (distractedCountRef s)) by lia.
    rewrite Halt, He. repeat split; lia.
  - unfold completed_episodes, open_episodes in *.
    rewrite Hds, Hc, Htl. rewrite Hds0 in Hlen, Hle.
    rewrite (ref_set_clock _ (Hpos _ Hds0)) in Hlen, Hle.
    cbn [ref_set].
    rewrite length_app, map_app. cbn [List.length map].
    replace (List.length (sessionTimeline s) + 1) with (S (List.length (sessionTimeline s)))
      by lia.
    cbn [alternation]. rewrite (odd_of_double _ (distractedCountRef s - 1)) by lia.
    rewrite Halt, He. repeat split; lia.
Qed.

(** A committed render establishes the invariants. *)
Lemma commit_Inv (now : Z) (a : App) : (0 < now)%Z -> Pre a -> Inv (commit now a).
Proof.
  intros Hnow P.
  assert (Hpos : forall t, distractedStartRef (session a) = Some t -> (0 < t)%Z)
    by (intros t Ht; apply (pre_episode a P t Ht)).
  pose proof (record_transition_cases now (warning a) (distractorReason (vision a))
                (session a) (pre_started a P) Hpos) as HT.
  pose proof (schedule_cases now (lessonStarted (session a)) (warning a)
                (distractedStartRef (session a)) (distractorReason (vision a))
                (visionState (vision a)) (talking a)
                (set_timer None (alertQueuedRef (alerting a)) (alerting a))) as HS.
  pose proof (fresh_alert_deps a) as HfA.
  pose proof (fresh_timeline_deps a) as HfT.
  pose proof (commit_session now a) as Hsess.
  pose proof (commit_alerting now a) as Hal.
  pose proof (commit_alertDeps now a) as HmA.
  pose proof (commit_timelineDeps now a) as HmT.
  unfold rescheduled in Hal.
  set (a' := commit now a) in *.
  set (sT := stale same_timeline_deps (timelineDeps (memo a)) (timeline_deps a)) in *.
  set (sA := stale same_alert_deps (alertDeps (memo a)) (alert_deps a)) in *.
  set (s1 := record_transition now (warning a) (distractorReason (vision a)) (session a)) in *.
  set (al1 := schedule now (lessonStarted (session a)) (warning a)
                       (distractedStartRef (session a)) (distractorReason (vision a))
                       (visionState (vision a)) (talking a)
                       (set_timer None (alertQueuedRef (alerting a)) (alerting a))) in *.
  (* the session after the render, whether or not the timeline effect ran *)
  assert (HT' : transition now (warning a) (session a) (session a')).
  { rewrite Hsess. destruct sT; [exact HT|].
    apply stays; [reflexivity|]. intros Hls.
    apply (pre_timeline_seen a P Hls).
    specialize (HfT eq_refl). rewrite Hls in HfT. exact HfT. }
  assert (Hls' : lessonStarted (session a') = lessonStarted (session a)).
  { destruct HT' as [-> _ | | ]; congruence. }
  assert (Hst' : sessionStartRef (session a') = sessionStartRef (session a)).
  { destruct HT' as [-> _ | | ]; congruence. }
  (* the refs of the scheduler after the render *)
  set (al2 := if sA then al1 else alerting a) in *.
  assert (Htimer : alertTimeoutRef (alerting a') = alertTimeoutRef al2).
  { rewrite Hal. destruct (stale same_queue_deps _ _); [apply play_next_refs | reflexivity]. }
  assert (Hqueued : alertQueuedRef (alerting a') = alertQueuedRef al2).
  { rewrite Hal. destruct (stale same_queue_deps _ _); [apply play_next_refs | reflexivity]. }
  (* the memos after the render *)
  assert (HA' : alert_memo a' (warning a) (lessonStarted (session a))).
  { unfold alert_memo. rewrite HmA. destruct sA; [|apply HfA; reflexivity].
    unfold alert_deps. eauto. }
  assert (HTm' : timeline_memo a' (warning a) (lessonStarted (session a))).
  { unfold timeline_memo. rewrite HmT. destruct sT; [|apply HfT; reflexivity].
    unfold timeline_deps. eauto. }
  (* an episode is open after the render exactly under the warning *)
  assert (Hopen : lessonStarted (session a) = true ->
                  ref_set (distractedStartRef (session a')) = warning a).
  { intros Hls.
    destruct HT' as [-> Hsame | e _ Hw _ _ _ Hds _ _ _ _
                    | e started _ Hw _ _ _ _ Hds _ _ _ _].
    - apply Hsame, Hls.
    - rewrite Hds, Hw. apply ref_set_clock, Hnow.
    - rewrite Hds, Hw. reflexivity. }
  constructor.
  - (* inv_started *)
    rewrite Hls', Hst'. apply (pre_started a P).
  - (* inv_episode *)
    intros t Ht.
    destruct HT' as [Heq _ | e _ _ _ Hon _ Hds _ _ _ _ | e started _ _ _ _ _ _ Hds _ _ _ _].
    + rewrite Heq in Ht |- *. apply (pre_episode a P t Ht).
    + rewrite Hds in Ht. inversion Ht. subst. split; [exact Hnow | exact Hon].
    + rewrite Hds in Ht. discriminate.
  - (* inv_alert_started *)
    intros w l Hm. rewrite Hls'.
    apply (alert_memo_unique a' _ _ _ _ Hm HA').
  - (* inv_timeline_started *)
    intros w l Hm. rewrite Hls'.
    apply (timeline_memo_unique a' _ _ _ _ Hm HTm').
  - (* inv_timeline_seen *)
    rewrite Hls'. intros Hls w Hm.
    destruct (timeline_memo_unique a' _ _ _ _ Hm HTm') as [-> _].
    apply Hopen, Hls.
  - (* inv_alert_seen *)
    rewrite Hls'. intros Hls Hm.
    destruct (alert_memo_unique a' _ _ _ _ Hm HA') as [Hw _].
    rewrite (Hopen Hls). symmetry. exact Hw.
  - (* inv_pending *)
    intros t Ht. rewrite Htimer in Ht. subst al2. destruct sA.
    + destruct HS as [_ Heq | _ _ Heq | _ _ _ Heq | t' Hls Hw _ Heq Hseen Hdue];
        rewrite Heq in Ht; try discriminate.
      cbn in Ht. inversion Ht. subst t'. clear Ht.
      rewrite Hw, Hls in HA'. split; [exact Hseen | split; [exact HA'|]].
      pose proof (Hopen Hls) as Ho. rewrite Hw in Ho.
      destruct HT' as [Heq' _ | e _ _ Hoff _ _ Hds _ _ _ _
                      | e started _ Hw' _ _ _ _ _ _ _ _ _]; [| |congruence].
      * rewrite Heq' in Ho.
        destruct (ref_set_some _ Ho) as (t0 & Ht0 & _).
        exists t0. rewrite Heq'. split; [exact Ht0|].
        rewrite Hdue. unfold anchor. rewrite Ht0 in Ho |- *. rewrite Ho. lia.
      * exists now. split; [exact Hds|].
        rewrite Hdue. unfold anchor.
        destruct (distractedStartRef (session a)) as [t1|]; [rewrite Hoff|];
          unfold debounce; lia.
    + destruct (pre_pending a P t Ht) as (Hseen & Hm & Hd).
      destruct (alert_memo_unique a _ _ _ _ Hm (HfA eq_refl)) as [Hw Hls].
      symmetry in Hw, Hls.
      rewrite Hw, Hls in HA'. split; [exact Hseen | split; [exact HA'|]].
      destruct (Hd Hls Hw) as (t0 & Ht0 & Hbound).
      exists t0. split; [|exact Hbound].
      destruct HT' as [Heq' _ | e _ _ Hoff _ _ _ _ _ _ _
                      | e started _ Hw' _ _ _ _ _ _ _ _ _]; [| |congruence].
      * rewrite Heq'. exact Ht0.
      * rewrite Ht0, (ref_set_clock _ (Hpos _ Ht0)) in Hoff. discriminate.
  - (* inv_queued *)
    rewrite Hls', Hqueued. intros Hls Hq. subst al2. destruct sA.
    + destruct HS as [Hoff _ | _ _ Heq | _ Hw _ _ | t' _ _ _ Heq _ _].
      * congruence.
      * rewrite Heq in Hq. discriminate.
      * rewrite Hw, Hls in HA'. exact HA'.
      * rewrite Heq in Hq. discriminate.
    + pose proof (HfA eq_refl) as Hm. rewrite Hls in Hm.
      rewrite (pre_queued a P Hls Hq _ Hm), Hls in HA'. exact HA'.
  - (* inv_count *)
    rewrite Hls'. intros Hls.
    apply (transition_count now (warning a) (session a) (session a') Hnow
             Hpos HT' Hls (pre_count a P Hls)).
Qed.

(** The invariants look at the session refs, the refs of the scheduler
    and the memos only. *)
Lemma Inv_ext (a b : App) :
  lessonStarted (session b) = lessonStarted (session a) ->
  sessionStartRef (session b) = sessionStartRef (session a) ->
  distractedStartRef (session b) = distractedStartRef (session a) ->
  distractedCountRef (session b) = distractedCountRef (session a) ->
  sessionTimeline (session b) = sessionTimeline (session a) ->
  alertTimeoutRef (alerting b) = alertTimeoutRef (alerting a) ->
  alertQueuedRef (alerting b) = alertQueuedRef (alerting a) ->
  alertDeps (memo b) = alertDeps (memo a) ->
  timelineDeps (memo b) = timelineDeps (memo a) ->
  Inv a -> Inv b.
Proof.
  intros H1 H2 H3 H4 H5 H6 H7 H8 H9 I.
  constructor; unfold alert_memo, timeline_memo, completed_episodes, open_episodes;
    rewrite ?H1, ?H2, ?H3, ?H4, ?H5, ?H6, ?H7, ?H8, ?H9.
  - apply (inv_started a I).
  - apply (inv_episode a I).
  - apply (inv_alert_started a I).
  - apply (inv_timeline_started a I).
  - apply (inv_timeline_seen a I).
  - apply (inv_alert_seen a I).
  - apply (inv_pending a I).
  - apply (inv_queued a I).
  - apply (inv_count a I).
Qed.

Lemma Inv_initial : Inv initialApp.
Proof.
  constructor; unfold alert_memo, timeline_memo; cbn; try discriminate.
  - intros w l (r & s & c & t & H). discriminate.
  - intros w l (r & H). discriminate.
Qed.

Lemma startLesson_accepted (now : Z) (a : App) :
  acceptable (lessonMinutes (session a)) = true ->
  startLesson now a
  = {| smoother := {| focusResults := []; focusLevel := 1;
                      currentState := currentState (smoother a) |};
       session := {| lessonMinutes := lessonMinutes (session a);
                     lessonStarted := true;
                     remainingSeconds :=
                       Math_round (Number_ofString (lessonMinutes (session a)) * 60)%float;
                     sessionSummary := None;
                     sessionTimeline := [];
                     sessionStartRef := Some now;
                     distractedStartRef := None;
                     distractedTotalRef := 0;
                     distractedCountRef := 0 |};
       alerting := alerting a;
       vision := vision a;
       memo := memo a |}.
Proof.
  unfold acceptable, startLesson. intros H.
  apply andb_prop in H as [H Hpos]. apply andb_prop in H as [Hne Hfin].
  apply negb_true_iff in Hne, Hpos. rewrite Hne, Hfin, Hpos. reflexivity.
Qed.


Lemma startLesson_Pre (now : Z) (a : App) :
  (0 < now)%Z -> acceptable (lessonMinutes (session a)) = true ->
  Inv a -> Pre (startLesson now a).
Proof.
  intros Hnow Hacc I. rewrite (startLesson_accepted now a Hacc).
  constructor; unfold alert_memo, timeline_memo; cbn -[ref_set PrimFloat.ltb].
  - intros _. apply ref_set_clock, Hnow.
  - discriminate.
  - intros _ _. reflexivity.
  - discriminate.
  - intros t Ht. destruct (inv_pending a I t Ht) as (Hseen & Hm & _).
    split; [exact Hseen | split; [exact Hm | discriminate]].
  - intros _ Hq w Hm.
    pose proof (inv_alert_started a I _ _ Hm) as Hls. symmetry in Hls.
    destruct (alert_memo_unique a _ _ _ _ Hm (inv_queued a I Hls Hq)). assumption.
  - intros _. repeat split; reflexivity || lia.
Qed.

(** After [endLesson] no episode is open. *)
Lemma endLesson_closes (now : Z) (a : App) :
  Inv a -> distractedStartRef (session (endLesson now a)) = None.
Proof.
  intros I. unfold endLesson, finish. cbn [with_session session].
  destruct (distractedStartRef (session a)) as [t1|] eqn:Hds.
  - destruct (inv_episode a I t1 Hds) as [Hpos Hls].
    pose proof (inv_started a I Hls) as Hst.
    destruct (ref_set_some _ Hst) as (t0 & Ht0 & _).
    rewrite Ht0 in Hst |- *. rewrite Hst. cbn [distractedStartRef].
    rewrite (ref_set_clock _ Hpos). reflexivity.
  - destruct (sessionStartRef (session a)) as [t0|];
      [destruct (ref_set (Some t0))|]; cbn [distractedStartRef ref_set];
      try reflexivity; exact Hds.
Qed.

Lemma endLesson_Pre (now : Z) (a : App) : Inv a -> Pre (endLesson now a).
Proof.
  intros I.
  assert (Hls : lessonStarted (session (endLesson now a)) = false).
  { unfold endLesson, finish. cbn [with_session session].
    destruct (sessionStartRef (session a));
      [destruct (ref_set (Some z))|]; reflexivity. }
  constructor; try (rewrite Hls; discriminate).
  - intros t Ht. rewrite (endLesson_closes now a I) in Ht. discriminate.
  - intros t Ht. destruct (inv_pending a I t Ht) as (Hseen & Hm & _).
    split; [exact Hseen | split; [exact Hm|]]. rewrite Hls. discriminate.
Qed.

Lemma fire_refs (now : Z) (al : Alerts) :
  (alertTimeoutRef (fire now al) = alertTimeoutRef al
   /\ alertQueuedRef (fire now al) = alertQueuedRef al)
  \/ (alertTimeoutRef (fire now al) = None
      /\ (alertQueuedRef (fire now al) = alertQueuedRef al
          \/ exists t, alertTimeoutRef al = Some t)).
Proof.
  unfold fire. destruct (alertTimeoutRef al) as [t|] eqn:Ht; [|left; auto].
  destruct (due t <=? now)%Z; [|left; auto].
  right. destruct (alert_of (alertQueuedRef al) t); cbn; eauto.
Qed.

(** Every event keeps the invariants. *)
Lemma Inv_step (a : App) (e : Event) : clocked e = true -> Inv a -> Inv (step a e).
Proof.
  intros Hclock I. destruct e as [now|payload|now|now|now|text| |config|choice| | |];
    cbn [step clocked] in *; try (apply Z.ltb_lt in Hclock).
  - apply commit_Inv; [exact Hclock | apply Inv_Pre, I].
  - destruct (socket (vision a)) as [h|]; [|exact I].
    apply (Inv_ext a); try exact I; unfold onmessage;
      repeat match goal with
             | |- context [match ?x with Returns _ => _ | Throws => _ end] => destruct x
             end; reflexivity.
  - (* a timer fires *)
    destruct (fire_refs now (alerting a)) as [[Ht Hq] | [Ht Hq]].
    + apply (Inv_ext a); try exact I; (reflexivity || assumption).
    + constructor; unfold alert_memo, timeline_memo;
        cbn [alertTimeout with_alerting session alerting memo].
      * apply (inv_started a I).
      * apply (inv_episode a I).
      * apply (inv_alert_started a I).
      * apply (inv_timeline_started a I).
      * apply (inv_timeline_seen a I).
      * apply (inv_alert_seen a I).
      * intros t Hsome. rewrite Ht in Hsome. discriminate.
      * intros Hls Hq'. destruct Hq as [Hq | (t & Hsome)].
        -- rewrite Hq in Hq'. apply (inv_queued a I Hls Hq').
        -- apply (inv_pending a I t Hsome).
      * apply (inv_count a I).
  - destruct (acceptable (lessonMinutes (session a))) eqn:Hacc.
    + apply commit_Inv; [exact Hclock | apply startLesson_Pre; assumption].
    + replace (startLesson now a) with a; [exact I|].
      unfold acceptable in Hacc. unfold startLesson.
      destruct (is_empty (trim (lessonMinutes (session a)))); [reflexivity|].
      cbn [negb andb] in Hacc.
      destruct (PrimFloat.is_finite _); cbn [negb andb orb] in *; [|reflexivity].
      apply negb_false_iff in Hacc. rewrite Hacc. reflexivity.
  - apply commit_Inv; [exact Hclock | apply endLesson_Pre, I].
  - apply (Inv_ext a); try exact I; reflexivity.
  - apply (Inv_ext a); try exact I; reflexivity.
  - apply (Inv_ext a); try exact I; reflexivity.
  - apply (Inv_ext a); try exact I; reflexivity.
  - apply (Inv_ext a); try exact I; reflexivity.
  - apply (Inv_ext a); try exact I; reflexivity.
  - apply (Inv_ext a); try exact I; reflexivity.
Qed.

Lemma run_snoc (events : list Event) (e : Event) (a : App) :
  run (events ++ [e]) a = step (run events a) e.
Proof. unfold run. rewrite fold_left_app. reflexivity. Qed.

Lemma run_app (events more : list Event) (a : App) :
  run (events ++ more) a = run more (run events a).
Proof. unfold run. apply fold_left_app. Qed.

(** The invariants hold after any events with clock readings. *)
Lemma Inv_run (events : list Event) (a : App) :
  forallb clocked events = true -> Inv a -> Inv (run events a).
Proof.
  revert a. induction events as [|e events IH]; intros a Hc I; [exact I|].
  cbn [forallb] in Hc. apply andb_prop in Hc as [He Hc].
  cbn [run fold_left]. apply (IH _ Hc). apply Inv_step; assumption.
Qed.

End MachineProofs.

(** ** The focus window and the focus level, after any events *)

Section LevelProofs.
Context {E : JsEngine}.
Import SmootherSpec.

Lemma Forall_slice_last {A : Type} (P : A -> Prop) (n : nat) (l : list A) :
  Forall P l -> Forall P (slice_last n l).
Proof.
  intros H. unfold slice_last. rewrite <- (firstn_skipn (List.length l - n) l) in H.
  apply Forall_app in H. apply H.
Qed.

Lemma push_Windowed (isFocused : bool) (s : Smoother) :
  Windowed s -> Windowed (pushFocusResult isFocused s).
Proof.
  intros W. unfold pushFocusResult.
  set (next := slice_last 60 (focusResults s ++ [if isFocused then 1%Z else 0%Z])).
  assert (Hlen : List.length next = Nat.min (List.length (focusResults s) + 1) 60).
  { subst next. rewrite slice_last_length, length_app. reflexivity. }
  constructor; cbn [focusResults focusLevel].
  - apply Forall_slice_last, Forall_app. split; [apply (window_bits s W)|].
    constructor; [|constructor]. destruct isFocused; [right | left]; reflexivity.
  - lia.
  - rewrite reduce_sum_total. destruct next as [|x next'] eqn:Hn; [|reflexivity].
    cbn [List.length] in Hlen. lia.
Qed.

Lemma total_of_bits (l : list Z) :
  Forall is_bit l -> (0 <= total l <= Z.of_nat (List.length l))%Z.
Proof.
  induction 1 as [|x l Hx _ IH]; cbn [total List.length]; [lia|].
  destruct Hx; subst; lia.
Qed.

Lemma Windowed_unit (s : Smoother) :
  Windowed s ->
  PrimFloat.leb 0 (focusLevel s) = true /\ PrimFloat.leb (focusLevel s) 1 = true.
Proof.
  intros W. pose proof (window_level s W) as Hl.
  pose proof (total_of_bits _ (window_bits s W)) as Ht.
  pose proof (window_bound s W) as Hb.
  destruct (focusResults s) as [|x l] eqn:Hw.
  - rewrite Hl. split; reflexivity.
  - rewrite Hl.
    assert (Hn : (1 <= Z.of_nat (List.length (x :: l)) <= 60)%Z)
      by (cbn [List.length] in *; lia).
    pose proof (every_level_sound _ level_in_unit_interval _ _ Ht Hn) as H.
    cbv beta in H. apply andb_prop in H. exact H.
Qed.

Lemma step_Windowed (a : App) (e : Event) :
  Windowed (smoother a) -> Windowed (smoother (step a e)).
Proof.
  intros W. destruct e as [now|payload|now|now|now|text| |config|choice| | |];
    cbn [step]; try exact W.
  - rewrite commit_smoother. exact W.
  - destruct (socket (vision a)) as [h|]; [|exact W].
    unfold onmessage.
    repeat match goal with
           | |- context [match ?x with Returns _ => _ | Throws => _ end] => destruct x
           end; try exact W.
    cbn [with_smoother with_vision smoother]. apply push_Windowed, W.
  - destruct (acceptable (lessonMinutes (session a))) eqn:Hacc.
    + rewrite commit_smoother, (startLesson_accepted now a Hacc). cbn [smoother].
      constructor; cbn; [constructor | lia | reflexivity].
    + unfold startLesson, acceptable in *.
      destruct (is_empty (trim (lessonMinutes (session a)))); [exact W|].
      cbn [negb andb] in Hacc.
      destruct (PrimFloat.is_finite _); cbn [negb andb orb] in *; [|exact W].
      apply negb_false_iff in Hacc. rewrite Hacc. exact W.
  - rewrite commit_smoother. exact W.
  - cbn. destruct W as [Hb Hn Hl]. constructor; assumption.
Qed.

Lemma run_Windowed (events : list Event) (a : App) :
  Windowed (smoother a) -> Windowed (smoother (run events a)).
Proof.
  revert a. induction events as [|e events IH]; intros a W; [exact W|].
  cbn [run fold_left]. apply IH, step_Windowed, W.
Qed.

(** C10. After any events every element of the focus window is 0 or 1 and
    the focus level lies between 0 and 1, both included: it starts at 1, and
    a push replaces it with the sum of a window of bits that is not empty,
    divided by its length. *)
Theorem focusLevel_in_unit_interval :
  focusLevel (smoother initialApp) = 1%float
  /\ (forall (isFocused : bool) (s : Smoother),
         focusResults (pushFocusResult isFocused s) <> []
         /\ focusLevel (pushFocusResult isFocused s)
            = (number (reduce_sum (focusResults (pushFocusResult isFocused s)))
               / number (Z.of_nat (List.length (focusResults (pushFocusResult isFocused s)))))%float)
  /\ forall events : list Event,
      let s := smoother (run events initialApp) in
      Forall (fun x => x = 0%Z \/ x = 1%Z) (focusResults s)
      /\ PrimFloat.leb 0 (focusLevel s) = true
      /\ PrimFloat.leb (focusLevel s) 1 = true.
Proof.
  split; [reflexivity|]. split.
  - intros isFocused s. split; [|reflexivity].
    cbn [pushFocusResult focusResults]. intros Hnil.
    apply (f_equal (@List.length Z)) in Hnil.
    rewrite slice_last_length, length_app in Hnil. cbn [List.length] in Hnil. lia.
  - intros events s.
    assert (W : Windowed s).
    { apply run_Windowed. constructor; cbn; [constructor | lia | reflexivity]. }
    split; [exact (window_bits s W) | apply Windowed_unit, W].
Qed.

End LevelProofs.

(** ** The timeline and the alerts, episode by episode *)

Section EpisodeProofs.
Context {E : JsEngine}.

(** What a committed render does to the session. *)
Lemma commit_transition (now : Z) (a : App) :
  Pre a -> transition now (warning a) (session a) (session (commit now a)).
Proof.
  intros P. rewrite commit_session.
  destruct (stale same_timeline_deps _ _) eqn:Hs.
  - apply record_transition_cases; [apply (pre_started a P)|].
    intros t Ht. apply (pre_episode a P t Ht).
  - apply stays; [reflexivity|]. intros Hls.
    apply (pre_timeline_seen a P Hls).
    pose proof (fresh_timeline_deps a Hs) as Hm. rewrite Hls in Hm. exact Hm.
Qed.

Lemma finish_timeline (endTime : Z) (s : Session) :
  sessionTimeline (finish endTime s) = sessionTimeline s.
Proof.
  unfold finish. destruct (sessionStartRef s) as [t|];
    [destruct (ref_set (Some t))|]; reflexivity.
Qed.


Lemma End_session (now : Z) (a : App) :
  Inv a -> session (step a (End now)) = session (endLesson now a).
Proof.
  intros I. cbn [step].
  pose proof (commit_transition now _ (endLesson_Pre now a I)) as HT.
  pose proof (endLesson_closes now a I) as Hds.
  assert (Hls : lessonStarted (session (endLesson now a)) = false).
  { unfold endLesson, finish. cbn [with_session session].
    destruct (sessionStartRef (session a)) as [t|];
      [destruct (ref_set (Some t))|]; reflexivity. }
  destruct HT as [Heq _ | e Hon _ _ _ _ _ _ _ _ _ | e started Hon _ _ _ _ _ _ _ _ _ _];
    [exact Heq | congruence | congruence].
Qed.


(** *** Alerts *)

Lemma commit_refs (now : Z) (a : App) :
  alertTimeoutRef (alerting (commit now a)) = alertTimeoutRef (rescheduled now a)
  /\ alertQueuedRef (alerting (commit now a)) = alertQueuedRef (rescheduled now a).
Proof.
  rewrite commit_alerting.
  destruct (stale same_queue_deps _ _); [apply play_next_refs | split; reflexivity].
Qed.










End EpisodeProofs.


(** ** The resolver behind the handler *)

Section WindowProofs.
Context {E : JsEngine}.
Import ResolverSpec.



End WindowProofs.


(* ================================================================== *)
(** * Part II, continued. The rest of the component                    *)
(* ================================================================== *)

(** ** The resolver on any labels *)

Section ResolverSoundness.
Context {E : JsEngine}.

Lemma get_In {A : Type} (o : JsObject.t A) (key : string) (v : A) :
  JsObject.get o key = Some v -> In (key, v) o.
Proof.
  induction o as [|[k w] o IH]; cbn [JsObject.get]; [discriminate|].
  destruct (String.eqb k key) eqn:Hk.
  - apply String.eqb_eq in Hk. intros H. injection H as ->. subst. left. reflexivity.
  - intros H. right. exact (IH H).
Qed.

Lemma In_put {A : Type} (o : JsObject.t A) (key : string) (value : A) (e : string * A) :
  In e (JsObject.put o key value) -> e = (key, value) \/ In e o.
Proof.
  induction o as [|[k w] o IH]; cbn [JsObject.put].
  - intros [H|[]]. left. symmetry. exact H.
  - destruct (String.eqb k key) eqn:Hk.
    + apply String.eqb_eq in Hk. subst k. intros [H|H].
      * left. symmetry. exact H.
      * right. right. exact H.
    + intros [H|H].
      * right. left. exact H.
      * destruct (IH H) as [H'|H']; [left; exact H' | right; right; exact H'].
Qed.

Lemma In_set {A : Type} (o : JsObject.t A) (key : string) (value : A) (e : string * A) :
  In e (JsObject.set o key value) -> e = (key, value) \/ In e o.
Proof.
  unfold JsObject.set. destruct (String.eqb key "__proto__").
  - intros H. right. exact H.
  - apply In_put.
Qed.

Lemma recorded_more (talk : JsVal) (seen : list JsVal) (st : JsVal) (key label : string) :
  recorded talk seen key label -> recorded talk (seen ++ [st]) key label.
Proof.
  intros (s & Hin & H). exists s. split; [|exact H].
  apply in_or_app. left. exact Hin.
Qed.

Lemma tally_state_recorded (talk : JsVal) (seen : list JsVal) (st : JsVal)
      (counts counts' : JsObject.t Cell) (labels labels' : JsObject.t string) :
  (forall k l, In (k, l) labels -> recorded talk seen k l) ->
  tally_state talk (counts, labels) st = Returns (counts', labels') ->
  forall k l, In (k, l) labels' -> recorded talk (seen ++ [st]) k l.
Proof.
  intros Hinv. unfold tally_state.
  destruct (normalizeState st) as [normalized|] eqn:Hn; cbn [bind]; [|discriminate].
  destruct (is_empty normalized || isFocusedState normalized) eqn:Hskip.
  { intros H. injection H as _ <-. intros k l Hin.
    apply recorded_more, Hinv, Hin. }
  destruct (negb (truthy talk) && includes normalized "talking") eqn:Htalk.
  { intros H. injection H as _ <-. intros k l Hin.
    apply recorded_more, Hinv, Hin. }
  destruct (label_missing labels normalized).
  - destruct (ToString st) as [raw|] eqn:Hraw; cbn [bind]; [|discriminate].
    intros H. injection H as _ <-. intros k l Hin.
    destruct (In_set _ _ _ _ Hin) as [Heq|Hold].
    + injection Heq as -> ->. exists st.
      apply orb_false_iff in Hskip. destruct Hskip as [He Hf].
      repeat split; try assumption.
      * apply in_or_app. right. left. reflexivity.
      * intros Ht. rewrite Ht in Htalk. cbn [negb andb] in Htalk. exact Htalk.
    + apply recorded_more, Hinv, Hold.
  - intros H. injection H as _ <-. intros k l Hin.
    apply recorded_more, Hinv, Hin.
Qed.

Lemma forEach_recorded (talk : JsVal) (states seen : list JsVal)
      (counts counts' : JsObject.t Cell) (labels labels' : JsObject.t string) :
  (forall k l, In (k, l) labels -> recorded talk seen k l) ->
  forEach (tally_state talk) states (counts, labels) = Returns (counts', labels') ->
  forall k l, In (k, l) labels' -> recorded talk (seen ++ states) k l.
Proof.
  revert seen counts labels.
  induction states as [|st states IH]; intros seen counts labels Hinv; cbn [forEach].
  - intros H. injection H as _ <-. rewrite app_nil_r. exact Hinv.
  - destruct (tally_state talk (counts, labels) st) as [[c1 l1]|] eqn:Hstep;
      cbn [bind]; [|discriminate].
    intros Hrest k l Hin.
    replace (seen ++ st :: states) with ((seen ++ [st]) ++ states)
      by (rewrite <- app_assoc; reflexivity).
    apply (IH (seen ++ [st]) c1 l1); [|exact Hrest|exact Hin].
    exact (tally_state_recorded talk seen st counts c1 labels l1 Hinv Hstep).
Qed.

Lemma tally_state_returns (talk : JsVal) (acc : JsObject.t Cell * JsObject.t string)
      (st : JsVal) :
  (truthy st = true -> exists s, ToString st = Returns s) ->
  exists acc', tally_state talk acc st = Returns acc'.
Proof.
  intros Hconv. destruct acc as [counts labels]. unfold tally_state, normalizeState.
  unfold or_else. destruct (truthy st) eqn:Ht.
  - destruct (Hconv eq_refl) as (s & Hs). rewrite Hs. cbn [bind].
    destruct (_ || _); [eexists; reflexivity|].
    destruct (_ && _); [eexists; reflexivity|].
    destruct (label_missing _ _); cbn [bind]; eexists; reflexivity.
  - cbn [ToString bind].
    destruct (_ || _); [eexists; reflexivity|].
    destruct (_ && _); [eexists; reflexivity|].
    destruct (label_missing _ _); [|eexists; reflexivity].
    destruct st as [| |[|]|x|s|l|o]; try discriminate; cbn [ToString bind];
      eexists; reflexivity.
Qed.

Lemma forEach_returns (talk : JsVal) (states : list JsVal)
      (acc : JsObject.t Cell * JsObject.t string) :
  (forall st, In st states -> truthy st = true -> exists s, ToString st = Returns s) ->
  exists acc', forEach (tally_state talk) states acc = Returns acc'.
Proof.
  revert acc. induction states as [|st states IH]; intros acc Hconv; cbn [forEach].
  - eexists. reflexivity.
  - destruct (tally_state_returns talk acc st (Hconv st (or_introl eq_refl)))
      as (acc1 & ->). cbn [bind].
    apply IH. intros s Hs. apply Hconv. right. exact Hs.
Qed.

(** X1. Whatever the labels are, the resolver answers with the empty string
    or with the [String(state)] of one of the states it was given, and that
    state is one that takes part in the count: its normalised label is not
    empty, is not focused-equivalent and, with talking excluded, does not
    mention talking. It throws only when a state cannot be converted to a
    string. *)
Theorem resolver_answers_with_a_candidate (states : list JsVal) (talk : JsVal) :
  (forall answer : string,
      computeMostCommonDistractor states talk = Returns answer ->
      answer = ""
      \/ exists st normalized,
           In st states
           /\ ToString st = Returns answer
           /\ normalizeState st = Returns normalized
           /\ is_empty normalized = false
           /\ isFocusedState normalized = false
           /\ (truthy talk = false -> includes normalized "talking" = false))
  /\ ((forall st, In st states -> truthy st = true -> exists s, ToString st = Returns s) ->
      exists answer, computeMostCommonDistractor states talk = Returns answer).
Proof.
  split.
  - intros answer. unfold computeMostCommonDistractor.
    destruct (forEach (tally_state talk) states ([], [])) as [[counts labels]|] eqn:Hloop;
      cbn [bind]; [|discriminate].
    destruct (fold_left pick_best (JsObject.entries counts) ("", 0%Z)) as [bestKey bestCount].
    destruct (is_empty bestKey); [intros H; injection H as <-; left; reflexivity|].
    destruct (JsObject.get labels bestKey) as [label|] eqn:Hget;
      [|intros H; injection H as <-; left; reflexivity].
    intros H. injection H as <-. right.
    assert (Hrec : recorded talk ([] ++ states) bestKey label).
    { apply (forEach_recorded talk states [] [] counts [] labels); [intros k l []|exact Hloop|].
      apply get_In. exact Hget. }
    destruct Hrec as (st & Hin & Hs & Hn & He & Hf & Ht).
    exists st, bestKey. repeat split; assumption.
  - intros Hconv. unfold computeMostCommonDistractor.
    destruct (forEach_returns talk states ([], []) Hconv) as ([counts labels] & ->).
    cbn [bind]. destruct (fold_left _ _ _). eexists. reflexivity.
Qed.
End ResolverSoundness.


(** ** The alert keys and the videos *)

Section AlertKeys.
Context {E : JsEngine}.

Lemma asset_for_known (choice key : string) :
  In choice ["cop"; "animegirl"] -> In key ["side"; "up"; "phone"; "talking"] ->
  exists asset, asset_for choice key = Some asset /\ is_empty asset = false.
Proof.
  intros [<-|[<-|[]]] [<-|[<-|[<-|[<-|[]]]]]; eexists; split; reflexivity.
Qed.

Lemma asset_for_unknown (choice key : string) :
  ~ In choice ["cop"; "animegirl"] -> asset_for choice key = None.
Proof.
  intros Hno. unfold asset_for, characterAssets. cbn [JsObject.get].
  destruct (String.eqb "cop" choice) eqn:H1.
  { apply String.eqb_eq in H1. exfalso. apply Hno. left. exact H1. }
  destruct (String.eqb "animegirl" choice) eqn:H2.
  { apply String.eqb_eq in H2. exfalso. apply Hno. right. left. exact H2. }
  reflexivity.
Qed.

(** X2. [alertKeyForState] never throws and answers with one of the keys
    side, up, phone, talking or with the empty string, with talking only
    when talking is included. Every key that is not empty has a video for
    each of the two characters of [characterAssets]: the callback of a timer
    armed under the warning queues an alert exactly when the key is not
    empty, and for any other character it queues none. *)
Theorem every_alert_key_has_a_video (talk : JsVal) (value : string) :
  exists key : string,
    alertKeyForState talk value = Returns key
    /\ In key [""; "side"; "up"; "phone"; "talking"]
    /\ (key = "talking" -> truthy talk = true)
    /\ forall t : AlertTimer,
        seenWarning t = true ->
        seenIncludeTalking t = talk ->
        (if is_empty (seenReason t) then seenVisionState t else seenReason t) = value ->
        (In (seenCharacter t) ["cop"; "animegirl"] ->
         (alert_of false t = None <-> key = ""))
        /\ (~ In (seenCharacter t) ["cop"; "animegirl"] -> alert_of false t = None).
Proof.
  assert (Hkey : exists key, alertKeyForState talk value = Returns key
                             /\ In key [""; "side"; "up"; "phone"; "talking"]
                             /\ (key = "talking" -> truthy talk = true)).
  { unfold alertKeyForState. rewrite normalizeState_label. cbn [bind].
    set (n := ResolverSpec.normal value).
    destruct (is_empty n); [exists ""; cbn; intuition discriminate|].
    destruct (includes n "left" || includes n "right");
      [exists "side"; cbn; intuition discriminate|].
    destruct (includes n "up"); [exists "up"; cbn; intuition discriminate|].
    destruct (includes n "phone" || includes n "book" || includes n "down");
      [exists "phone"; cbn; intuition discriminate|].
    destruct (includes n "eyes closed"); [exists "up"; cbn; intuition discriminate|].
    destruct (includes n "talking"); [|exists ""; cbn; intuition discriminate].
    destruct (truthy talk); [exists "talking" | exists ""]; cbn; intuition discriminate. }
  destruct Hkey as (key & Hk & Hin & Htalk). exists key.
  split; [exact Hk|]. split; [exact Hin|]. split; [exact Htalk|].
  intros t Hw Ht Hv. unfold alert_of. rewrite Hw, Ht, Hv, Hk. cbn [negb orb].
  split.
  - intros Hc. destruct Hin as [<-|Hin]; [cbn; split; reflexivity|].
    destruct (asset_for_known _ key Hc Hin) as (asset & Ha & He).
    assert (Hne : is_empty key = false).
    { destruct Hin as [<-|[<-|[<-|[<-|[]]]]]; reflexivity. }
    rewrite Hne, Ha, He. split; [discriminate|].
    intros ->. discriminate.
  - intros Hc. rewrite (asset_for_unknown _ key Hc).
    destruct (is_empty key); reflexivity.
Qed.
End AlertKeys.


(** ** The player of the alerts *)

Section PlaybackProofs.
Context {E : JsEngine}.

Lemma onmessage_alerting (h : Handler) (payload : JsVal) (a : App) :
  alerting (onmessage h payload a) = alerting a.
Proof.
  unfold onmessage.
  repeat match goal with
         | |- context [match ?x with Returns _ => _ | Throws => _ end] => destruct x
         end; reflexivity.
Qed.

Lemma startLesson_alerting (now : Z) (a : App) :
  alerting (startLesson now a) = alerting a.
Proof.
  unfold startLesson.
  destruct (is_empty _); [reflexivity|].
  destruct (_ || _); reflexivity.
Qed.

Lemma rescheduled_playlist (now : Z) (a : App) :
  alertQueue (rescheduled now a) = alertQueue (alerting a)
  /\ activeAlert (rescheduled now a) = activeAlert (alerting a).
Proof.
  unfold rescheduled, schedule.
  destruct (stale same_alert_deps _ _); [|split; reflexivity].
  destruct (lessonStarted _); cbn [negb]; [|split; reflexivity].
  destruct (warning a); cbn [negb]; [|split; reflexivity].
  cbn [set_timer alertQueuedRef].
  destruct (alertQueuedRef (alerting a)); split; reflexivity.
Qed.

Lemma play_next_playlist (al : Alerts) :
  queue_sound al -> playlist (play_next al) = playlist al /\ queue_sound (play_next al).
Proof.
  intros Hq. unfold play_next.
  destruct (is_empty (activeAlert al)) eqn:Ha; cbn [negb]; [|split; [reflexivity|exact Hq]].
  destruct (alertQueue al) as [|next rest] eqn:Hqueue; [split; [reflexivity|exact Hq]|].
  unfold queue_sound in Hq. rewrite Hqueue in Hq. inversion Hq as [|x l Hnext Hrest]; subst.
  split.
  - unfold playlist. cbn [activeAlert alertQueue]. rewrite Hnext, Ha, Hqueue. reflexivity.
  - exact Hrest.
Qed.

Lemma commit_playlist (now : Z) (a : App) :
  queue_sound (alerting a) ->
  playlist (alerting (commit now a)) = playlist (alerting a)
  /\ queue_sound (alerting (commit now a)).
Proof.
  intros Hq. rewrite commit_alerting.
  destruct (rescheduled_playlist now a) as [Hqueue Hactive].
  assert (Hr : playlist (rescheduled now a) = playlist (alerting a)).
  { unfold playlist. rewrite Hqueue, Hactive. reflexivity. }
  assert (Hs : queue_sound (rescheduled now a)).
  { unfold queue_sound. rewrite Hqueue. exact Hq. }
  destruct (stale same_queue_deps _ _); [|split; assumption].
  destruct (play_next_playlist _ Hs) as [Hp Hs']. split; [congruence|exact Hs'].
Qed.

Lemma alert_of_asset (queued : bool) (t : AlertTimer) (asset : string) :
  alert_of queued t = Some asset -> is_empty asset = false.
Proof.
  unfold alert_of. destruct (_ || _); [discriminate|].
  destruct (alertKeyForState _ _) as [key|]; [|discriminate].
  destruct (is_empty key); [discriminate|].
  destruct (asset_for _ key) as [x|]; [|discriminate].
  destruct (is_empty x) eqn:Hx; [discriminate|].
  intros H. injection H as <-. exact Hx.
Qed.

Lemma step_playlist (a : App) (e : Event) :
  queue_sound (alerting a) ->
  ended a e ++ playlist (alerting (step a e)) = playlist (alerting a) ++ fired a e
  /\ queue_sound (alerting (step a e)).
Proof.
  intros Hq.
  destruct e as [now|payload|now|now|now|text| |config|choice| | |];
    cbn [ended fired app]; rewrite ?app_nil_r;
    try (split; [reflexivity|exact Hq]).
  - cbn [step]. apply commit_playlist. exact Hq.
  - cbn [step]. destruct (socket (vision a)) as [h|]; [|split; [reflexivity|exact Hq]].
    rewrite onmessage_alerting. split; [reflexivity|exact Hq].
  - cbn [step]. unfold alertTimeout, fire. cbn [with_alerting alerting].
    destruct (alertTimeoutRef (alerting a)) as [t|];
      [|rewrite app_nil_r; split; [reflexivity|exact Hq]].
    destruct (due t <=? now)%Z; [|rewrite app_nil_r; split; [reflexivity|exact Hq]].
    destruct (alert_of (alertQueuedRef (alerting a)) t) as [asset|] eqn:Hasset.
    + split.
      * unfold playlist. cbn [activeAlert alertQueue]. rewrite app_assoc. reflexivity.
      * unfold queue_sound. cbn [alertQueue]. apply Forall_app. split; [exact Hq|].
        constructor; [exact (alert_of_asset _ _ _ Hasset)|constructor].
    + rewrite app_nil_r. split; [reflexivity|exact Hq].
  - cbn [step]. destruct (acceptable _).
    + destruct (commit_playlist now (startLesson now a)) as [Hp Hs].
      { rewrite startLesson_alerting. exact Hq. }
      rewrite startLesson_alerting in Hp. split; assumption.
    + rewrite startLesson_alerting. split; [reflexivity|exact Hq].
  - cbn [step]. apply (commit_playlist now (endLesson now a)). exact Hq.
Qed.

Lemma run_queue_sound (events : list Event) (a : App) :
  queue_sound (alerting a) -> queue_sound (alerting (run events a)).
Proof.
  revert a. induction events as [|e events IH]; intros a Hq; [exact Hq|].
  cbn [run fold_left]. apply IH. apply step_playlist. exact Hq.
Qed.

Lemma commit_keeps_playing (now : Z) (a : App) :
  is_empty (activeAlert (alerting a)) = false ->
  activeAlert (alerting (commit now a)) = activeAlert (alerting a).
Proof.
  intros Hp. rewrite commit_alerting.
  destruct (rescheduled_playlist now a) as [_ Hactive].
  destruct (stale same_queue_deps _ _); [|exact Hactive].
  unfold play_next. rewrite Hactive, Hp. cbn [negb]. exact Hactive.
Qed.

Lemma step_keeps_playing (a : App) (e : Event) :
  e <> AlertEnded ->
  is_empty (activeAlert (alerting a)) = false ->
  activeAlert (alerting (step a e)) = activeAlert (alerting a).
Proof.
  intros He Hp.
  destruct e as [now|payload|now|now|now|text| |config|choice| | |];
    try reflexivity; try congruence.
  - cbn [step]. apply commit_keeps_playing. exact Hp.
  - cbn [step]. destruct (socket (vision a)) as [h|]; [|reflexivity].
    rewrite onmessage_alerting. reflexivity.
  - cbn [step]. unfold alertTimeout, fire. cbn [with_alerting alerting].
    destruct (alertTimeoutRef (alerting a)) as [t|]; [|reflexivity].
    destruct (due t <=? now)%Z; [|reflexivity].
    destruct (alert_of _ t); reflexivity.
  - cbn [step]. destruct (acceptable _).
    + rewrite commit_keeps_playing; rewrite startLesson_alerting; [reflexivity|exact Hp].
    + rewrite startLesson_alerting. reflexivity.
  - cbn [step]. apply (commit_keeps_playing now (endLesson now a)). exact Hp.
Qed.

(** X3. The alerts play in the order they were queued, none is lost and
    none plays twice: from any state the component can reach, the alerts
    whose playback ended in the course of the events, followed by the one
    that plays and those that wait, are the ones that played or waited
    before followed by the ones the timers queued. An alert that plays is
    replaced by no event but the end of its playback; starting or ending a
    lesson leaves the queue as it is. *)
Theorem alerts_play_in_order (before events : list Event) :
  let a := run before initialApp in
  ended_during events a ++ playlist (alerting (run events a))
  = playlist (alerting a) ++ queued_during events a
  /\ forall e : Event,
      e <> AlertEnded ->
      is_empty (activeAlert (alerting a)) = false ->
      activeAlert (alerting (step a e)) = activeAlert (alerting a).
Proof.
  intros a. split; [|intros e; apply step_keeps_playing].
  assert (Hq : queue_sound (alerting a)).
  { apply run_queue_sound. constructor. }
  clearbody a. revert a Hq.
  induction events as [|e events IH]; intros a Hq.
  - cbn. rewrite app_nil_r. reflexivity.
  - cbn [ended_during queued_during]. change (run (e :: events) a) with (run events (step a e)).
    destruct (step_playlist a e Hq) as [Hstep Hq'].
    rewrite <- app_assoc, (IH _ Hq'), !app_assoc, Hstep. reflexivity.
Qed.
End PlaybackProofs.

(** ** The alerts figure of the summary *)

Section SummaryProofs.
Context {E : JsEngine}.

Lemma distracted_in_alternation (timeline : list Entry.t) :
  map Entry.state timeline = alternation (List.length timeline) ->
  2 * distracted_entries timeline
  = List.length timeline + (if Nat.even (List.length timeline) then 0 else 1).
Proof.
  induction timeline as [|e timeline IH] using rev_ind; [reflexivity|].
  rewrite map_app, length_app. cbn [map List.length].
  replace (List.length timeline + 1) with (S (List.length timeline)) by lia.
  cbn [alternation]. intros H.
  apply app_inj_tail in H. destruct H as [Hrest He].
  specialize (IH Hrest).
  unfold distracted_entries in *. rewrite filter_app, length_app. cbn [filter].
  rewrite He, Nat.even_succ, <- Nat.negb_even.
  destruct (Nat.even (List.length timeline)); cbn [negb List.length]; lia.
Qed.

(** X4. The alerts figure of the summary is the number of distraction
    episodes of the lesson, that is the number of distracted entries of its
    timeline: it counts the episodes that were opened, whether or not a
    video was queued for them. *)
Theorem alerts_count_the_episodes (events : list Event) (endTime : Z) :
  forallb clocked events = true ->
  let a := run events initialApp in
  lessonStarted (session a) = true ->
  exists s : SessionSummary,
    sessionSummary (session (step a (End endTime))) = Some s
    /\ alerts s = distractedCountRef (session a)
    /\ alerts s
       = Z.of_nat (distracted_entries
                     (sessionTimeline (session (step a (End endTime))))).
Proof.
  intros Hc a Hstarted.
  assert (I : Inv a) by (apply Inv_run; [exact Hc|exact Inv_initial]).
  destruct (ref_set_some _ (inv_started a I Hstarted)) as (start & Hstart & Hnz).
  rewrite (End_session endTime a I).
  eexists. split; [rewrite (endLesson_reports endTime a start Hstart Hnz); reflexivity|].
  cbn [alerts]. split; [reflexivity|].
  unfold endLesson. cbn [with_session session]. rewrite finish_timeline.
  destruct (inv_count a I Hstarted) as (Hlen & Hopen & Halt).
  pose proof (distracted_in_alternation _ Halt) as Hd.
  unfold completed_episodes, open_episodes in *.
  destruct (ref_set (distractedStartRef (session a))).
  - rewrite (odd_of_double _ (distractedCountRef (session a) - 1)) in Hd by lia. lia.
  - rewrite (even_of_double _ (distractedCountRef (session a))) in Hd by lia. lia.
Qed.
End SummaryProofs.

(** ** Ending a lesson twice *)

Section EndProofs.
Context {E : JsEngine}.

Lemma finish_summary (endTime : Z) (s : Session) (r : SessionSummary) :
  sessionSummary (finish endTime s) = Some r ->
  ref_set (sessionStartRef s) = true ->
  distractedSeconds r = distractedTotalRef (finish endTime s)
  /\ alerts r = distractedCountRef (finish endTime s).
Proof.
  unfold finish. destruct (sessionStartRef s) as [start|]; [|discriminate].
  intros H Hset. rewrite Hset in *. cbn [sessionSummary] in H.
  injection H as <-. cbn. split; reflexivity.
Qed.

(** X5. [endLesson] called again changes nothing when the clock reads the
    same, and at a later reading it leaves the distracted seconds and the
    alerts as they were: the first call closes the open episode, so its
    time is counted once. Called before any lesson was started it reports
    nothing. *)
Theorem endLesson_again (endTime later : Z) (a : App) :
  endLesson endTime (endLesson endTime a) = endLesson endTime a
  /\ (sessionStartRef (session a) = None ->
      sessionSummary (session (endLesson endTime a)) = sessionSummary (session a))
  /\ (forall r r' : SessionSummary,
         sessionSummary (session (endLesson endTime a)) = Some r ->
         ref_set (sessionStartRef (session a)) = true ->
         sessionSummary (session (endLesson later (endLesson endTime a))) = Some r' ->
         distractedSeconds r' = distractedSeconds r /\ alerts r' = alerts r).
Proof.
  split; [|split].
  - unfold endLesson, with_session. cbn [session smoother alerting vision memo].
    f_equal. unfold finish.
    destruct (sessionStartRef (session a)) as [start|] eqn:Hstart;
      cbn [sessionStartRef]; rewrite ?Hstart; [|reflexivity].
    destruct (ref_set (Some start)) eqn:Hset;
      cbn [sessionStartRef distractedStartRef distractedTotalRef distractedCountRef
           lessonMinutes remainingSeconds sessionTimeline sessionSummary];
      rewrite ?Hstart, ?Hset; [|reflexivity].
    destruct (distractedStartRef (session a)) as [started|] eqn:Hds; [|reflexivity].
    destruct (ref_set (Some started)) eqn:Hopen; [reflexivity|].
    rewrite Hopen. reflexivity.
  - intros Hnone. unfold endLesson, with_session. cbn [session].
    unfold finish. rewrite Hnone. reflexivity.
  - intros r r' Hr Hset Hr'.
    unfold endLesson, with_session in *. cbn [session] in *.
    destruct (finish_summary _ _ _ Hr Hset) as [Hd Ha].
    assert (Hset' : ref_set (sessionStartRef (finish endTime (session a))) = true).
    { unfold finish. destruct (sessionStartRef (session a)) as [start|] eqn:Hstart;
        [|discriminate]. rewrite Hset. cbn [sessionStartRef]. exact Hset. }
    destruct (finish_summary _ _ _ Hr' Hset') as [Hd' Ha'].
    rewrite Hd, Ha, Hd', Ha'.
    unfold finish.
    destruct (sessionStartRef (session a)) as [start|] eqn:Hstart; [|discriminate].
    rewrite Hset.
    cbn [sessionStartRef distractedStartRef distractedTotalRef distractedCountRef].
    rewrite Hset.
    cbn [sessionStartRef distractedStartRef distractedTotalRef distractedCountRef].
    destruct (distractedStartRef (session a)) as [started|] eqn:Hds; [|split; reflexivity].
    destruct (ref_set (Some started)) eqn:Hopen; [split; reflexivity|].
    rewrite Hopen. split; reflexivity.
Qed.
End EndProofs.

(** ** The timeline under a clock that never goes back *)

Section ChronProofs.
Context {E : JsEngine}.

Lemma round_seconds_mono (x y : Z) : (x <= y)%Z -> (round_seconds x <= round_seconds y)%Z.
Proof. intros H. unfold round_seconds. apply Z.div_le_mono; lia. Qed.

Lemma round_seconds_nonneg (x : Z) : (0 <= x)%Z -> (0 <= round_seconds x)%Z.
Proof. intros H. unfold round_seconds. apply Z.div_pos; lia. Qed.

Lemma nondecreasing_snoc (l : list Z) (x : Z) :
  nondecreasing l = true -> Forall (fun y => (y <= x)%Z) l ->
  nondecreasing (l ++ [x]) = true.
Proof.
  induction l as [|a l IH]; [reflexivity|].
  intros Hs Hb. inversion Hb as [|a' l' Ha Hl]; subst.
  destruct l as [|b l].
  - cbn. apply andb_true_intro. split; [apply Z.leb_le; exact Ha|reflexivity].
  - cbn [nondecreasing] in Hs. apply andb_prop in Hs as [Hab Hs].
    change (nondecreasing ((a :: b :: l) ++ [x]))
      with ((a <=? b)%Z && nondecreasing ((b :: l) ++ [x])).
    rewrite Hab, (IH Hs Hl). reflexivity.
Qed.

Lemma Chron_later (t now : Z) (s : Session) : (t <= now)%Z -> Chron t s -> Chron now s.
Proof.
  intros Hle C. constructor.
  - exact (chron_sorted t s C).
  - exact (chron_positive t s C).
  - exact (chron_total t s C).
  - intros Hs. destruct (chron_start t s C Hs) as (start & Hstart & Hst & Hb).
    exists start. split; [exact Hstart|]. split; [lia|].
    eapply Forall_impl; [|exact Hb]. cbn. intros e He.
    pose proof (round_seconds_mono (t - start) (now - start)). lia.
  - intros d Hd. pose proof (chron_episode t s C d Hd). lia.
Qed.

Lemma Chron_append (now start : Z) (s s' : Session) (st : FocusState) (lbl : string) :
  Chron now s -> lessonStarted s = true -> sessionStartRef s = Some start ->
  sessionTimeline s'
  = sessionTimeline s ++ [{| Entry.elapsedSeconds := round_seconds (now - start);
                             Entry.state := st; Entry.label := lbl |}] ->
  lessonStarted s' = lessonStarted s -> sessionStartRef s' = sessionStartRef s ->
  (0 <= distractedTotalRef s')%Z ->
  (forall d, distractedStartRef s' = Some d -> (d <= now)%Z) ->
  Chron now s'.
Proof.
  intros C Hs Hstart Htl Hls Hss Htot Hep.
  destruct (chron_start now s C Hs) as (start' & Hstart' & Hle & Hb).
  assert (start' = start) by congruence. subst start'.
  constructor.
  - rewrite Htl, map_app. apply nondecreasing_snoc; [exact (chron_sorted now s C)|].
    apply Forall_map. exact Hb.
  - rewrite Htl. apply Forall_app. split; [exact (chron_positive now s C)|].
    constructor; [|constructor]. cbn. apply round_seconds_nonneg. lia.
  - exact Htot.
  - intros _. exists start. split; [congruence|]. split; [exact Hle|].
    rewrite Htl. apply Forall_app. split; [exact Hb|].
    constructor; [|constructor]. cbn. lia.
  - exact Hep.
Qed.

Lemma record_transition_Chron (now : Z) (warn : bool) (reason : string) (s : Session) :
  Chron now s -> Chron now (record_transition now warn reason s).
Proof.
  intros C. unfold record_transition.
  destruct (sessionStartRef s) as [start|] eqn:Hstart; [|exact C].
  destruct (lessonStarted s) eqn:Hs; cbn [negb orb]; [|exact C].
  destruct (ref_set (Some start)) eqn:Hset; cbn [negb]; [|exact C].
  destruct (warn && negb (ref_set (distractedStartRef s))) eqn:Hopen.
  - cbn [distractedStartRef]. apply andb_prop in Hopen as [Hw _]. subst warn.
    cbn [negb andb].
    eapply (Chron_append now start s _ _ _ C Hs Hstart);
      [reflexivity | cbn; congruence | cbn; congruence | |].
    + cbn. exact (chron_total now s C).
    + cbn. intros d Hd. injection Hd as <-. lia.
  - destruct (distractedStartRef s) as [started|] eqn:Hds; [|exact C].
    destruct (negb warn && ref_set (Some started)) eqn:Hclose; [|exact C].
    eapply (Chron_append now start s _ _ _ C Hs Hstart);
      [reflexivity | cbn; congruence | cbn; congruence | |].
    + cbn. pose proof (chron_total now s C).
      pose proof (chron_episode now s C started Hds).
      pose proof (round_seconds_nonneg (now - started)). lia.
    + cbn. discriminate.
Qed.

Lemma commit_Chron (now : Z) (a : App) :
  Chron now (session a) -> Chron now (session (commit now a)).
Proof.
  intros C. rewrite commit_session.
  destruct (stale same_timeline_deps _ _); [|exact C].
  apply record_transition_Chron. exact C.
Qed.

Lemma onmessage_session (h : Handler) (payload : JsVal) (a : App) :
  session (onmessage h payload a) = session a.
Proof.
  unfold onmessage.
  repeat match goal with
         | |- context [match ?x with Returns _ => _ | Throws => _ end] => destruct x
         end; reflexivity.
Qed.

Lemma startLesson_Chron (now t : Z) (a : App) :
  (t <= now)%Z -> Chron t (session a) -> Chron now (session (startLesson now a)).
Proof.
  intros Hle C. unfold startLesson.
  destruct (is_empty _); [exact (Chron_later t now _ Hle C)|].
  destruct (_ || _); [exact (Chron_later t now _ Hle C)|].
  cbn [session]. constructor; cbn.
  - reflexivity.
  - constructor.
  - lia.
  - intros _. exists now. split; [reflexivity|]. split; [lia|constructor].
  - discriminate.
Qed.

Lemma finish_Chron (now : Z) (s : Session) : Chron now s -> Chron now (finish now s).
Proof.
  intros C.
  assert (Htot : (0 <= distractedTotalRef (finish now s))%Z).
  { unfold finish. pose proof (chron_total now s C) as Ht.
    destruct (sessionStartRef s) as [start|]; [|exact Ht].
    destruct (ref_set (Some start)); [|exact Ht].
    cbn [distractedTotalRef].
    destruct (distractedStartRef s) as [d|] eqn:Hd; [|exact Ht].
    destruct (ref_set (Some d)); [|exact Ht].
    pose proof (chron_episode now s C d Hd).
    pose proof (round_seconds_nonneg (now - d)). lia. }
  assert (Htl : sessionTimeline (finish now s) = sessionTimeline s)
    by apply finish_timeline.
  assert (Hls : lessonStarted (finish now s) = false).
  { unfold finish. destruct (sessionStartRef s); [destruct (ref_set _)|]; reflexivity. }
  constructor.
  - rewrite Htl. exact (chron_sorted now s C).
  - rewrite Htl. exact (chron_positive now s C).
  - exact Htot.
  - rewrite Hls. discriminate.
  - intros d Hd. apply (chron_episode now s C d).
    revert Hd. unfold finish.
    destruct (sessionStartRef s); [destruct (ref_set (Some _))|]; cbn [distractedStartRef];
      try (intros Hd; exact Hd).
    destruct (ref_set (distractedStartRef s)); [discriminate|intros Hd; exact Hd].
Qed.

Lemma step_Chron (t : Z) (a : App) (e : Event) :
  Chron t (session a) ->
  match event_time e with
  | Some now => (t <= now)%Z -> Chron now (session (step a e))
  | None => Chron t (session (step a e))
  end.
Proof.
  intros C.
  destruct e as [now|payload|now|now|now|text| |config|choice| | |];
    cbn [event_time]; try exact C.
  - intros Hle. cbn [step]. apply commit_Chron. exact (Chron_later t now _ Hle C).
  - cbn [step]. destruct (socket (vision a)) as [h|]; [|exact C].
    rewrite onmessage_session. exact C.
  - intros Hle. exact (Chron_later t now _ Hle C).
  - intros Hle. cbn [step]. destruct (acceptable _).
    + apply commit_Chron. exact (startLesson_Chron now t a Hle C).
    + exact (startLesson_Chron now t a Hle C).
  - intros Hle. cbn [step]. apply commit_Chron. unfold endLesson. cbn [with_session session].
    apply finish_Chron. exact (Chron_later t now _ Hle C).
  - destruct C as [C1 C2 C3 C4 C5]. constructor; assumption.
Qed.

Lemma run_Chron (events : list Event) (t : Z) (a : App) :
  chronological t events = true -> Chron t (session a) ->
  exists t', Chron t' (session (run events a)).
Proof.
  revert t a. induction events as [|e events IH]; intros t a Hc C.
  - exists t. exact C.
  - cbn [chronological] in Hc. cbn [run fold_left].
    pose proof (step_Chron t a e C) as Hstep.
    destruct (event_time e) as [now|].
    + apply andb_prop in Hc as [Hle Hc]. apply Z.leb_le in Hle.
      exact (IH now _ Hc (Hstep Hle)).
    + exact (IH t _ Hc Hstep).
Qed.

(** X6. When the clock never goes back, the entries of the timeline are in
    the order of their times, no entry is before the start of the lesson,
    and the distracted time is not negative. *)
Theorem timeline_is_chronological (events : list Event) (t : Z) :
  chronological t events = true ->
  let s := session (run events initialApp) in
  nondecreasing (map Entry.elapsedSeconds (sessionTimeline s)) = true
  /\ Forall (fun e => (0 <= Entry.elapsedSeconds e)%Z) (sessionTimeline s)
  /\ (0 <= distractedTotalRef s)%Z.
Proof.
  intros Hc s.
  destruct (run_Chron events t initialApp Hc) as (t' & C).
  { constructor; cbn; try reflexivity; try constructor; try discriminate. }
  split; [exact (chron_sorted _ _ C)|]. split; [exact (chron_positive _ _ C)|].
  exact (chron_total _ _ C).
Qed.
End ChronProofs.

(** ** The echoed config and the socket *)

Section LinkProofs.
Context {E : JsEngine}.

Lemma commit_vision (now : Z) (a : App) :
  vision (commit now a)
  = if stale Bool.eqb (socketDeps (memo a)) (trackingEnabled (vision a))
    then vision (socketEffect a) else vision a.
Proof.
  unfold commit.
  destruct (stale Bool.eqb _ _), (stale same_alert_deps _ _),
    (stale same_queue_deps _ _), (stale same_timeline_deps _ _); reflexivity.
Qed.

Lemma commit_socketDeps (now : Z) (a : App) :
  socketDeps (memo (commit now a))
  = if stale Bool.eqb (socketDeps (memo a)) (trackingEnabled (vision a))
    then Some (trackingEnabled (vision a)) else socketDeps (memo a).
Proof.
  unfold commit.
  destruct (stale Bool.eqb _ _), (stale same_alert_deps _ _),
    (stale same_queue_deps _ _), (stale same_timeline_deps _ _); reflexivity.
Qed.

Lemma commit_backendConfig (now : Z) (a : App) :
  backendConfig (vision (commit now a)) = backendConfig (vision a).
Proof. rewrite commit_vision. destruct (stale _ _ _); reflexivity. Qed.

Lemma startLesson_vision (now : Z) (a : App) : vision (startLesson now a) = vision a.
Proof.
  unfold startLesson. destruct (is_empty _); [reflexivity|].
  destruct (_ || _); reflexivity.
Qed.

Lemma startLesson_memo (now : Z) (a : App) : memo (startLesson now a) = memo a.
Proof.
  unfold startLesson. destruct (is_empty _); [reflexivity|].
  destruct (_ || _); reflexivity.
Qed.

Lemma onmessage_backendConfig (h : Handler) (payload : JsVal) (a : App) :
  backendConfig (vision (onmessage h payload a)) = backendConfig (vision a)
  \/ (truthy (field payload "config") = true
      /\ backendConfig (vision (onmessage h payload a)) = field payload "config").
Proof.
  unfold onmessage.
  destruct (if truthy (field payload "state") then _ else _) as [incoming|];
    [|left; reflexivity].
  assert (H : backendConfig (hear_state h payload incoming (vision a))
              = backendConfig (vision a)
              \/ (truthy (field payload "config") = true
                  /\ backendConfig (hear_state h payload incoming (vision a))
                     = field payload "config")).
  { cbn [hear_state backendConfig].
    destruct (truthy (field payload "config")); [right; split; reflexivity|left; reflexivity]. }
  cbv zeta.
  repeat match goal with
         | |- context [match ?x with Returns _ => _ | Throws => _ end] => destruct x
         end;
    destruct (truthy (field payload "state")); exact H.
Qed.

Lemma step_backendConfig (a : App) (e : Event) :
  backendConfig (vision (step a e)) = backendConfig (vision a)
  \/ exists payload,
      e = Message payload
      /\ truthy (field payload "config") = true
      /\ backendConfig (vision (step a e)) = field payload "config".
Proof.
  destruct e as [now|payload|now|now|now|text| |config|choice| | |];
    try (left; reflexivity).
  - left. apply commit_backendConfig.
  - cbn [step]. destruct (socket (vision a)) as [h|]; [|left; reflexivity].
    destruct (onmessage_backendConfig h payload a) as [H|[Ht H]]; [left; exact H|].
    right. exists payload. repeat split; assumption.
  - left. cbn [step]. destruct (acceptable _).
    + rewrite commit_backendConfig, startLesson_vision. reflexivity.
    + rewrite startLesson_vision. reflexivity.
  - left. cbn [step]. apply (commit_backendConfig now (endLesson now a)).
Qed.

(** X7. The echoed config is kept: no event changes it but a message that
    carries a config, which replaces it, so that an echo stays in force
    through the closing of the socket, the toggling of the tracking and the
    start and the end of a lesson. While the echo holds a value for
    [include_talking], editing the local config does not change the
    effective value. *)
Theorem backend_config_is_kept (a : App) :
  (forall e : Event,
      backendConfig (vision (step a e)) = backendConfig (vision a)
      \/ exists payload,
          e = Message payload
          /\ truthy (field payload "config") = true
          /\ backendConfig (vision (step a e)) = field payload "config")
  /\ (forall events : list Event,
         truthy (backendConfig (vision a)) = true ->
         truthy (backendConfig (vision (run events a))) = true)
  /\ (forall (b : bool) (config : VisionConfig),
         field (backendConfig (vision a)) "include_talking" = JBool b ->
         talking (step a (EditConfig config)) = JBool b).
Proof.
  split; [intros e; apply step_backendConfig|]. split.
  - intros events. revert a. induction events as [|e events IH]; intros a Ht; [exact Ht|].
    cbn [run fold_left]. apply IH.
    destruct (step_backendConfig a e) as [H|(payload & _ & Hc & H)]; rewrite H; assumption.
  - intros b config Hb. unfold talking, effectiveIncludeTalking.
    cbn [step with_vision vision backendConfig]. rewrite Hb. reflexivity.
Qed.

Lemma step_socket_closed (a : App) (e : Event) :
  e <> ToggleTracking ->
  socketDeps (memo a) = Some (trackingEnabled (vision a)) ->
  socket (vision a) = None ->
  socketDeps (memo (step a e)) = Some (trackingEnabled (vision (step a e)))
  /\ socket (vision (step a e)) = None.
Proof.
  intros Hne Hdeps Hsock.
  assert (Hfresh : stale Bool.eqb (socketDeps (memo a)) (trackingEnabled (vision a)) = false).
  { rewrite Hdeps. cbn [stale]. rewrite Bool.eqb_reflx. reflexivity. }
  assert (Hcommit : forall now b,
             memo b = memo a -> vision b = vision a ->
             socketDeps (memo (commit now b)) = Some (trackingEnabled (vision (commit now b)))
             /\ socket (vision (commit now b)) = None).
  { intros now b Hm Hv. rewrite commit_socketDeps, commit_vision, Hm, Hv, Hfresh.
    split; assumption. }
  destruct e as [now|payload|now|now|now|text| |config|choice| | |];
    try congruence;
    try (split; [exact Hdeps | first [exact Hsock | reflexivity]]).
  - cbn [step]. apply Hcommit; reflexivity.
  - cbn [step]. rewrite Hsock. split; assumption.
  - cbn [step]. destruct (acceptable _).
    + apply Hcommit; [apply startLesson_memo|apply startLesson_vision].
    + rewrite startLesson_memo, startLesson_vision. split; assumption.
  - cbn [step]. apply Hcommit; reflexivity.
Qed.

(** X8. A closed socket is not opened again by the component itself: once
    the socket effect has run for the current tracking flag and the socket
    is closed, it stays closed through every event but the toggling of the
    tracking, and the messages that arrive meanwhile change nothing. *)
Theorem socket_is_not_reopened (a : App) (events : list Event) :
  socketDeps (memo a) = Some (trackingEnabled (vision a)) ->
  socket (vision a) = None ->
  Forall (fun e => e <> ToggleTracking) events ->
  socket (vision (run events a)) = None
  /\ forall payload, step (run events a) (Message payload) = run events a.
Proof.
  intros Hdeps Hsock Hev.
  assert (H : socketDeps (memo (run events a))
              = Some (trackingEnabled (vision (run events a)))
              /\ socket (vision (run events a)) = None).
  { revert a Hdeps Hsock. induction Hev as [|e events He Hev IH]; intros a Hdeps Hsock.
    - split; assumption.
    - cbn [run fold_left].
      destruct (step_socket_closed a e He Hdeps Hsock) as [Hd Hs]. exact (IH _ Hd Hs). }
  destruct H as [_ Hs]. split; [exact Hs|].
  intros payload. cbn [step]. rewrite Hs. reflexivity.
Qed.
End LinkProofs.

(** ** How a verdict moves the level *)

Section ResponseProofs.
Context {E : JsEngine}.
Import SmootherSpec.

Lemma level_next_to_level :
  every_level (fun s n =>
                 (if (n <? 60)%Z
                  then PrimFloat.leb (level s n) (level (s + 1) (n + 1))
                       && PrimFloat.leb (level s (n + 1)) (level s n)
                  else true)
                 && PrimFloat.leb (level s n) (level s n)
                 && (if (s <? n)%Z
                     then PrimFloat.leb (level s n) (level (s + 1) n)
                     else true))
  = true.
Proof. vm_compute. reflexivity. Qed.

Lemma warns_iff (s n : Z) :
  (0 <= s <= n)%Z -> (1 <= n <= 60)%Z ->
  focusWarningActive (level s n) = true <-> (10 * s < 7 * n)%Z.
Proof.
  intros Hs Hn. unfold focusWarningActive.
  pose proof (every_level_sound _ level_threshold_exact s n Hs Hn) as H1.
  pose proof (every_level_sound _ level_below_or_not s n Hs Hn) as H2.
  cbv beta in H1, H2. apply eqb_prop in H1, H2. rewrite H2, H1.
  destruct (7 * n <=? s * 10)%Z eqn:Hc; cbn [negb].
  - apply Z.leb_le in Hc. split; [discriminate|lia].
  - apply Z.leb_gt in Hc. split; [lia|reflexivity].
Qed.

Lemma total_snoc (l : list Z) (x : Z) : total (l ++ [x]) = (total l + x)%Z.
Proof. induction l as [|y l IH]; cbn [app total]; lia. Qed.

Lemma pushed_window (w : list Z) (b : Z) :
  List.length w <= 60 ->
  slice_last 60 (w ++ [b]) = (if List.length w <? 60 then w else tl w) ++ [b].
Proof.
  intros Hb. destruct (List.length w <? 60) eqn:Hlt.
  - apply Nat.ltb_lt in Hlt. apply slice_last_short. rewrite length_app. cbn. lia.
  - apply Nat.ltb_ge in Hlt. unfold slice_last. rewrite length_app. cbn [List.length].
    replace (List.length w + 1 - 60) with 1 by lia.
    destruct w as [|x w]; [cbn in Hlt; lia|reflexivity].
Qed.

Lemma pushed_level (isFocused : bool) (s : Smoother) :
  Windowed s ->
  let next := (if List.length (focusResults s) <? 60
               then focusResults s else tl (focusResults s))
              ++ [bit isFocused] in
  focusLevel (pushFocusResult isFocused s)
  = level (total next) (Z.of_nat (List.length next)).
Proof.
  intros W next.
  pose proof (window_level _ (push_Windowed isFocused s W)) as Hl.
  assert (Hn : focusResults (pushFocusResult isFocused s) = next).
  { unfold pushFocusResult. cbn [focusResults].
    change (if isFocused then 1%Z else 0%Z) with (bit isFocused).
    apply pushed_window. exact (window_bound s W). }
  rewrite Hn in Hl. clear Hn. revert Hl.
  assert (Hne : next <> []).
  { subst next. intros Hd. apply app_eq_nil in Hd. destruct Hd as [_ Hd]. discriminate. }
  clearbody next. destruct next as [|y next]; [congruence|].
  intros Hl. exact Hl.
Qed.

Lemma level_moves (s : Smoother) :
  Windowed s ->
  PrimFloat.leb (focusLevel s) (focusLevel (pushFocusResult true s)) = true
  /\ PrimFloat.leb (focusLevel (pushFocusResult false s)) (focusLevel s) = true
  /\ (focusWarningActive (focusLevel (pushFocusResult true s)) = true ->
      focusWarningActive (focusLevel s) = true)
  /\ (focusWarningActive (focusLevel s) = true ->
      focusWarningActive (focusLevel (pushFocusResult false s)) = true).
Proof.
  intros W.
  rewrite (pushed_level true s W), (pushed_level false s W).
  pose proof (window_bits s W) as Hbits.
  pose proof (window_bound s W) as Hb.
  pose proof (window_level s W) as Hl.
  pose proof (total_of_bits _ Hbits) as Ht.
  destruct (focusResults s) as [|x w] eqn:Hw.
  - rewrite Hl. cbn [List.length Nat.ltb Nat.leb app total bit].
    repeat split; try reflexivity; vm_compute; discriminate.
  - rewrite Hl. clear Hl.
    set (n := Z.of_nat (List.length (x :: w))) in *.
    set (t := total (x :: w)) in *.
    assert (Hn : (1 <= n <= 60)%Z) by (subst n; cbn [List.length] in *; lia).
    pose proof (every_level_sound _ level_next_to_level t n Ht Hn) as Htab.
    cbv beta in Htab. apply andb_prop in Htab as [Htab Hup].
    apply andb_prop in Htab as [Hgrow Hrefl].
    destruct (List.length (x :: w) <? 60) eqn:Hlt.
    + apply Nat.ltb_lt in Hlt.
      assert (Hn' : (n <? 60)%Z = true) by (apply Z.ltb_lt; subst n; lia).
      rewrite Hn' in Hgrow. apply andb_prop in Hgrow as [Hinc Hdec].
      assert (HN : forall b, Z.of_nat (List.length ((x :: w) ++ [b])) = (n + 1)%Z).
      { intros b. rewrite length_app. subst n. cbn [List.length]. lia. }
      rewrite !total_snoc, !HN. cbn [bit]. fold t. rewrite Z.add_0_r.
      split; [exact Hinc|]. split; [exact Hdec|]. split.
      * rewrite !warns_iff by lia. lia.
      * rewrite !warns_iff by lia. lia.
    + apply Nat.ltb_ge in Hlt. cbn [tl].
      assert (Hlen : n = 60%Z) by (subst n; lia).
      assert (Hw' : Z.of_nat (List.length (w ++ [1%Z])) = n
                    /\ Z.of_nat (List.length (w ++ [0%Z])) = n).
      { rewrite !length_app. subst n. cbn [List.length]. lia. }
      destruct Hw' as [Hw1 Hw0].
      rewrite !total_snoc. cbn [bit]. rewrite Hw1, Hw0, Z.add_0_r.
      inversion Hbits as [|x' w' Hx Hrest]; subst x' w'.
      pose proof (total_of_bits _ Hrest) as Htw.
      assert (Hlw : Z.of_nat (List.length w) = (n - 1)%Z)
        by (subst n; cbn [List.length]; lia).
      assert (Htx : t = (x + total w)%Z) by reflexivity.
      destruct Hx as [Hx|Hx]; subst x.
      * (* a 0 leaves the window *)
        replace (total w) with t by lia.
        assert (Hs : (t <? n)%Z = true) by (apply Z.ltb_lt; lia).
        rewrite Hs in Hup.
        split; [exact Hup|]. split; [exact Hrefl|]. split.
        -- rewrite !warns_iff by lia. lia.
        -- intros H. exact H.
      * (* a 1 leaves the window *)
        replace (total w + 1)%Z with t by lia.
        replace (total w) with (t - 1)%Z by lia.
        pose proof (every_level_sound _ level_next_to_level (t - 1) n) as Htab'.
        cbv beta in Htab'.
        assert (Hs : (t - 1 <? n)%Z = true) by (apply Z.ltb_lt; lia).
        rewrite Hs in Htab'. replace (t - 1 + 1)%Z with t in Htab' by lia.
        specialize (Htab' ltac:(lia) Hn).
        apply andb_prop in Htab' as [_ Hdown].
        split; [exact Hrefl|]. split; [exact Hdown|]. split.
        -- intros H. exact H.
        -- rewrite !warns_iff by lia. lia.
Qed.

(** X9. In every state the component can reach, a focused verdict does not
    lower the focus level and a distracted verdict does not raise it:
    a focused verdict never raises the warning and a distracted one never
    clears it. *)
Theorem verdicts_move_the_level_their_way (events : list Event) :
  let s := smoother (run events initialApp) in
  PrimFloat.leb (focusLevel s) (focusLevel (pushFocusResult true s)) = true
  /\ PrimFloat.leb (focusLevel (pushFocusResult false s)) (focusLevel s) = true
  /\ (focusWarningActive (focusLevel (pushFocusResult true s)) = true ->
      focusWarningActive (focusLevel s) = true)
  /\ (focusWarningActive (focusLevel s) = true ->
      focusWarningActive (focusLevel (pushFocusResult false s)) = true).
Proof.
  intros s. apply level_moves. subst s. apply run_Windowed.
  constructor; cbn; [constructor | lia | reflexivity].
Qed.
End ResponseProofs.

(** ** What the footer shows *)

Section FooterProofs.
Context {E : JsEngine}.

Lemma level_as_percentage :
  every_level (fun s n => PrimFloat.leb 0 (level s n * 100)
                          && PrimFloat.leb (level s n * 100) 100
                          && Bool.eqb (PrimFloat.leb 0.4 (level s n)) (4 * n <=? s * 10)%Z)
  = true.
Proof. vm_compute. reflexivity. Qed.

Lemma Windowed_display (s : Smoother) :
  Windowed s ->
  (focusMeterColor (focusLevel s) = "var(--success)"
   <-> focusWarningActive (focusLevel s) = false)
  /\ (focusMeterColor (focusLevel s) = "#ef4444" -> focusWarningActive (focusLevel s) = true)
  /\ PrimFloat.leb 0 (focusLevel s * 100) = true
  /\ PrimFloat.leb (focusLevel s * 100) 100 = true.
Proof.
  intros W. pose proof (window_level s W) as Hl.
  pose proof (total_of_bits _ (window_bits s W)) as Ht.
  pose proof (window_bound s W) as Hb.
  destruct (focusResults s) as [|x l] eqn:Hw.
  - rewrite Hl. vm_compute. repeat split; try reflexivity; discriminate.
  - rewrite Hl.
    assert (Hn : (1 <= Z.of_nat (List.length (x :: l)) <= 60)%Z)
      by (cbn [List.length] in *; lia).
    pose proof (every_level_sound _ level_as_percentage _ _ Ht Hn) as Hp.
    pose proof (every_level_sound _ level_below_or_not _ _ Ht Hn) as Hbelow.
    cbv beta in Hp, Hbelow. apply eqb_prop in Hbelow.
    apply andb_prop in Hp as [Hp _]. apply andb_prop in Hp as [Hp0 Hp100].
    unfold focusMeterColor, focusWarningActive. rewrite Hbelow.
    destruct (PrimFloat.leb 0.7 _); cbn [negb].
    + repeat split; try assumption; discriminate.
    + destruct (PrimFloat.leb 0.4 _); repeat split; try assumption; discriminate.
Qed.

(** X10. In every state the component can reach the focus meter is green
    exactly when the warning is off, and it is red only under the warning;
    the number the percentage is rounded from lies between 0 and 100. Right
    after a verdict is pushed the status text, with tracking on, reads
    Focused exactly when the meter is green. *)
Theorem footer_agrees_with_warning (events : list Event) :
  let s := smoother (run events initialApp) in
  (focusMeterColor (focusLevel s) = "var(--success)"
   <-> focusWarningActive (focusLevel s) = false)
  /\ (focusMeterColor (focusLevel s) = "#ef4444" -> focusWarningActive (focusLevel s) = true)
  /\ PrimFloat.leb 0 (focusLevel s * 100) = true
  /\ PrimFloat.leb (focusLevel s * 100) 100 = true
  /\ forall isFocused : bool,
      statusText true (currentState (pushFocusResult isFocused s)) = "Focused"
      <-> statusColor true (focusLevel (pushFocusResult isFocused s))
          = Some "var(--success)".
Proof.
  intros s.
  assert (W : Windowed s).
  { subst s. apply run_Windowed. constructor; cbn; [constructor | lia | reflexivity]. }
  destruct (Windowed_display s W) as (H1 & H2 & H3 & H4).
  repeat (split; [assumption|]).
  intros isFocused. unfold pushFocusResult, statusText, statusColor, focusMeterColor.
  cbn [currentState focusLevel negb].
  destruct (PrimFloat.leb 0.7 _); [split; reflexivity|].
  destruct (PrimFloat.leb 0.4 _); split; discriminate.
Qed.
End FooterProofs.

(** ** The countdown *)

Section CountdownProofs.
Context {E : JsEngine}.

Lemma all_from_sound (P : Z -> bool) (count : nat) (z : Z) :
  all_from count z P = true ->
  forall r, (z <= r < z + Z.of_nat count)%Z -> P r = true.
Proof.
  revert z. induction count as [|k IH]; intros z H r Hr; [lia|].
  cbn [all_from] in H. apply andb_prop in H as [Hz Hrest].
  destruct (Z.eq_dec r z) as [->|Hne]; [exact Hz|].
  apply (IH (z + 1)%Z Hrest). lia.
Qed.

Lemma tick_whole_seconds :
  all_from (Z.to_nat (longest_lesson + 1)) 0
           (fun r => PrimFloat.Leibniz.eqb (tick (number r)) (number (Z.max (r - 1) 0))
                     && Bool.eqb (PrimFloat.leb (number r) 0) (r =? 0)%Z)
  = true.
Proof. vm_compute. reflexivity. Qed.

Lemma tick_number (r : Z) :
  (0 <= r <= longest_lesson)%Z ->
  tick (number r) = number (Z.max (r - 1) 0)
  /\ PrimFloat.leb (number r) 0 = (r =? 0)%Z.
Proof.
  intros Hr.
  pose proof (all_from_sound _ _ _ tick_whole_seconds r) as H.
  cbv beta in H. rewrite Z2Nat.id in H by (unfold longest_lesson; lia).
  specialize (H ltac:(lia)). apply andb_prop in H as [H1 H2].
  apply FloatAxioms.Leibniz.eqb_spec in H1. apply eqb_prop in H2.
  split; assumption.
Qed.

Lemma countdown_number (a : App) (r : Z) :
  lessonStarted (session a) = true ->
  remainingSeconds (session a) = number r ->
  (0 <= r <= longest_lesson)%Z ->
  remainingSeconds (session (countdown a)) = number (Z.max (r - 1) 0)
  /\ lessonStarted (session (countdown a)) = true
  /\ sessionSummary (session (countdown a)) = sessionSummary (session a)
  /\ sessionTimeline (session (countdown a)) = sessionTimeline (session a)
  /\ smoother (countdown a) = smoother a
  /\ alerting (countdown a) = alerting a.
Proof.
  intros Hs Hrem Hr. destruct (tick_number r Hr) as [Ht Hz].
  unfold countdown. rewrite Hs, Hrem, Hz. cbn [negb orb].
  destruct (r =? 0)%Z eqn:H0.
  - apply Z.eqb_eq in H0. subst r. rewrite Hrem. repeat split; try assumption.
  - cbn [with_session session remainingSeconds lessonStarted sessionSummary
         sessionTimeline smoother alerting].
    rewrite Hrem, Ht. repeat split; assumption.
Qed.

(** X11. The countdown counts whole seconds down to zero and stops there:
    from [r] seconds, at most the 14400 of the longest lesson the form
    offers, [n] firings of its interval leave [max(r - n, 0)]. Reaching
    zero does not end the lesson: the firings change the remaining time
    and nothing else, no summary is written and the lesson stays started. *)
Theorem countdown_stops_at_zero (a : App) (r : Z) (n : nat) :
  lessonStarted (session a) = true ->
  remainingSeconds (session a) = number r ->
  (0 <= r <= longest_lesson)%Z ->
  let b := Nat.iter n countdown a in
  remainingSeconds (session b) = number (Z.max (r - Z.of_nat n) 0)
  /\ lessonStarted (session b) = true
  /\ sessionSummary (session b) = sessionSummary (session a)
  /\ sessionTimeline (session b) = sessionTimeline (session a)
  /\ smoother b = smoother a
  /\ alerting b = alerting a.
Proof.
  intros Hs Hrem Hr. induction n as [|n IH].
  - cbn. rewrite Hrem. replace (Z.max (r - 0) 0) with r by lia. repeat split; assumption.
  - cbv zeta in IH. destruct IH as (Hrem' & Hs' & Hsum & Htl & Hsm & Hal).
    destruct (countdown_number _ (Z.max (r - Z.of_nat n) 0) Hs' Hrem')
      as (H1 & H2 & H3 & H4 & H5 & H6); [lia|].
    cbv zeta. rewrite Nat.iter_succ, H1, H2, H3, H4, H5, H6.
    replace (Z.max (Z.max (r - Z.of_nat n) 0 - 1) 0) with (Z.max (r - Z.of_nat (S n)) 0)
      by lia.
    repeat split; assumption.
Qed.
End CountdownProofs.

(** ** Durations as text *)

Section DurationProofs.

Lemma digit_string_app (s t : string) :
  digit_string s = true -> digit_string t = true -> digit_string (s ++ t) = true.
Proof.
  induction s as [|c s IH]; cbn [digit_string String.append]; [auto|].
  destruct (JsObject.digit c); [exact IH|discriminate].
Qed.

Lemma uint_digits (d : Decimal.uint) : digit_string (NilEmpty.string_of_uint d) = true.
Proof. induction d; cbn; assumption || reflexivity. Qed.

Lemma decimal_digits (n : Z) : (0 <= n)%Z -> digit_string (decimal n) = true.
Proof.
  intros Hn. unfold decimal.
  destruct n as [|p|p]; [reflexivity| |lia].
  cbn [Z.to_int NilZero.string_of_int]. unfold NilZero.string_of_uint.
  destruct (Pos.to_uint p); try reflexivity; apply uint_digits.
Qed.

Lemma to_int_not_nil (n : Z) :
  Z.to_int n <> Decimal.Pos Decimal.Nil /\ Z.to_int n <> Decimal.Neg Decimal.Nil.
Proof.
  split; intros H; pose proof (f_equal Z.of_int H) as H';
    rewrite DecimalZ.of_to in H'; cbn in H'; subst n; discriminate H.
Qed.

Lemma decimal_inj (a b : Z) : decimal a = decimal b -> a = b.
Proof.
  unfold decimal. intros H.
  apply DecimalZ.to_int_inj.
  destruct (to_int_not_nil a) as [Ha1 Ha2]. destruct (to_int_not_nil b) as [Hb1 Hb2].
  pose proof (NilZero.isi _ Ha1 Ha2) as Ia. pose proof (NilZero.isi _ Hb1 Hb2) as Ib.
  rewrite H in Ia. congruence.
Qed.

(** Two numerals followed by the same character that is no digit. *)
Lemma numerals_apart (c : ascii) (x y r r' : string) :
  JsObject.digit c = None ->
  digit_string x = true -> digit_string y = true ->
  (x ++ String c r)%string = (y ++ String c r')%string -> x = y /\ r = r'.
Proof.
  intros Hc. revert y. induction x as [|a x IH]; intros [|b y] Hx Hy H;
    cbn [String.append digit_string] in *.
  - injection H as <-. split; reflexivity.
  - injection H as <- _. rewrite Hc in Hy. discriminate.
  - injection H as -> _. rewrite Hc in Hx. discriminate.
  - injection H as <- H.
    destruct (JsObject.digit a); [|discriminate].
    destruct (IH y Hx Hy H) as [-> ->]. split; reflexivity.
Qed.

(** X12. [formatDuration] shows a duration that is not negative as
    [<minutes>m <seconds>s] with less than 60 seconds, the two making up the
    duration, and it shows two such durations differently. Below zero the
    minutes are rounded down and the seconds keep the sign, so that, unless
    the duration is a whole number of minutes, the two make up the duration
    less one minute. *)
Theorem formatDuration_shows_the_duration :
  (forall t : Z,
      (0 <= t)%Z ->
      exists m s : Z,
        formatDuration t = (decimal m ++ "m " ++ decimal s ++ "s")%string
        /\ (0 <= m)%Z /\ (0 <= s < 60)%Z /\ (60 * m + s = t)%Z)
  /\ (forall a b : Z,
         (0 <= a)%Z -> (0 <= b)%Z -> formatDuration a = formatDuration b -> a = b)
  /\ (forall t : Z,
         (t < 0)%Z -> Z.rem t 60 <> 0%Z ->
         exists m s : Z,
           formatDuration t = (decimal m ++ "m " ++ decimal s ++ "s")%string
           /\ (m < 0)%Z /\ (-60 < s < 0)%Z /\ (60 * m + s = t - 60)%Z).
Proof.
  assert (Hparts : forall t, (0 <= t)%Z ->
            (0 <= t / 60)%Z /\ (0 <= Z.rem t 60 < 60)%Z /\ (60 * (t / 60) + Z.rem t 60 = t)%Z).
  { intros t Ht. rewrite Z.rem_mod_nonneg by lia.
    pose proof (Z.div_mod t 60). pose proof (Z.mod_pos_bound t 60).
    pose proof (Z.div_pos t 60). lia. }
  split; [|split].
  - intros t Ht. exists (t / 60)%Z, (Z.rem t 60). split; [reflexivity|]. apply Hparts, Ht.
  - intros a b Ha Hb H. unfold formatDuration in H. cbv zeta in H.
    destruct (Hparts a Ha) as (Ham & Has & Hae). destruct (Hparts b Hb) as (Hbm & Hbs & Hbe).
    cbn [String.append] in H.
    change (decimal (a / 60) ++ String "m" (String " " (decimal (Z.rem a 60) ++ "s"))
            = decimal (b / 60) ++ String "m" (String " " (decimal (Z.rem b 60) ++ "s")))%string
      in H.
    apply numerals_apart in H;
      [|reflexivity|apply decimal_digits; lia|apply decimal_digits; lia].
    destruct H as [Hm Hr]. injection Hr as Hr.
    apply (numerals_apart "s" _ _ "" "") in Hr;
      [|reflexivity|apply decimal_digits; lia|apply decimal_digits; lia].
    destruct Hr as [Hs _].
    apply decimal_inj in Hm, Hs. lia.
  - intros t Ht Hrem. exists (t / 60)%Z, (Z.rem t 60). split; [reflexivity|].
    pose proof (Z.rem_bound_pos_neg t 60 ltac:(lia) ltac:(lia)) as Hb.
    pose proof (Z.quot_rem' t 60) as Hq.
    pose proof (Z.div_mod t 60 ltac:(lia)) as Hd.
    pose proof (Z.mod_pos_bound t 60 ltac:(lia)) as Hm.
    lia.
Qed.
End DurationProofs.

(** ** Dragging the camera *)

Section DragProofs.
Import Camera.

(** *** The order of the doubles *)

Lemma SFcompare_opp (u v : spec_float) :
  SFcompare v u = option_map CompOpp (SFcompare u v).
Proof.
  destruct u as [s| s| |s m e], v as [s'| s'| |s' m' e']; cbn;
    try reflexivity; try (destruct s; reflexivity); try (destruct s'; reflexivity);
    try (destruct s, s'; reflexivity).
  destruct s, s'; try reflexivity; f_equal;
    rewrite (Z.compare_antisym e e'); destruct (e ?= e')%Z; cbn [CompOpp];
      try reflexivity.
  - f_equal. rewrite Pos.compare_cont_antisym. reflexivity.
  - rewrite Pos.compare_cont_antisym. reflexivity.
Qed.

Lemma not_nan (a : float) : PrimFloat.is_nan a = false -> Prim2SF a <> S754_nan.
Proof.
  unfold PrimFloat.is_nan. rewrite FloatAxioms.eqb_spec. unfold SFeqb. intros H Hn.
  rewrite Hn in H. discriminate.
Qed.

Lemma SFcompare_some (u v : spec_float) :
  u <> S754_nan -> v <> S754_nan -> exists c, SFcompare u v = Some c.
Proof.
  destruct u as [s| s| |s m e], v as [s'| s'| |s' m' e']; cbn; intros Hu Hv;
    try congruence; eexists; reflexivity.
Qed.

Lemma ltb_leb (a b : float) : PrimFloat.ltb a b = true -> PrimFloat.leb a b = true.
Proof.
  rewrite FloatAxioms.ltb_spec, FloatAxioms.leb_spec. unfold SFltb, SFleb.
  destruct (SFcompare _ _) as [[| |]|]; congruence.
Qed.

Lemma not_ltb_leb (a b : float) :
  PrimFloat.is_nan a = false -> PrimFloat.is_nan b = false ->
  PrimFloat.ltb a b = false -> PrimFloat.leb b a = true.
Proof.
  intros Ha Hb. rewrite FloatAxioms.ltb_spec, FloatAxioms.leb_spec. unfold SFltb, SFleb.
  rewrite (SFcompare_opp (Prim2SF a) (Prim2SF b)).
  destruct (SFcompare_some _ _ (not_nan a Ha) (not_nan b Hb)) as (c & ->).
  destruct c; cbn; congruence.
Qed.

Lemma leb_refl (a : float) : PrimFloat.is_nan a = false -> PrimFloat.leb a a = true.
Proof.
  unfold PrimFloat.is_nan. rewrite FloatAxioms.eqb_spec, FloatAxioms.leb_spec. unfold SFeqb, SFleb.
  destruct (SFcompare _ _) as [[| |]|]; cbn; congruence.
Qed.

(** *** The two bounds *)

Lemma Math_max_number (a b : float) :
  PrimFloat.is_nan (Math_max a b) = false ->
  PrimFloat.is_nan a = false /\ PrimFloat.is_nan b = false
  /\ PrimFloat.leb b (Math_max a b) = true.
Proof.
  unfold Math_max.
  destruct (PrimFloat.is_nan a) eqn:Ha; [cbn; discriminate|].
  destruct (PrimFloat.is_nan b) eqn:Hb; [cbn; discriminate|].
  cbn [orb]. intros _. split; [reflexivity|]. split; [reflexivity|].
  destruct (PrimFloat.ltb a b) eqn:Hab; [apply leb_refl; exact Hb|].
  destruct (PrimFloat.ltb b a) eqn:Hba; [apply ltb_leb; exact Hba|].
  destruct (is_negative_zero a); [apply leb_refl; exact Hb|].
  apply not_ltb_leb; assumption.
Qed.

Lemma Math_min_number (a b : float) :
  PrimFloat.is_nan (Math_min a b) = false ->
  PrimFloat.is_nan a = false /\ PrimFloat.is_nan b = false
  /\ PrimFloat.leb (Math_min a b) b = true
  /\ (Math_min a b = a \/ Math_min a b = b).
Proof.
  unfold Math_min.
  destruct (PrimFloat.is_nan a) eqn:Ha; [cbn; discriminate|].
  destruct (PrimFloat.is_nan b) eqn:Hb; [cbn; discriminate|].
  cbn [orb]. intros _. split; [reflexivity|]. split; [reflexivity|].
  destruct (PrimFloat.ltb a b) eqn:Hab; [split; [apply ltb_leb; exact Hab|left; reflexivity]|].
  destruct (PrimFloat.ltb b a) eqn:Hba; [split; [apply leb_refl; exact Hb|right; reflexivity]|].
  destruct (is_negative_zero a).
  - split; [apply not_ltb_leb; assumption|left; reflexivity].
  - split; [apply leb_refl; exact Hb|right; reflexivity].
Qed.

Lemma clamp_bounds (raw low high : float) :
  PrimFloat.is_nan (Math_min (Math_max raw low) high) = false ->
  PrimFloat.leb (Math_min (Math_max raw low) high) high = true
  /\ (PrimFloat.leb low high = true ->
      PrimFloat.leb low (Math_min (Math_max raw low) high) = true).
Proof.
  intros Hn. destruct (Math_min_number _ _ Hn) as (Hm & Hh & Hle & Hcases).
  destruct (Math_max_number _ _ Hm) as (_ & _ & Hlow).
  split; [exact Hle|]. intros Hroom.
  destruct Hcases as [-> | ->]; assumption.
Qed.

(** X13. While the camera is dragged inside the session view, [handleMove]
    never puts it further right than 200 pixels before the right edge of
    the view, nor further down than 140 pixels before its bottom edge, and,
    in a view that leaves the room (at least 216 by 156 pixels), never
    closer than 16 pixels to the left and the top edge; this for every
    position that is a number. Without a drag in progress or without a
    session view it leaves the position as it is. *)
Theorem dragged_camera_stays_in_view (drag : option Drag) (session : option Rect)
        (clientX clientY : float) (position : Point) :
  let next := handleMove drag session clientX clientY position in
  (drag = None \/ session = None -> next = position)
  /\ (forall bounds : Rect,
         drag <> None -> session = Some bounds ->
         (PrimFloat.is_nan (x next) = false ->
          PrimFloat.leb (x next) (width bounds - 200) = true
          /\ (PrimFloat.leb 16 (width bounds - 200) = true ->
              PrimFloat.leb 16 (x next) = true))
         /\ (PrimFloat.is_nan (y next) = false ->
             PrimFloat.leb (y next) (height bounds - 140) = true
             /\ (PrimFloat.leb 16 (height bounds - 140) = true ->
                 PrimFloat.leb 16 (y next) = true))).
Proof.
  intros next. split.
  - intros [-> | ->]; subst next; [reflexivity|].
    destruct drag; reflexivity.
  - intros bounds Hd ->. destruct drag as [d|]; [|congruence].
    subst next. cbn [handleMove x y]. split; apply clamp_bounds.
Qed.
End DragProofs.

(** ** The two revisions of the classifier *)

Section RevisionProofs.
Context {E : JsEngine}.

Lemma fewer_distractors (objs : list string) :
  existsb (fun item => array_includes distractedObjects item) objs
  = existsb (fun item => array_includes Rev1.distractedObjects item) objs
    || existsb (fun item => String.eqb item "book") objs.
Proof.
  induction objs as [|o objs IH]; [reflexivity|].
  cbn [existsb]. rewrite IH.
  unfold array_includes, distractedObjects, Rev1.distractedObjects. cbn [existsb].
  destruct (String.eqb o "phone"), (String.eqb o "cell phone"), (String.eqb o "tablet"),
    (String.eqb o "ipad"), (String.eqb o "book"); cbn [orb];
    rewrite ?orb_true_r; try reflexivity;
    destruct (existsb _ objs); reflexivity.
Qed.

Lemma cascades_agree (talk : JsVal) (st : string) (objs : list string)
      (leftEar hRatio vRatio : JsVal) :
  let old := Rev1.cascade st objs leftEar hRatio vRatio in
  let new := cascade initialVisionConfig talk st objs leftEar hRatio vRatio in
  (focused new = true -> String.eqb st "focused" = false -> focused old = true)
  /\ (existsb (fun item => String.eqb item "book") objs = false ->
      includes st "phone" || includes st "book" || includes st "no face" = false ->
      truthy talk && includes st "talking" = false ->
      String.eqb st "focused" = false ->
      new = old).
Proof.
  unfold Rev1.cascade, cascade. cbv zeta. rewrite fewer_distractors.
  cbn [earThreshold hMin hMax vMin vMax initialVisionConfig].
  destruct (existsb (fun item => array_includes Rev1.distractedObjects item) objs);
    cbn [orb]; [split; [discriminate|reflexivity]|].
  destruct (existsb (fun item => String.eqb item "book") objs);
    [split; [discriminate|discriminate]|].
  destruct (includes st "phone"); cbn [orb]; [split; discriminate|].
  destruct (includes st "book"); cbn [orb]; [split; discriminate|].
  destruct (truthy talk && includes st "talking"); [split; discriminate|].
  destruct (includes st "no face"); [split; discriminate|].
  destruct (match as_number leftEar with Some e => PrimFloat.ltb e 0.3 | None => false end);
    [split; [discriminate|reflexivity]|].
  destruct (String.eqb st "focused"); cbn [orb]; [split; discriminate|].
  destruct (String.eqb st "at screen"); [split; reflexivity|].
  destruct (match as_number hRatio, as_number vRatio with
            | Some h, Some v => _
            | _, _ => false
            end);
    (split; [cbn; congruence|reflexivity]).
Qed.

(** X14. The two revisions of [evaluateFocus], the second with the
    thresholds it starts with, on any parsed payload. They throw on the
    same payloads. The second revision is the stricter one but for the
    state "focused" it newly knows: when it finds a payload focused whose
    state is not "focused", so does the first. On a payload with no object
    "book", whose state mentions none of "phone", "book", "no face", nor
    "talking" when talking is included, and is not "focused", the two give
    the same verdict. *)
Theorem revisions_of_evaluateFocus (talk : JsVal) (visionData : JsVal) :
  (Rev1.evaluateFocus visionData = Throws
   <-> evaluateFocus initialVisionConfig talk visionData = Throws)
  /\ forall (st : string) (objs : list string),
      normalized_sample visionData = Returns (st, objs) ->
      exists old new : Verdict,
        Rev1.evaluateFocus visionData = Returns old
        /\ evaluateFocus initialVisionConfig talk visionData = Returns new
        /\ (focused new = true -> String.eqb st "focused" = false -> focused old = true)
        /\ (existsb (fun item => String.eqb item "book") objs = false ->
            includes st "phone" || includes st "book" || includes st "no face" = false ->
            truthy talk && includes st "talking" = false ->
            String.eqb st "focused" = false ->
            new = old).
Proof.
  unfold Rev1.evaluateFocus, evaluateFocus, normalized_sample. cbv zeta.
  destruct (ToString (or_else (field (or_else visionData (JObj [])) "state") (JStr "")))
    as [s|]; cbn [bind]; [|split; [split; reflexivity|discriminate]].
  destruct (array_map _ _) as [objs'|]; cbn [bind];
    [|split; [split; reflexivity|discriminate]].
  split; [split; discriminate|].
  intros st objs H. injection H as <- <-.
  eexists. eexists. split; [reflexivity|]. split; [reflexivity|].
  apply cascades_agree.
Qed.
End RevisionProofs.

(** ** The labels of the timeline *)

Section LabelProofs.
Context {E : JsEngine}.

Lemma record_transition_labelled (now : Z) (warn : bool) (reason : string) (s : Session) :
  Forall labelled (sessionTimeline s) ->
  Forall labelled (sessionTimeline (record_transition now warn reason s))
  /\ (sessionTimeline (record_transition now warn reason s) = sessionTimeline s
      \/ exists e,
          sessionTimeline (record_transition now warn reason s) = sessionTimeline s ++ [e]
          /\ (warn = true -> Entry.state e = Distracted
                             /\ Entry.label e = if is_empty reason then "distracted" else reason)
          /\ (warn = false -> Entry.state e = Focused /\ Entry.label e = "focused")).
Proof.
  intros Hl. unfold record_transition.
  destruct (sessionStartRef s) as [start|]; [|split; [exact Hl|left; reflexivity]].
  destruct (negb (lessonStarted s) || negb (ref_set (Some start)));
    [split; [exact Hl|left; reflexivity]|].
  destruct (warn && negb (ref_set (distractedStartRef s))) eqn:Hopen.
  - apply andb_prop in Hopen as [-> _]. cbn [distractedStartRef negb andb sessionTimeline].
    split.
    + apply Forall_app. split; [exact Hl|]. constructor; [|constructor].
      unfold labelled. cbn. destruct (is_empty reason) eqn:Hr; [reflexivity|exact Hr].
    + right. eexists. split; [reflexivity|]. split; [|discriminate].
      intros _. split; reflexivity.
  - destruct (distractedStartRef s) as [started|]; [|split; [exact Hl|left; reflexivity]].
    destruct (negb warn && ref_set (Some started)) eqn:Hclose;
      [|split; [exact Hl|left; reflexivity]].
    apply andb_prop in Hclose as [Hw _]. apply negb_true_iff in Hw. subst warn.
    cbn [sessionTimeline]. split.
    + apply Forall_app. split; [exact Hl|]. constructor; [|constructor]. reflexivity.
    + right. eexists. split; [reflexivity|]. split; [discriminate|].
      intros _. split; reflexivity.
Qed.

Lemma step_labelled (a : App) (e : Event) :
  Forall labelled (sessionTimeline (session a)) ->
  Forall labelled (sessionTimeline (session (step a e))).
Proof.
  intros Hl.
  assert (Hcommit : forall now b,
             Forall labelled (sessionTimeline (session b)) ->
             Forall labelled (sessionTimeline (session (commit now b)))).
  { intros now b Hb. rewrite commit_session.
    destruct (stale same_timeline_deps _ _); [|exact Hb].
    apply record_transition_labelled. exact Hb. }
  destruct e as [now|payload|now|now|now|text| |config|choice| | |];
    cbn [step]; try exact Hl.
  - apply Hcommit. exact Hl.
  - destruct (socket (vision a)) as [h|]; [|exact Hl].
    rewrite onmessage_session. exact Hl.
  - assert (Hstart : Forall labelled (sessionTimeline (session (startLesson now a)))).
    { unfold startLesson. destruct (is_empty _); [exact Hl|].
      destruct (_ || _); [exact Hl|]. constructor. }
    destruct (acceptable _); [apply Hcommit|]; exact Hstart.
  - apply Hcommit. unfold endLesson. cbn [with_session session].
    rewrite finish_timeline. exact Hl.
Qed.

(** X15. Every entry of the timeline has its text: a distracted entry
    carries the distractor reason of the render that opened the episode, or
    "distracted" when there was none, and a focused entry carries
    "focused", so that no pill of the timeline is empty. *)
Theorem timeline_entries_are_labelled (events : list Event) :
  let a := run events initialApp in
  Forall labelled (sessionTimeline (session a))
  /\ Forall (fun e => is_empty (pill e) = false) (sessionTimeline (session a))
  /\ forall (now : Z) (entry : Entry.t),
      sessionTimeline (session (step a (Render now)))
      = sessionTimeline (session a) ++ [entry] ->
      match Entry.state entry with
      | Distracted =>
          Entry.label entry
          = if is_empty (distractorReason (vision a)) then "distracted"
            else distractorReason (vision a)
      | Focused => Entry.label entry = "focused"
      end.
Proof.
  intros a.
  assert (Hl : Forall labelled (sessionTimeline (session a))).
  { subst a. induction events as [|e events IH] using rev_ind; [constructor|].
    rewrite run_snoc. apply step_labelled. exact IH. }
  split; [exact Hl|]. split.
  - eapply Forall_impl; [|exact Hl]. intros e He. unfold labelled, pill in *.
    destruct (Entry.state e); [rewrite He; reflexivity|rewrite He; exact He].
  - intros now entry Happ. cbn [step] in Happ. rewrite commit_session in Happ.
    destruct (stale same_timeline_deps _ _).
    + destruct (record_transition_labelled now (warning a) (distractorReason (vision a))
                  (session a) Hl) as [_ [Hsame | (e & He & Hw & Hf)]].
      * rewrite Hsame in Happ. apply (f_equal (@List.length _)) in Happ.
        rewrite length_app in Happ. cbn in Happ. lia.
      * rewrite He in Happ. apply app_inj_tail in Happ. destruct Happ as [_ <-].
        destruct (warning a).
        -- destruct (Hw eq_refl) as [-> ->]. reflexivity.
        -- destruct (Hf eq_refl) as [-> ->]. reflexivity.
    + apply (f_equal (@List.length _)) in Happ.
      rewrite length_app in Happ. cbn in Happ. lia.
Qed.
End LabelProofs.

(** ** A frame the classifier throws on *)

Section ThrowProofs.
Context {E : JsEngine}.

(** X16. What [socket.onmessage] did before a throw stays done. When the
    state label of a frame cannot be converted to a string the frame
    changes nothing. When the label is a string but [evaluateFocus] throws,
    as on a frame whose [objects] is no array, no verdict is pushed, and
    yet the label is shown, is appended to the recent labels and the echoed
    config is adopted. A frame never touches the lesson or the alerts. *)
Theorem frame_the_classifier_throws_on (h : Handler) (payload : JsVal) (a : App) :
  let a' := onmessage h payload a in
  (session a' = session a /\ alerting a' = alerting a)
  /\ (truthy (field payload "state") = true ->
      ToString (field payload "state") = Throws -> a' = a)
  /\ (forall label : string,
         field payload "state" = JStr label ->
         is_empty label = false ->
         evaluateFocus (heardConfig h) (heardIncludeTalking h) payload = Throws ->
         smoother a' = smoother a
         /\ recentStatesRef (vision a')
            = slice_last 60 (recentStatesRef (vision a) ++ [JStr label])
         /\ visionState (vision a')
            = (if negb (truthy (heardIncludeTalking h))
                  && includes (toLowerCase label) "talking"
               then "Focused" else label)
         /\ backendConfig (vision a')
            = (if truthy (field payload "config") then field payload "config"
               else backendConfig (vision a))).
Proof.
  intros a'. split; [|split].
  - subst a'. split; [apply onmessage_session|apply onmessage_alerting].
  - intros Ht Hthrow. subst a'. unfold onmessage. rewrite Ht, Hthrow. reflexivity.
  - intros label Hstate Hne Hthrow. subst a'. unfold onmessage.
    rewrite Hstate, Hthrow. cbn [truthy]. rewrite Hne. cbn [negb ToString].
    destruct (computeMostCommonDistractor _ _); repeat split; reflexivity.
Qed.
End ThrowProofs.

(** ** The simulated samples of the first revision *)

Section SimulationProofs.
Context {E : JsEngine}.
Import Simulated.

(** X17. The simulation of the first revision pushes a verdict for every
    sample it makes up, and the verdict is decided by the draws alone.
    When the first draw is below 0.7 the sample takes three draws and is
    focused unless the draw for the eyes is above 0.95 or the draw for the
    phone above 0.97. Otherwise it takes six draws and is focused exactly
    when neither of these two happens and both drawn ratios are centered:
    the states "left", "right" and "down" it then carries do not count
    against it. *)
Theorem simulated_verdict (draws : nat -> float) (taken : nat) (s : Smoother) :
  exists result : Verdict,
    Rev1.evaluateFocus (fst (sample draws taken)) = Returns result
    /\ interval draws taken s
       = (pushFocusResult (focused result) s, snd (sample draws taken))
    /\ (PrimFloat.ltb (draws taken) 0.7 = true ->
        snd (sample draws taken) = taken + 3
        /\ focused result
           = negb (PrimFloat.ltb 0.95 (draws (taken + 1)))
             && negb (PrimFloat.ltb 0.97 (draws (taken + 2))))
    /\ (PrimFloat.ltb (draws taken) 0.7 = false ->
        snd (sample draws taken) = taken + 6
        /\ focused result
           = negb (PrimFloat.ltb 0.95 (draws (taken + 3)))
             && negb (PrimFloat.ltb 0.97 (draws (taken + 5)))
             && centered_ratios (0.2 + draws (taken + 1) * 0.6)
                                (0.2 + draws (taken + 2) * 0.6)).
Proof.
  unfold interval, sample, random.
  replace (taken + 1) with (S taken) by lia.
  replace (taken + 2) with (S (S taken)) by lia.
  replace (taken + 3) with (S (S (S taken))) by lia.
  replace (taken + 5) with (S (S (S (S (S taken))))) by lia.
  replace (taken + 6) with (S (S (S (S (S (S taken)))))) by lia.
  destruct (PrimFloat.ltb (draws taken) 0.7) eqn:Hbias.
  - destruct (PrimFloat.ltb 0.95 (draws (S taken)));
      destruct (PrimFloat.ltb 0.97 (draws (S (S taken))));
      eexists; (split; [vm_compute; reflexivity|]);
      (split; [reflexivity|]); (split; [split; reflexivity | discriminate]).
  - unfold nth_state.
    destruct (_ && _); [|destruct (_ && _); [|destruct (_ && _)]];
      destruct (PrimFloat.ltb 0.95 (draws (S (S (S taken)))));
      destruct (PrimFloat.ltb 0.97 (draws (S (S (S (S (S taken)))))));
      cbn [fst snd];
      eexists; (split; [vm_compute; reflexivity|]); (split; [reflexivity|]);
      (split; [discriminate | split; [reflexivity|]]);
      unfold centered_ratios; vm_compute;
      repeat match goal with
             | |- context [PrimFloat.leb ?u ?w] => destruct (PrimFloat.leb u w)
             end; reflexivity.
Qed.
End SimulationProofs.

(** ** No alert without a warning *)

Section QuietProofs.
Context {E : JsEngine}.

Lemma commit_alert_memo (now : Z) (a : App) :
  alert_memo (commit now a) (warning a) (lessonStarted (session a)).
Proof.
  unfold alert_memo. rewrite commit_alertDeps.
  destruct (stale same_alert_deps (alertDeps (memo a)) (alert_deps a)) eqn:Hs.
  - unfold alert_deps. repeat eexists.
  - exact (fresh_alert_deps a Hs).
Qed.

Lemma no_timer_no_alert (a : App) :
  alertTimeoutRef (alerting a) = None -> forall e, fired a e = [].
Proof.
  intros Hn e. destruct e; try reflexivity. cbn [fired]. rewrite Hn. reflexivity.
Qed.

(** X18. No alert is queued without a warning or outside a lesson. In
    every state the component can reach with no lesson started no timer of
    the alert effect is pending; and after a render that sees no warning
    none is pending either, whatever was armed before: until the next
    render no event queues an alert. *)
Theorem no_alert_without_warning (events : list Event) :
  forallb clocked events = true ->
  let a := run events initialApp in
  (lessonStarted (session a) = false ->
   alertTimeoutRef (alerting a) = None /\ forall e, fired a e = [])
  /\ (forall now : Z,
         (0 < now)%Z -> warning a = false ->
         alertTimeoutRef (alerting (step a (Render now))) = None
         /\ forall e, fired (step a (Render now)) e = []).
Proof.
  intros Hc a.
  assert (I : Inv a) by (apply Inv_run; [exact Hc|exact Inv_initial]).
  split.
  - intros Hoff.
    assert (Hn : alertTimeoutRef (alerting a) = None).
    { destruct (alertTimeoutRef (alerting a)) as [t|] eqn:Ht; [|reflexivity].
      destruct (inv_pending a I t Ht) as (_ & Hm & _).
      pose proof (inv_alert_started a I _ _ Hm). congruence. }
    split; [exact Hn|apply no_timer_no_alert; exact Hn].
  - intros now Hnow Hw.
    assert (I' : Inv (step a (Render now))).
    { apply Inv_step; [cbn; apply Z.ltb_lt; exact Hnow|exact I]. }
    assert (Hn : alertTimeoutRef (alerting (step a (Render now))) = None).
    { destruct (alertTimeoutRef (alerting (step a (Render now)))) as [t|] eqn:Ht;
        [|reflexivity].
      destruct (inv_pending _ I' t Ht) as (_ & Hm & _).
      pose proof (commit_alert_memo now a) as Hm'.
      destruct (alert_memo_unique _ _ _ _ _ Hm Hm') as [Hwarn _]. congruence. }
    split; [exact Hn|apply no_timer_no_alert; exact Hn].
Qed.
End QuietProofs.

(** ** The alert that is pending *)

Section PendingProofs.
Context {E : JsEngine}.

Lemma same_value_truthy (u v : JsVal) : same_value u v = true -> truthy u = truthy v.
Proof.
  destruct u, v; cbn [same_value truthy]; try discriminate; try reflexivity.
  - intros H. apply eqb_prop in H. exact H.
  - intros H. apply FloatAxioms.Leibniz.eqb_spec in H. subst. reflexivity.
  - intros H. apply String.eqb_eq in H. subst. reflexivity.
Qed.

Lemma schedule_timer (now : Z) (started warn : bool) (ds : option Z) (reason state : string)
      (talk : JsVal) (al : Alerts) (t : AlertTimer) :
  alertTimeoutRef al = None ->
  alertTimeoutRef (schedule now started warn ds reason state talk al) = Some t ->
  seen_deps t = (warn, started, reason, state, characterChoice al, talk).
Proof.
  intros Hn. unfold schedule.
  destruct started; cbn [negb]; [|congruence].
  destruct warn; cbn [negb]; [|cbn; discriminate].
  destruct (alertQueuedRef al); [congruence|].
  cbn [set_timer alertTimeoutRef]. intros H. injection H as <-. reflexivity.
Qed.

Lemma commit_timer_of_last_run (now : Z) (a : App) :
  timer_of_last_run a -> timer_of_last_run (commit now a).
Proof.
  intros K t. rewrite commit_alertDeps.
  destruct (commit_refs now a) as [Ht _]. rewrite Ht. unfold rescheduled.
  destruct (stale same_alert_deps (alertDeps (memo a)) (alert_deps a)).
  - intros H. apply schedule_timer in H; [|reflexivity].
    rewrite H. reflexivity.
  - apply K.
Qed.

Lemma step_timer_of_last_run (a : App) (e : Event) :
  timer_of_last_run a -> timer_of_last_run (step a e).
Proof.
  intros K.
  destruct e as [now|payload|now|now|now|text| |config|choice| | |];
    cbn [step]; try exact K.
  - apply commit_timer_of_last_run. exact K.
  - destruct (socket (vision a)) as [h|]; [|exact K].
    intros t. rewrite onmessage_alerting.
    assert (Hm : memo (onmessage h payload a) = memo a).
    { unfold onmessage.
      repeat match goal with
             | |- context [match ?x with Returns _ => _ | Throws => _ end] => destruct x
             end; reflexivity. }
    rewrite Hm. apply K.
  - intros t. unfold alertTimeout, fire. cbn [with_alerting alerting memo].
    destruct (alertTimeoutRef (alerting a)) as [t0|] eqn:Ht0; [|rewrite Ht0; discriminate].
    destruct (due t0 <=? now)%Z; [|rewrite Ht0; intros H; injection H as <-; apply K, Ht0].
    destruct (alert_of _ t0); cbn; discriminate.
  - destruct (acceptable _).
    + apply commit_timer_of_last_run. intros t.
      rewrite startLesson_alerting, startLesson_memo. apply K.
    + intros t. rewrite startLesson_alerting, startLesson_memo. apply K.
  - apply commit_timer_of_last_run. exact K.
Qed.

(** X19. The alert that is pending after a render is the one for what the
    component shows then: its timer has seen the distractor reason, the
    vision state, the character and the talking switch of that render, so
    the video it queues when it fires next is the one of the current
    character for the current reason, also after the reason, the state or
    the character changed during the episode. *)
Theorem pending_alert_is_up_to_date (events : list Event) (now : Z) (t : AlertTimer) :
  let a := run (events ++ [Render now]) initialApp in
  alertTimeoutRef (alerting a) = Some t ->
  seenReason t = distractorReason (vision a)
  /\ seenVisionState t = visionState (vision a)
  /\ seenCharacter t = characterChoice (alerting a)
  /\ truthy (seenIncludeTalking t) = truthy (talking a)
  /\ alert_of false t
     = alert_of false {| due := due t;
                         seenWarning := seenWarning t;
                         seenReason := distractorReason (vision a);
                         seenVisionState := visionState (vision a);
                         seenCharacter := characterChoice (alerting a);
                         seenIncludeTalking := talking a |}.
Proof.
  intros a Ht.
  set (a0 := run events initialApp).
  assert (Ha : a = commit now a0) by (subst a a0; rewrite run_snoc; reflexivity).
  assert (K0 : timer_of_last_run a0).
  { subst a0. clear. induction events as [|e events IH] using rev_ind.
    - intros t. cbn. discriminate.
    - rewrite run_snoc. apply step_timer_of_last_run. exact IH. }
  pose proof (commit_timer_of_last_run now a0 K0) as K. rewrite <- Ha in K.
  specialize (K t Ht).
  assert (Hv : distractorReason (vision a) = distractorReason (vision a0)
               /\ visionState (vision a) = visionState (vision a0)
               /\ talking a = talking a0).
  { rewrite Ha. unfold talking. rewrite commit_vision.
    destruct (stale Bool.eqb _ _); repeat split; reflexivity. }
  destruct Hv as (Hr & Hs & Htalk).
  assert (Hc : characterChoice (alerting a) = characterChoice (alerting a0)).
  { rewrite Ha, commit_alerting. unfold rescheduled, schedule, play_next.
    repeat match goal with
           | |- context [if ?c then _ else _] => destruct c
           | |- context [match ?l with [] => _ | _ :: _ => _ end] => destruct l
           end; reflexivity. }
  assert (Hseen : seenReason t = distractorReason (vision a0)
                  /\ seenVisionState t = visionState (vision a0)
                  /\ seenCharacter t = characterChoice (alerting a0)
                  /\ truthy (seenIncludeTalking t) = truthy (talking a0)).
  { rewrite Ha, commit_alertDeps in K.
    destruct (stale same_alert_deps (alertDeps (memo a0)) (alert_deps a0)) eqn:Hst.
    - injection K as _ _ <- <- <- <-. repeat split; reflexivity.
    - unfold stale in Hst. rewrite K in Hst. apply negb_false_iff in Hst.
      unfold same_alert_deps, seen_deps, alert_deps in Hst.
      repeat (apply andb_prop in Hst; destruct Hst as [Hst ?]).
      repeat match goal with
             | H : String.eqb _ _ = true |- _ => apply String.eqb_eq in H
             | H : same_value _ _ = true |- _ => apply same_value_truthy in H
             end.
      repeat split; assumption. }
  destruct Hseen as (H1 & H2 & H3 & H4).
  rewrite Hr, Hs, Hc, Htalk.
  repeat (split; [assumption|]).
  unfold alert_of. cbn [seenWarning seenReason seenVisionState seenCharacter
                        seenIncludeTalking].
  rewrite H1, H2, H3. unfold alertKeyForState. rewrite H4. reflexivity.
Qed.
End PendingProofs.


(* ================================================================== *)
(** * Part III. The properties on sample runs                          *)
(* ================================================================== *)

#[local] Existing Instance ExampleEngine.engine.

(** ** The classifier *)

Lemma evaluateFocus_rule_order_witness :
  objects Sample.with_phone = Some ["Cell Phone"]
  /\ In "Cell Phone" ["Cell Phone"]
  /\ In (JsString.toLowerCase "Cell Phone") distractedObjects
  /\ state Sample.with_phone = Some "at screen"
  /\ evaluateFocus initialVisionConfig (JBool true) (sample_to_js Sample.with_phone)
     = Returns {| focused := false; reason := distractor |}.
Proof.
  assert (Ho : objects Sample.with_phone = Some ["Cell Phone"]) by reflexivity.
  assert (Hin : In "Cell Phone" ["Cell Phone"]) by (left; reflexivity).
  assert (Hd : In (JsString.toLowerCase "Cell Phone") distractedObjects)
    by (right; left; reflexivity).
  assert (Hs : state Sample.with_phone = Some "at screen") by reflexivity.
  refine (conj Ho (conj Hin (conj Hd (conj Hs _)))).
  exact (proj2 evaluateFocus_rule_order initialVisionConfig (JBool true)
               Sample.with_phone ["Cell Phone"] "Cell Phone" Ho Hin Hd Hs).
Defined.

Lemma evaluateFocus_total_witness :
  Spec.sample_shaped (JObj [("state", JStr "dancing"); ("left_ear", JStr "n/a")]) = true
  /\ exists verdict : Verdict,
      evaluateFocus initialVisionConfig (JBool true)
                    (JObj [("state", JStr "dancing"); ("left_ear", JStr "n/a")])
      = Returns verdict
      /\ reason verdict <> eyes_closed.
Proof.
  assert (Hs : Spec.sample_shaped
                 (JObj [("state", JStr "dancing"); ("left_ear", JStr "n/a")]) = true)
    by reflexivity.
  split; [exact Hs|].
  destruct (evaluateFocus_total initialVisionConfig (JBool true) _ Hs)
    as (verdict & Hv & _ & Hear & _).
  exists verdict. split; [exact Hv|]. apply Hear. reflexivity.
Defined.

(** ** The session controller *)

Lemma startLesson_rejects_witness :
  JsString.is_empty
    (JsString.trim (lessonMinutes (session (step initialApp (TypeMinutes "  "))))) = true
  /\ startLesson 1000 (step initialApp (TypeMinutes "  ")) = step initialApp (TypeMinutes "  ")
  /\ step (step initialApp (TypeMinutes "  ")) (Submit 1000)
     = step initialApp (TypeMinutes "  ").
Proof.
  assert (Hb : JsString.is_empty
                 (JsString.trim
                    (lessonMinutes (session (step initialApp (TypeMinutes "  "))))) = true)
    by reflexivity.
  split; [exact Hb|].
  exact (startLesson_rejects 1000 (step initialApp (TypeMinutes "  ")) (or_introl Hb)).
Defined.

Lemma summary_adds_up_witness :
  sessionStartRef (session (run Sample.two_episodes initialApp)) = Some 1000%Z
  /\ 1000%Z <> 0%Z
  /\ exists s : SessionSummary,
      sessionSummary (session (endLesson 9000 (run Sample.two_episodes initialApp)))
      = Some s
      /\ (1 <= totalSeconds s)%Z
      /\ focusedSeconds s = Z.max (totalSeconds s - distractedSeconds s) 0.
Proof.
  assert (Hs : sessionStartRef (session (run Sample.two_episodes initialApp))
               = Some 1000%Z) by (vm_compute; reflexivity).
  assert (Hz : 1000%Z <> 0%Z) by discriminate.
  refine (conj Hs (conj Hz _)).
  destruct (summary_adds_up_when_within_total
              9000 (run Sample.two_episodes initialApp) 1000 Hs Hz)
    as (s & Hsum & _ & Hone & Hfocused & _).
  exists s. auto.
Defined.

(** The short lesson: three seconds in all, two episodes of two rounded
    seconds each, and no focused second. *)
Lemma summary_exceeds_total :
  exists s : SessionSummary,
    sessionSummary (session (run Sample.short_lesson initialApp)) = Some s
    /\ totalSeconds s = 3%Z
    /\ distractedSeconds s = 4%Z
    /\ focusedSeconds s = 0%Z
    /\ (focusedSeconds s + distractedSeconds s)%Z <> totalSeconds s.
Proof.
  eexists. split; [vm_compute; reflexivity|].
  cbn [totalSeconds distractedSeconds focusedSeconds].
  repeat split. discriminate.
Qed.

(** ** The timeline and the alerts *)



(** ** The resolver *)



(** A label that names a member of [Object.prototype] is never counted. *)
Lemma inherited_label_is_skipped :
  computeMostCommonDistractor [JStr "constructor"; JStr "constructor"; JStr "x"]
                              (JBool true)
  = Returns "x"
  /\ ResolverSpec.most_frequent true ["constructor"; "constructor"; "x"]
     = Some "constructor".
Proof. vm_compute. split; reflexivity. Qed.

(** ** The remote echo and the handler *)

(** The handler of a socket is the one installed by the render that opened
    the socket: a message is handled with the values of that render. *)
Lemma message_uses_installed_handler (a : App) (h : Handler) (payload : JsVal) :
  socket (vision a) = Some h ->
  step a (Message payload) = onmessage h payload a.
Proof. intros H. cbn [step]. rewrite H. reflexivity. Qed.

(** C7, on a run. The first frame echoes a config with [include_talking]
    false, and the render after it computes the effective value false. The
    handler still holds the value of the render that opened the socket, the
    local true: the next frame, a centered face with the state "talking",
    is classified as not focused, where the remote value gives focused. *)
Theorem include_talking_is_stale :
  let a := run Sample.echoed initialApp in
  field (backendConfig (vision a)) "include_talking" = JBool false
  /\ includeTalking (visionConfig (vision a)) = true
  /\ talking a = JBool false
  /\ option_map heardIncludeTalking (socket (vision a)) = Some (JBool true)
  /\ evaluateFocus (visionConfig (vision a)) (talking a) Sample.talker
     = Returns {| focused := true; reason := centered |}
  /\ evaluateFocus (visionConfig (vision a)) (JBool true) Sample.talker
     = Returns {| focused := false; reason := audio |}
  /\ focusResults (smoother a) = [1%Z]
  /\ focusResults (smoother (step a (Message Sample.talker))) = [1%Z; 0%Z]
  /\ visionState (vision (step a (Message Sample.talker))) = "talking".
Proof. vm_compute. repeat split; reflexivity. Qed.

(** ** The rest of the component, on sample inputs *)

Lemma resolver_answers_witness :
  computeMostCommonDistractor [JStr "5"; JStr "Talking"; JStr "constructor"; JStr "x"]
                              (JBool false)
  = Returns "5"
  /\ ("5" = ""
      \/ exists st normalized,
          In st [JStr "5"; JStr "Talking"; JStr "constructor"; JStr "x"]
          /\ ToString st = Returns "5"
          /\ normalizeState st = Returns normalized
          /\ JsString.is_empty normalized = false
          /\ isFocusedState normalized = false
          /\ (truthy (JBool false) = false -> JsString.includes normalized "talking" = false)).
Proof.
  assert (H : computeMostCommonDistractor
                [JStr "5"; JStr "Talking"; JStr "constructor"; JStr "x"] (JBool false)
              = Returns "5") by (vm_compute; reflexivity).
  split; [exact H|].
  exact (proj1 (resolver_answers_with_a_candidate _ _) "5" H).
Defined.

Lemma every_alert_key_witness :
  exists key : string,
    alertKeyForState (JBool true) "Looking LEFT" = Returns key
    /\ In key [""; "side"; "up"; "phone"; "talking"].
Proof.
  destruct (every_alert_key_has_a_video (JBool true) "Looking LEFT")
    as (key & Hk & Hin & _).
  exists key. split; assumption.
Defined.

Lemma alerts_play_in_order_witness :
  AlertEnded <> Render 7000
  /\ JsString.is_empty
       (activeAlert (alerting (run (Sample.drifting ++ Render 1100%Z :: Sample.ongoing)
                                   initialApp))) = false
  /\ activeAlert
       (alerting (step (run (Sample.drifting ++ Render 1100%Z :: Sample.ongoing) initialApp)
                       (Render 7000)))
     = "/videos/cop/Cop-side.mp4"
  /\ ended_during [AlertEnded]
                  (run (Sample.drifting ++ Render 1100%Z :: Sample.ongoing) initialApp)
     = ["/videos/cop/Cop-side.mp4"].
Proof.
  assert (Hne : Render 7000 <> AlertEnded) by discriminate.
  assert (Hp : JsString.is_empty
                 (activeAlert
                    (alerting (run (Sample.drifting ++ Render 1100%Z :: Sample.ongoing)
                                   initialApp))) = false)
    by (vm_compute; reflexivity).
  split; [discriminate|]. split; [exact Hp|]. split.
  - rewrite (proj2 (alerts_play_in_order
                      (Sample.drifting ++ Render 1100%Z :: Sample.ongoing) [])
                   (Render 7000) Hne Hp).
    vm_compute. reflexivity.
  - vm_compute. reflexivity.
Defined.

Lemma alerts_count_witness :
  forallb clocked Sample.two_episodes = true
  /\ lessonStarted (session (run Sample.two_episodes initialApp)) = true
  /\ exists s : SessionSummary,
      sessionSummary (session (step (run Sample.two_episodes initialApp) (End 4001)))
      = Some s
      /\ alerts s = 2%Z.
Proof.
  assert (Hc : forallb clocked Sample.two_episodes = true) by reflexivity.
  assert (Hs : lessonStarted (session (run Sample.two_episodes initialApp)) = true)
    by (vm_compute; reflexivity).
  refine (conj Hc (conj Hs _)).
  destruct (alerts_count_the_episodes Sample.two_episodes 4001 Hc Hs)
    as (s & Hsum & Hcount & _).
  exists s. split; [exact Hsum|]. rewrite Hcount. vm_compute. reflexivity.
Defined.

Lemma endLesson_again_witness :
  exists r r' : SessionSummary,
    sessionSummary (session (endLesson 4001 (run Sample.two_episodes initialApp))) = Some r
    /\ ref_set (sessionStartRef (session (run Sample.two_episodes initialApp))) = true
    /\ sessionSummary
         (session (endLesson 9000 (endLesson 4001 (run Sample.two_episodes initialApp))))
       = Some r'
    /\ distractedSeconds r' = distractedSeconds r
    /\ alerts r' = alerts r.
Proof.
  eexists. eexists.
  assert (Hr : sessionSummary
                 (session (endLesson 4001 (run Sample.two_episodes initialApp)))
               = Some {| totalSeconds := 3; distractedSeconds := 4;
                         focusedSeconds := 0; alerts := 2 |})
    by (vm_compute; reflexivity).
  assert (Hset : ref_set (sessionStartRef (session (run Sample.two_episodes initialApp)))
                 = true) by (vm_compute; reflexivity).
  assert (Hr' : sessionSummary
                  (session (endLesson 9000
                              (endLesson 4001 (run Sample.two_episodes initialApp))))
                = Some {| totalSeconds := 8; distractedSeconds := 4;
                          focusedSeconds := 4; alerts := 2 |})
    by (vm_compute; reflexivity).
  refine (conj Hr (conj Hset (conj Hr' _))).
  exact (proj2 (proj2 (endLesson_again 4001 9000 (run Sample.two_episodes initialApp)))
               _ _ Hr Hset Hr').
Defined.

Lemma timeline_is_chronological_witness :
  chronological 0 Sample.two_episodes = true
  /\ nondecreasing
       (map Entry.elapsedSeconds
            (sessionTimeline (session (run Sample.two_episodes initialApp)))) = true
  /\ map Entry.elapsedSeconds
         (sessionTimeline (session (run Sample.two_episodes initialApp)))
     = [0; 2; 2]%Z.
Proof.
  assert (Hc : chronological 0 Sample.two_episodes = true) by reflexivity.
  refine (conj Hc (conj _ _)).
  - exact (proj1 (timeline_is_chronological Sample.two_episodes 0 Hc)).
  - vm_compute. reflexivity.
Defined.

Lemma backend_config_is_kept_witness :
  truthy (backendConfig (vision (run Sample.echoed initialApp))) = true
  /\ truthy (backendConfig
               (vision (run [SocketClosed; ToggleTracking; Render 700; Submit 800; End 900]%Z
                            (run Sample.echoed initialApp)))) = true.
Proof.
  assert (H : truthy (backendConfig (vision (run Sample.echoed initialApp))) = true)
    by (vm_compute; reflexivity).
  split; [exact H|].
  exact (proj1 (proj2 (backend_config_is_kept (run Sample.echoed initialApp))) _ H).
Defined.

Lemma socket_is_not_reopened_witness :
  socketDeps (memo (run [Render 500; SocketClosed]%Z initialApp))
  = Some (trackingEnabled (vision (run [Render 500; SocketClosed]%Z initialApp)))
  /\ socket (vision (run [Render 500; SocketClosed]%Z initialApp)) = None
  /\ Forall (fun e => e <> ToggleTracking) [Render 600; Message Sample.away; Render 700]%Z
  /\ socket (vision (run [Render 600; Message Sample.away; Render 700]%Z
                         (run [Render 500; SocketClosed]%Z initialApp))) = None.
Proof.
  assert (Hd : socketDeps (memo (run [Render 500; SocketClosed]%Z initialApp))
               = Some (trackingEnabled (vision (run [Render 500; SocketClosed]%Z initialApp))))
    by (vm_compute; reflexivity).
  assert (Hs : socket (vision (run [Render 500; SocketClosed]%Z initialApp)) = None)
    by (vm_compute; reflexivity).
  assert (Hev : Forall (fun e => e <> ToggleTracking)
                       [Render 600; Message Sample.away; Render 700]%Z)
    by (repeat constructor; discriminate).
  refine (conj Hd (conj Hs (conj Hev _))).
  exact (proj1 (socket_is_not_reopened _ _ Hd Hs Hev)).
Defined.

Lemma verdicts_move_the_level_witness :
  focusWarningActive (focusLevel (smoother (run Sample.drifting initialApp))) = true
  /\ focusWarningActive
       (focusLevel (pushFocusResult false (smoother (run Sample.drifting initialApp))))
     = true.
Proof.
  assert (H : focusWarningActive (focusLevel (smoother (run Sample.drifting initialApp)))
              = true) by (vm_compute; reflexivity).
  split; [exact H|].
  exact (proj2 (proj2 (proj2 (verdicts_move_the_level_their_way Sample.drifting))) H).
Defined.

Lemma footer_agrees_witness :
  focusMeterColor (focusLevel (smoother (run Sample.drifting initialApp))) = "#ef4444"
  /\ focusWarningActive (focusLevel (smoother (run Sample.drifting initialApp))) = true.
Proof.
  assert (H : focusMeterColor (focusLevel (smoother (run Sample.drifting initialApp)))
              = "#ef4444") by (vm_compute; reflexivity).
  split; [exact H|].
  exact (proj1 (proj2 (footer_agrees_with_warning Sample.drifting)) H).
Defined.

Lemma countdown_stops_witness :
  lessonStarted (session (run [Submit 1000%Z] (step initialApp (TypeMinutes "1")))) = true
  /\ remainingSeconds (session (run [Submit 1000%Z] (step initialApp (TypeMinutes "1"))))
     = number 60
  /\ (0 <= 60 <= longest_lesson)%Z
  /\ remainingSeconds
       (session (Nat.iter 75 countdown
                          (run [Submit 1000%Z] (step initialApp (TypeMinutes "1")))))
     = number 0
  /\ lessonStarted
       (session (Nat.iter 75 countdown
                          (run [Submit 1000%Z] (step initialApp (TypeMinutes "1")))))
     = true.
Proof.
  assert (Hs : lessonStarted
                 (session (run [Submit 1000%Z] (step initialApp (TypeMinutes "1")))) = true)
    by (vm_compute; reflexivity).
  assert (Hr : remainingSeconds
                 (session (run [Submit 1000%Z] (step initialApp (TypeMinutes "1"))))
               = number 60) by (vm_compute; reflexivity).
  assert (Hb : (0 <= 60 <= longest_lesson)%Z) by (unfold longest_lesson; lia).
  destruct (countdown_stops_at_zero _ 60 75 Hs Hr Hb) as (H1 & H2 & _).
  refine (conj Hs (conj Hr (conj Hb (conj _ H2)))).
  exact H1.
Defined.

Lemma formatDuration_witness :
  (0 <= 125)%Z /\ (0 <= 65)%Z
  /\ formatDuration 125 = "2m 5s" /\ formatDuration 65 = "1m 5s"
  /\ (formatDuration 125 = formatDuration 65 -> 125 = 65)%Z
  /\ formatDuration (-30) = "-1m -30s".
Proof.
  assert (Ha : (0 <= 125)%Z) by lia. assert (Hb : (0 <= 65)%Z) by lia.
  refine (conj Ha (conj Hb (conj eq_refl (conj eq_refl (conj _ eq_refl))))).
  exact (proj1 (proj2 formatDuration_shows_the_duration) 125%Z 65%Z Ha Hb).
Defined.

Lemma dragged_camera_witness :
  Camera.startDrag Camera.box 30 40 <> None
  /\ PrimFloat.leb 16 (800 - 200) = true
  /\ Camera.x (Camera.handleMove (Camera.startDrag Camera.box 30 40)
                   (Some Camera.view)
                   5000 3 Camera.initialCameraPosition) = 600%float
  /\ PrimFloat.leb 16
       (Camera.x (Camera.handleMove (Camera.startDrag Camera.box 30 40)
                      (Some Camera.view)
                      5000 3 Camera.initialCameraPosition)) = true.
Proof.
  assert (Hd : Camera.startDrag Camera.box 30 40
               <> None) by discriminate.
  assert (Hroom : PrimFloat.leb 16 (800 - 200) = true) by (vm_compute; reflexivity).
  refine (conj Hd (conj Hroom (conj _ _))).
  - vm_compute. reflexivity.
  - refine (proj2 (proj1 (proj2 (dragged_camera_stays_in_view
                                  (Camera.startDrag Camera.box 30 40)
                                  (Some Camera.view)
                                  5000 3 Camera.initialCameraPosition)
                                _ Hd eq_refl) _) Hroom).
    vm_compute. reflexivity.
Defined.

Lemma revisions_of_evaluateFocus_witness :
  normalized_sample (JObj [("state", JStr "Looking Left"); ("h_ratio", JNum 0.5);
                           ("v_ratio", JNum 0.5)])
  = Returns ("looking left", [])
  /\ exists old new : Verdict,
      Rev1.evaluateFocus (JObj [("state", JStr "Looking Left"); ("h_ratio", JNum 0.5);
                                ("v_ratio", JNum 0.5)]) = Returns old
      /\ evaluateFocus initialVisionConfig (JBool true)
                       (JObj [("state", JStr "Looking Left"); ("h_ratio", JNum 0.5);
                              ("v_ratio", JNum 0.5)]) = Returns new
      /\ new = old.
Proof.
  assert (H : normalized_sample (JObj [("state", JStr "Looking Left"); ("h_ratio", JNum 0.5);
                                       ("v_ratio", JNum 0.5)])
              = Returns ("looking left", [])) by (vm_compute; reflexivity).
  split; [exact H|].
  destruct (proj2 (revisions_of_evaluateFocus (JBool true) _) _ _ H)
    as (old & new & Ho & Hn & _ & Hsame).
  exists old, new. split; [exact Ho|]. split; [exact Hn|].
  apply Hsame; reflexivity.
Defined.

Lemma timeline_entries_are_labelled_witness :
  sessionTimeline (session (step (run Sample.drifting initialApp) (Render 1100)))
  = sessionTimeline (session (run Sample.drifting initialApp))
    ++ [{| Entry.elapsedSeconds := 0; Entry.state := Distracted;
           Entry.label := "looking left" |}]
  /\ distractorReason (vision (run Sample.drifting initialApp)) = "looking left".
Proof.
  assert (H : sessionTimeline (session (step (run Sample.drifting initialApp) (Render 1100)))
              = sessionTimeline (session (run Sample.drifting initialApp))
                ++ [{| Entry.elapsedSeconds := 0; Entry.state := Distracted;
                       Entry.label := "looking left" |}])
    by (vm_compute; reflexivity).
  split; [exact H|].
  pose proof (proj2 (proj2 (timeline_entries_are_labelled Sample.drifting)) _ _ H) as Hl.
  cbn [Entry.state Entry.label] in Hl.
  destruct (JsString.is_empty (distractorReason (vision (run Sample.drifting initialApp))))
    eqn:He; [discriminate Hl|].
  symmetry. exact Hl.
Defined.

Lemma frame_the_classifier_throws_on_witness :
  field (JObj [("state", JStr "phone in hand"); ("objects", JStr "phone")]) "state"
  = JStr "phone in hand"
  /\ JsString.is_empty "phone in hand" = false
  /\ evaluateFocus initialVisionConfig (JBool true)
                   (JObj [("state", JStr "phone in hand"); ("objects", JStr "phone")])
     = Throws
  /\ smoother (onmessage {| heardConfig := initialVisionConfig;
                            heardIncludeTalking := JBool true |}
                         (JObj [("state", JStr "phone in hand"); ("objects", JStr "phone")])
                         initialApp)
     = smoother initialApp
  /\ recentStatesRef
       (vision (onmessage {| heardConfig := initialVisionConfig;
                             heardIncludeTalking := JBool true |}
                          (JObj [("state", JStr "phone in hand"); ("objects", JStr "phone")])
                          initialApp))
     = [JStr "phone in hand"].
Proof.
  assert (Hs : field (JObj [("state", JStr "phone in hand"); ("objects", JStr "phone")])
                     "state" = JStr "phone in hand") by reflexivity.
  assert (Hn : JsString.is_empty "phone in hand" = false) by reflexivity.
  assert (Ht : evaluateFocus initialVisionConfig (JBool true)
                 (JObj [("state", JStr "phone in hand"); ("objects", JStr "phone")])
               = Throws) by (vm_compute; reflexivity).
  destruct (proj2 (proj2 (frame_the_classifier_throws_on
                            {| heardConfig := initialVisionConfig;
                               heardIncludeTalking := JBool true |}
                            (JObj [("state", JStr "phone in hand"); ("objects", JStr "phone")])
                            initialApp))
                  "phone in hand" Hs Hn Ht) as (H1 & H2 & _).
  refine (conj Hs (conj Hn (conj Ht (conj H1 _)))).
  rewrite H2. reflexivity.
Defined.

Lemma simulated_verdict_witness :
  PrimFloat.ltb ((fun _ : nat => 0.5%float) 0) 0.7 = true
  /\ exists result : Verdict,
      Rev1.evaluateFocus (fst (Simulated.sample (fun _ => 0.5%float) 0)) = Returns result
      /\ snd (Simulated.sample (fun _ => 0.5%float) 0) = 3
      /\ focused result = true.
Proof.
  assert (Hb : PrimFloat.ltb ((fun _ : nat => 0.5%float) 0) 0.7 = true)
    by (vm_compute; reflexivity).
  split; [exact Hb|].
  destruct (simulated_verdict (fun _ => 0.5%float) 0 initialSmoother)
    as (result & Hr & _ & Hlow & _).
  destruct (Hlow Hb) as [Hn Hf].
  exists result. split; [exact Hr|]. split; [exact Hn|].
  rewrite Hf. vm_compute. reflexivity.
Defined.

Lemma no_alert_without_warning_witness :
  forallb clocked (Sample.drifting ++ [Render 1100; End 2000]%Z) = true
  /\ lessonStarted (session (run (Sample.drifting ++ [Render 1100; End 2000]%Z) initialApp))
     = false
  /\ alertTimeoutRef (alerting (run (Sample.drifting ++ [Render 1100]%Z) initialApp)) <> None
  /\ alertTimeoutRef
       (alerting (run (Sample.drifting ++ [Render 1100; End 2000]%Z) initialApp)) = None.
Proof.
  assert (Hc : forallb clocked (Sample.drifting ++ [Render 1100; End 2000]%Z) = true)
    by reflexivity.
  assert (Hoff : lessonStarted
                   (session (run (Sample.drifting ++ [Render 1100; End 2000]%Z) initialApp))
                 = false) by (vm_compute; reflexivity).
  refine (conj Hc (conj Hoff (conj _ _))).
  - vm_compute. discriminate.
  - exact (proj1 (proj1 (no_alert_without_warning _ Hc) Hoff)).
Defined.

Lemma pending_alert_witness :
  exists t : AlertTimer,
    alertTimeoutRef (alerting (run (Sample.drifting ++ [Render 1100%Z]) initialApp)) = Some t
    /\ seenReason t
       = distractorReason (vision (run (Sample.drifting ++ [Render 1100%Z]) initialApp))
    /\ seenReason t = "looking left".
Proof.
  eexists.
  assert (H : alertTimeoutRef
                (alerting (run (Sample.drifting ++ [Render 1100%Z]) initialApp))
              = Some {| due := 5100; seenWarning := true; seenReason := "looking left";
                        seenVisionState := "looking left"; seenCharacter := "cop";
                        seenIncludeTalking := JBool true |})
    by (vm_compute; reflexivity).
  split; [exact H|]. split; [|reflexivity].
  exact (proj1 (pending_alert_is_up_to_date Sample.drifting 1100 _ H)).
Defined.
